(** * Decision-intelligence dashboard backend: the scenario run

    A shallow embedding of [backend/main.py] (the [run_simulation] endpoint)
    and the properties of its specification.

    Numbers are modelled as Python has them:
    - [int] is an unbounded integer, here [Z];
    - [float] is an IEEE 754 binary64 value, here Rocq's primitive [float],
      whose operations are specified by [SpecFloat] ([Prim2SF], [SF64add], ...);
    - mixed [int]/[float] arithmetic converts the [int] operand first, and that
      conversion raises [OverflowError] when the integer is too large;
    - [random.gauss] is the only source of non-determinism: it is modelled as
      an oracle [nat -> float] that gives the value returned by the k-th call.

    Exceptions are modelled with an error monad [result]. *)

From Stdlib Require Import ZArith List String Ascii Bool Lia Floats.
Import ListNotations.

Set Warnings "-inexact-float".

Local Open Scope Z_scope.

(** ** Exceptions *)

Inductive exn : Type :=
| OverflowError
| ValueError
| ZeroDivisionError
| IndexError.

Inductive result (A : Type) : Type :=
| Ok (a : A)
| Raise (e : exn).

Arguments Ok {A} a.
Arguments Raise {A} e.

Definition bind {A B : Type} (r : result A) (k : A -> result B) : result B :=
  match r with
  | Ok a => k a
  | Raise e => Raise e
  end.

Notation "'let*' x ':=' r 'in' k" := (bind r (fun x => k))
  (at level 10, x pattern, r at level 100, k at level 200).

Definition returns {A : Type} (r : result A) : Prop := exists a, r = Ok a.

(** ** Python's numeric primitives on binary64 *)

Module Py.

(** [float(n)] for an [int] [n], as done implicitly by mixed arithmetic:
    round to nearest, ties to even; [OverflowError] when the rounded value
    does not fit ("int too large to convert to float"). *)
Definition float_of_int (n : Z) : result float :=
  match binary_normalize prec emax n 0 false with
  | S754_infinity _ => Raise OverflowError
  | sf => Ok (SF2Prim sf)
  end.

(** [a / b] for two [int]s (true division): the correctly rounded quotient;
    [ZeroDivisionError] for [b = 0], [OverflowError] when the quotient is too
    large for a float. *)
Definition int_truediv (a b : Z) : result float :=
  if b =? 0 then Raise ZeroDivisionError
  else
    let negate := xorb (a <? 0) (b <? 0) in
    if a =? 0 then Ok (SF2Prim (S754_zero negate))
    else
      let '(mz, ez, lz) := SFdiv_core_binary prec emax (Z.abs a) 0 (Z.abs b) 0 in
      match binary_round_aux prec emax negate mz ez lz with
      | S754_infinity _ => Raise OverflowError
      | sf => Ok (SF2Prim sf)
      end.

(** [x / y] for two [float]s: [ZeroDivisionError] when [y] is a zero. *)
Definition float_div (x y : float) : result float :=
  if PrimFloat.eqb y 0%float then Raise ZeroDivisionError
  else Ok (PrimFloat.div x y).

(** [math.sqrt(x)] for a [float]: [ValueError] ("math domain error") for a
    negative argument; NaN, zeros and +inf are returned unchanged. *)
Definition math_sqrt (x : float) : result float :=
  if PrimFloat.ltb x 0%float then Raise ValueError
  else Ok (PrimFloat.sqrt x).

(** [max(a, b)] on floats: the builtin keeps its first argument unless the
    second one compares greater. *)
Definition max (a b : float) : float :=
  if PrimFloat.ltb a b then b else a.

(** Round half to even of the non-negative rational [num / den]. *)
Definition div_half_even (num den : Z) : Z :=
  let q := num / den in
  let r := num mod den in
  match 2 * r ?= den with
  | Lt => q
  | Gt => q + 1
  | Eq => if Z.even q then q else q + 1
  end.

(** [round(x, ndigits)] for a [float] and [ndigits >= 0]: the decimal value
    of [x] is rounded half to even at [ndigits] places and the result is the
    double nearest to that decimal.  Infinities, NaN and zeros round to
    themselves.  [OverflowError] is raised when the result is not finite
    ("rounded value too large to represent"). *)
Definition round (x : float) (ndigits : nat) : result float :=
  match Prim2SF x with
  | S754_finite s m e =>
      if 0 <=? e then Ok x
      else
        let p10 := 10 ^ Z.of_nat ndigits in
        let n := div_half_even (Zpos m * p10) (2 ^ (- e)) in
        if n =? 0 then Ok (SF2Prim (S754_zero s))
        else
          let '(mz, ez, lz) := SFdiv_core_binary prec emax n 0 p10 0 in
          match binary_round_aux prec emax s mz ez lz with
          | S754_infinity _ => Raise OverflowError
          | sf => Ok (SF2Prim sf)
          end
  | _ => Ok x
  end.

(** [s.lower()] on the ASCII letters. *)
Definition lower_ascii (c : ascii) : ascii :=
  let n := nat_of_ascii c in
  if andb (Nat.leb 65 n) (Nat.leb n 90) then ascii_of_nat (n + 32) else c.

Fixpoint lower (s : string) : string :=
  match s with
  | EmptyString => EmptyString
  | String c s' => String (lower_ascii c) (lower s')
  end.

End Py.

(** ** Lists and dictionaries as the program uses them *)

(** [l[i]] and [l[i] = v]: [IndexError] out of range. *)
Definition getitem {A : Type} (l : list A) (i : nat) : result A :=
  match nth_error l i with
  | Some x => Ok x
  | None => Raise IndexError
  end.

Fixpoint list_set {A : Type} (l : list A) (i : nat) (v : A) : list A :=
  match l, i with
  | [], _ => []
  | _ :: l', O => v :: l'
  | x :: l', S i' => x :: list_set l' i' v
  end.

Definition setitem {A : Type} (l : list A) (i : nat) (v : A) : result (list A) :=
  if Nat.ltb i (List.length l) then Ok (list_set l i v) else Raise IndexError.

(** [d.get(k, default)] on a dictionary given by its items. *)
Fixpoint dict_get {K V : Type} (eqk : K -> K -> bool) (d : list (K * V))
    (k : K) (default : V) : V :=
  match d with
  | [] => default
  | (k', v) :: d' => if eqk k' k then v else dict_get eqk d' k default
  end.

(** [for x in xs: body], threading the loop's variables as a state. *)
Fixpoint for_in {S : Type} (xs : list nat) (body : nat -> S -> result S)
    (st : S) : result S :=
  match xs with
  | [] => Ok st
  | x :: xs' => let* st' := body x st in for_in xs' body st'
  end.

Definition range (n : nat) : list nat := seq 0 n.

(** ** The request and the response *)

Record Scenario : Type := {
  demand : Z;
  lead_time : Z;
  cost : float;
  scenario_type : string;
  ordering_cost : float;
  holding_cost : float;
  service_target : float;
  demand_std : float
}.

(** A value of the returned dictionary. *)
Inductive value : Type :=
| VFloat (x : float)
| VList (xs : list float)
| VStr (s : string).

Definition response : Type := list (string * value).

Definition field (r : response) (k : string) : option value :=
  option_map snd (find (fun kv => String.eqb (fst kv) k) r).

Definition keys (r : response) : list string := map fst r.

(** ** [run_simulation] *)

Local Open Scope string_scope.
Local Open Scope list_scope.
Local Open Scope float_scope.

Definition service_map : list (string * float) :=
  [("optimistic", 0.98); ("base", 0.95); ("pessimistic", 0.90)].

Definition z_map : list (float * float) :=
  [(0.90, 1.28); (0.95, 1.65); (0.97, 1.88); (0.99, 2.33)].

Definition horizon : nat := 12.
Definition num_runs : nat := 300.

(** The constant [0] that [inv = 0] stores is the [int] zero; every later
    use of it ([inv -= demand_real], the comparisons, [sum_levels[t] += inv])
    converts it to the float [+0.0], which is what the model stores. *)
Definition int_zero : float := 0.

(** Lines 38-39. *)
Definition total_cost (s : Scenario) : result float :=
  let* d := Py.float_of_int (demand s) in
  Ok (d * cost s).

Definition expected_delay (s : Scenario) : result float :=
  let* l := Py.float_of_int (lead_time s) in
  Ok (l * 0.5).

(** Lines 41-46. *)
Definition service_level (s : Scenario) : float :=
  dict_get String.eqb service_map (Py.lower (scenario_type s)) 0.95.

(** Lines 49-51. *)
Definition eoq (s : Scenario) : result float :=
  let* d2 := Py.float_of_int (2 * demand s) in
  let* q := Py.float_div (d2 * ordering_cost s) (Py.max (holding_cost s) 0.0001) in
  Py.math_sqrt q.

(** Lines 54-56. *)
Definition z_score (s : Scenario) : result float :=
  let* target_rounded := Py.round (service_target s) 2 in
  Ok (dict_get PrimFloat.eqb z_map target_rounded 1.65).

(** Line 58. *)
Definition safety_stock (s : Scenario) : result float :=
  let* z := z_score s in
  let* l := Py.float_of_int (Z.max (lead_time s) 1) in
  let* r := Py.math_sqrt l in
  Ok (z * demand_std s * r).

(** Lines 59-60. *)
Definition reorder_point (s : Scenario) (safety : float) : result float :=
  let* daily_demand := Py.int_truediv (demand s) (Z.max (lead_time s) 1) in
  let* l := Py.float_of_int (lead_time s) in
  Ok (daily_demand * l + safety).

(** Line 83. *)
Definition starting_inventory (s : Scenario) (safety : float) : result float :=
  let* d := Py.float_of_int (demand s) in
  Ok (d + safety).

(** Lines 64-66. *)
Definition growth (s : Scenario) : float :=
  let g := if String.eqb (Py.lower (scenario_type s)) "optimistic"
           then 0.02 else 0.0 in
  if String.eqb (Py.lower (scenario_type s)) "pessimistic" then -0.02 else g.

(** Lines 71-72, the body of the forecast loop. *)
Definition forecast_step (s : Scenario) (t : nat) (forecast : list float)
  : result (list float) :=
  let* tf := Py.float_of_int (Z.of_nat t) in
  let* one := Py.float_of_int 1 in
  let* current := Py.float_of_int (demand s) in
  let* r := Py.round (current * (one + growth s * tf)) 2 in
  Ok (forecast ++ [r]).

(** Lines 68-72. *)
Definition forecast (s : Scenario) : result (list float) :=
  for_in (range horizon) (forecast_step s) [].

(** The variables of the Monte-Carlo loops (lines 76-80 and 86-87), with
    the number of [random.gauss] calls made so far. *)
Record sim : Type := {
  inventory_paths : list (list float);
  sum_levels : list float;
  min_levels : list float;
  max_levels : list float;
  stockout_events : Z;
  gauss_calls : nat;
  inv : float;
  path : list float
}.

(** Lines 89-103, the body of the loop over the periods; [gauss k] is the
    value of the k-th call of [random.gauss]. *)
Definition period_step (gauss : nat -> float) (t : nat) (st : sim)
  : result sim :=
  let demand_real := Py.max 0.0 (gauss (gauss_calls st)) in
  let inv1 := inv st - demand_real in
  let stockout := inv1 <=? 0 in
  let events := if stockout then (stockout_events st + 1)%Z
                else stockout_events st in
  let inv2 := if stockout then int_zero else inv1 in
  let path2 := path st ++ [inv2] in
  let* s_t := getitem (sum_levels st) t in
  let* sums := setitem (sum_levels st) t (s_t + inv2) in
  let* min_t := getitem (min_levels st) t in
  let* mins := if inv2 <? min_t then setitem (min_levels st) t inv2
               else Ok (min_levels st) in
  let* max_t := getitem (max_levels st) t in
  let* maxs := if max_t <? inv2 then setitem (max_levels st) t inv2
               else Ok (max_levels st) in
  Ok {| inventory_paths := inventory_paths st;
        sum_levels := sums; min_levels := mins; max_levels := maxs;
        stockout_events := events;
        gauss_calls := S (gauss_calls st);
        inv := inv2; path := path2 |}.

(** Lines 86-107, the body of the loop over the runs. *)
Definition run_step (gauss : nat -> float) (start : float)
    (run : nat) (st : sim) : result sim :=
  let st0 := {| inventory_paths := inventory_paths st;
                sum_levels := sum_levels st; min_levels := min_levels st;
                max_levels := max_levels st;
                stockout_events := stockout_events st;
                gauss_calls := gauss_calls st;
                inv := start; path := [] |} in
  let* st1 := for_in (range horizon) (period_step gauss) st0 in
  Ok (if Nat.ltb run 20
      then {| inventory_paths := inventory_paths st1 ++ [path st1];
              sum_levels := sum_levels st1; min_levels := min_levels st1;
              max_levels := max_levels st1;
              stockout_events := stockout_events st1;
              gauss_calls := gauss_calls st1;
              inv := inv st1; path := path st1 |}
      else st1).

(** Lines 75-80. *)
Definition sim_init : sim :=
  {| inventory_paths := [];
     sum_levels := repeat 0.0 horizon;
     min_levels := repeat infinity horizon;
     max_levels := repeat neg_infinity horizon;
     stockout_events := 0%Z;
     gauss_calls := O;
     inv := 0.0; path := [] |}.

(** Lines 83-107. *)
Definition simulate (gauss : nat -> float) (start : float) : result sim :=
  for_in (range num_runs) (run_step gauss start) sim_init.

(** Line 109. *)
Fixpoint avg_levels (sums : list float) : result (list float) :=
  match sums with
  | [] => Ok []
  | x :: sums' =>
      let* n := Py.float_of_int (Z.of_nat num_runs) in
      let* a := Py.float_div x n in
      let* rest := avg_levels sums' in
      Ok (a :: rest)
  end.

(** Lines 81 and 112. *)
Definition total_points : Z := Z.of_nat num_runs * Z.of_nat horizon.

Definition stockout_probability (events : Z) : result float :=
  Py.int_truediv events (Z.max total_points 1).

(** Lines 115-120. *)
Definition risk_level (p : float) : string :=
  if p <? 0.1 then "low"
  else if p <? 0.3 then "medium"
  else "high".

(** Lines 36-135. *)
Definition run_simulation (s : Scenario) (gauss : nat -> float)
  : result response :=
  let* tc := total_cost s in
  let* ed := expected_delay s in
  let sl := service_level s in
  let* e := eoq s in
  let* ss := safety_stock s in
  let* rp := reorder_point s ss in
  let* fc := forecast s in
  let* start := starting_inventory s ss in
  let* st := simulate gauss start in
  let* avg := avg_levels (sum_levels st) in
  let lower_band := min_levels st in
  let upper_band := max_levels st in
  let* p := stockout_probability (stockout_events st) in
  let risk := risk_level p in
  let* r_tc := Py.round tc 2 in
  let* r_ed := Py.round ed 2 in
  let* r_sl := Py.round sl 3 in
  let* r_e := Py.round e 2 in
  let* r_ss := Py.round ss 2 in
  let* r_rp := Py.round rp 2 in
  let* r_p := Py.round p 3 in
  Ok [ ("total_cost", VFloat r_tc);
       ("expected_delay", VFloat r_ed);
       ("service_level", VFloat r_sl);
       ("eoq", VFloat r_e);
       ("safety_stock", VFloat r_ss);
       ("reorder_point", VFloat r_rp);
       ("forecast", VList fc);
       ("inventory_avg", VList avg);
       ("inventory_lower", VList lower_band);
       ("inventory_upper", VList upper_band);
       ("stockout_probability", VFloat r_p);
       ("risk_level", VStr risk) ].

(** * Auxiliary definitions

    The definitions used to state and prove the properties: the value of a
    float as an integer number of units of 2^-1074, the loops of the
    simulation as pure functions of the draws, the example requests. *)

Local Close Scope float_scope.
Local Open Scope Z_scope.

(** ** Floats as integers

    Every finite binary64 value is an integer multiple of 2^-1074.
    [round_units p q] is the rational [p / q] (in these units, [p >= 0],
    [q > 0]) rounded to 53 significant bits, ties to even. *)
Definition round_units (p q : Z) : Z :=
  let a := p / q in
  let k := Z.max 0 (Zdigits2 a - prec) in
  Py.div_half_even p (q * 2 ^ k) * 2 ^ k.

(** The position of the remainder [r] of a division by [d]. *)
Definition loc_of (r d : Z) : location :=
  if r =? 0 then loc_Exact else loc_Inexact (2 * r ?= d).

Definition rec_of (P Q : Z) : shr_record :=
  shr_record_of_loc (P / Q) (loc_of (P mod Q) Q).

(** The float with sign [s] and [v] units. *)
Definition encode (s : bool) (v : Z) : spec_float :=
  if v =? 0 then S754_zero s
  else if 2 ^ 2098 <=? v then S754_infinity s
  else
    let k := Z.max 0 (Zdigits2 v - prec) in
    S754_finite s (Z.to_pos (v / 2 ^ k)) (k + emin).

(** The infinities are placed at 2^2098 units, the first value that
    rounding to nearest does not bring back to a finite float. *)
Definition INF : Z := 2 ^ 2098.

(** The number of units of a float (0 for NaN, which [sf_nan] tells apart). *)
Definition ord (x : spec_float) : Z :=
  match x with
  | S754_zero _ => 0
  | S754_infinity s => if s then - INF else INF
  | S754_nan => 0
  | S754_finite s m e =>
      let v := Z.pos m * 2 ^ (e + 1074) in if s then - v else v
  end.

Definition sf_nan (x : spec_float) : bool :=
  match x with S754_nan => true | _ => false end.

Definition sgn (s : bool) (v : Z) : Z := if s then - v else v.

(** Signs: [sf_nonneg] holds of NaN, [sf_pos] does not. *)

Definition sf_nonneg (x : spec_float) : bool :=
  match x with
  | S754_zero _ | S754_nan => true
  | S754_infinity s | S754_finite s _ _ => negb s
  end.

Definition sf_pos (x : spec_float) : bool :=
  match x with
  | S754_zero _ | S754_nan => false
  | S754_infinity s | S754_finite s _ _ => negb s
  end.

Definition sf_signed (s : bool) (x : spec_float) : bool :=
  match x with
  | S754_nan => false
  | S754_zero s' | S754_infinity s' | S754_finite s' _ _ => Bool.eqb s' s
  end.

Definition F2Z (x : float) : Z := ord (Prim2SF x).

Definition fnan (x : float) : bool := sf_nan (Prim2SF x).

Definition fnonneg (x : float) : bool := sf_nonneg (Prim2SF x).

Definition fpos (x : float) : bool := sf_pos (Prim2SF x).

(** The units of [x / 300] for a float [x >= 0] of [v] units. *)
Definition div300_units (v : Z) : Z :=
  if v =? INF then INF else Z.min INF (round_units v 300).

(** The largest integer that converts to a float. *)
Definition max_int_float : Z := 2 ^ 1024 - 2 ^ 970 - 1.

(** ** The Monte-Carlo loops as functions of the draws

    [level_step inv d] is the inventory recorded at the end of a period that
    starts with [inv] and draws the realized demand [d] (lines 90-97);
    [stockout inv d] tells whether the period counts a stockout event. *)
Definition level_step (inv d : float) : float :=
  let inv1 := (inv - d)%float in
  if (inv1 <=? 0)%float then int_zero else inv1.

Definition stockout (inv d : float) : bool := ((inv - d) <=? 0)%float.

Fixpoint path_from (inv : float) (ds : list float) : list float :=
  match ds with
  | [] => []
  | d :: ds' => level_step inv d :: path_from (level_step inv d) ds'
  end.

Fixpoint stockouts_from (inv : float) (ds : list float) : list bool :=
  match ds with
  | [] => []
  | d :: ds' => stockout inv d :: stockouts_from (level_step inv d) ds'
  end.

Fixpoint count_true (bs : list bool) : Z :=
  match bs with
  | [] => 0
  | b :: bs' => (if b then 1 else 0) + count_true bs'
  end.

(** The [n] realized demands from call [first] of [random.gauss] on
    (line 89). *)
Definition draws (gauss : nat -> float) (first n : nat) : list float :=
  map (fun i => Py.max 0%float (gauss (first + i)%nat)) (seq 0 n).

Fixpoint zip_with {A B C : Type} (f : A -> B -> C) (xs : list A) (ys : list B)
  : list C :=
  match xs, ys with
  | x :: xs', y :: ys' => f x y :: zip_with f xs' ys'
  | _, _ => []
  end.

(** The updates of lines 100-103. *)
Definition min_upd (m x : float) : float := if (x <? m)%float then x else m.

Definition max_upd (m x : float) : float := if (m <? x)%float then x else m.

(** One run of the outer loop, and the first [n] runs. *)
Definition run_pure (gauss : nat -> float) (start : float) (run : nat)
    (st : sim) : sim :=
  let ds := draws gauss (gauss_calls st) horizon in
  let p := path_from start ds in
  {| inventory_paths :=
       if Nat.ltb run 20 then inventory_paths st ++ [p] else inventory_paths st;
     sum_levels := zip_with PrimFloat.add (sum_levels st) p;
     min_levels := zip_with min_upd (min_levels st) p;
     max_levels := zip_with max_upd (max_levels st) p;
     stockout_events := stockout_events st + count_true (stockouts_from start ds);
     gauss_calls := gauss_calls st + horizon;
     inv := fold_left level_step ds start;
     path := p |}.

Fixpoint runs_pure (gauss : nat -> float) (start : float) (n : nat) : sim :=
  match n with
  | O => sim_init
  | S k => run_pure gauss start k (runs_pure gauss start k)
  end.

(** The three accumulators keep one cell per period. *)
Definition lists_ok (st : sim) : Prop :=
  List.length (sum_levels st) = horizon /\
  List.length (min_levels st) = horizon /\
  List.length (max_levels st) = horizon.

(** The path and the stockouts of one run. *)
Definition run_draws (gauss : nat -> float) (run : nat) : list float :=
  draws gauss (run * horizon) horizon.

Definition run_path (gauss : nat -> float) (start : float) (run : nat) : list float :=
  path_from start (run_draws gauss run).

Definition run_stockouts (gauss : nat -> float) (start : float) (run : nat) : list bool :=
  stockouts_from start (run_draws gauss run).

(** A float that is neither NaN nor infinite. *)
Definition finite (x : float) : Prop := fnan x = false /\ - INF < F2Z x < INF.

(** A realized demand: not NaN and not negative. *)
Definition is_draw (d : float) : Prop := fnan d = false /\ 0 <= F2Z d.

(** An inventory level: finite and not negative. *)
Definition is_level (x : float) : Prop := fnan x = false /\ 0 <= F2Z x < INF.

(** [chain x l]: the sequence [x :: l] is non-increasing. *)
Fixpoint chain (x : float) (l : list float) : Prop :=
  match l with
  | [] => True
  | y :: l' => F2Z y <= F2Z x /\ chain y l'
  end.

(** The number of stockout events of the first [n] runs. *)
Fixpoint sum_counts (gauss : nat -> float) (start : float) (n : nat) : Z :=
  match n with
  | O => 0
  | S k => sum_counts gauss start k + count_true (run_stockouts gauss start k)
  end.

(** The level recorded by run [run] in period [t], and the levels of the
    first [n] runs in period [t]. *)
Definition level (gauss : nat -> float) (start : float) (run t : nat) : float :=
  nth t (run_path gauss start run) 0%float.

Definition column (gauss : nat -> float) (start : float) (t n : nat) : list float :=
  map (fun r => level gauss start r t) (seq 0 n).

(** The pointwise order between two columns. *)
Definition below (l2 l1 : list float) : Prop :=
  Forall2 (fun y x => F2Z y <= F2Z x) l2 l1.

(** Sums of levels: never NaN, never negative (possibly +inf). *)
Definition is_sum (x : float) : Prop := fnan x = false /\ 0 <= F2Z x.

(** The units of [x + y] for floats [x, y >= 0] of [u] and [v] units. *)
Definition add_units (u v : Z) : Z := Z.min INF (round_units (u + v) 1).

(** ** Statements

    Float comparisons as propositions. *)
Definition fle (x y : float) : Prop := PrimFloat.leb x y = true.

Definition flt (x y : float) : Prop := PrimFloat.ltb x y = true.

(** The documented ranges of the parameters. *)
Definition in_ranges (s : Scenario) : Prop :=
  0 <= demand s /\ 0 <= lead_time s /\
  fle 0 (cost s) /\ flt 0 (ordering_cost s) /\ flt 0 (holding_cost s) /\
  fle 0 (demand_std s).

(** What the check of one event count says. *)
Definition prob_check (k : nat) : bool :=
  match stockout_probability (Z.of_nat k) with
  | Ok p =>
      match Py.round p 3, Py.float_of_int (Z.of_nat k) with
      | Ok r, Ok fk =>
          PrimFloat.leb 0 p && PrimFloat.leb p 1 &&
          PrimFloat.leb 0 r && PrimFloat.leb r 1 &&
          Bool.eqb (PrimFloat.ltb p 0.1) (Nat.ltb k 360) &&
          Bool.eqb (PrimFloat.ltb p 0.3) (Nat.ltb k 1080) &&
          PrimFloat.Leibniz.eqb p (fk / 3600)%float
      | _, _ => false
      end
  | Raise _ => false
  end.

(** The keys of the returned dictionary (lines 122-135). *)
Definition response_keys : list string :=
  [ "total_cost"; "expected_delay"; "service_level"; "eoq"; "safety_stock";
    "reorder_point"; "forecast"; "inventory_avg"; "inventory_lower";
    "inventory_upper"; "stockout_probability"; "risk_level" ].

(** Example requests and random sources. *)
Definition ex_scenario (d : Z) (std : float) : Scenario :=
  {| demand := d; lead_time := 4; cost := 5; scenario_type := "base";
     ordering_cost := 50; holding_cost := 2; service_target := 0.95;
     demand_std := std |}.

Definition gauss_const (x : float) : nat -> float := fun _ => x.

(** 29 runs deplete in their first period, one run in its second period,
    270 runs never: 29 * 12 + 11 = 359 stockout events. *)
Definition gauss_359 : nat -> float :=
  fun k => if Nat.ltb k 348 then 450%float
           else if Nat.eqb k 349 then 450%float else (-50)%float.

(** The inventory before period [t] of a run, and the realized demand. *)
Definition before (gauss : nat -> float) (start : float) (run t : nat) : float :=
  match t with
  | O => start
  | S t' => level gauss start run t'
  end.

Definition demand_real (gauss : nat -> float) (run t : nat) : float :=
  Py.max 0%float (gauss (run * horizon + t)%nat).

(** z = 2 standard deviations above the mean, with [demand_std = 1e308]:
    the draw overflows to +inf. *)
Definition gauss_overflow : nat -> float :=
  gauss_const (100 + 2 * 1e308)%float.

(** The growth rate as the data model describes it. *)
Definition growth_rule (scenario_type : string) : float :=
  if String.eqb (Py.lower scenario_type) "optimistic" then 0.02%float
  else if String.eqb (Py.lower scenario_type) "pessimistic" then (-0.02)%float
  else 0%float.

(** The z-score table as the data model describes it. *)
Definition z_table (target_rounded : float) : float :=
  if PrimFloat.eqb target_rounded 0.90 then 1.28%float
  else if PrimFloat.eqb target_rounded 0.95 then 1.65%float
  else if PrimFloat.eqb target_rounded 0.97 then 1.88%float
  else if PrimFloat.eqb target_rounded 0.99 then 2.33%float
  else 1.65%float.

(** A request with an optimistic type written with a capital and a service
    target just below 0.95. *)
Definition ex_optimistic : Scenario :=
  {| demand := 100; lead_time := 4; cost := 5; scenario_type := "Optimistic";
     ordering_cost := 50; holding_cost := 2; service_target := 0.9499999;
     demand_std := 10 |}.

(** [r] is [x] rounded to [nd] decimals. Values are compared in units of
    2^-1074: some whole number [N] of units [10^-nd] is nearest to [x]
    (the even one of two that are equally near), and [r] is a float
    nearest to the decimal [N / 10^nd]: no float is nearer. *)
Definition rounded_to (nd : nat) (x r : float) : Prop :=
  exists N : Z,
    2 * Z.abs (F2Z x * 10 ^ Z.of_nat nd - N * 2 ^ 1074) <= 2 ^ 1074 /\
    (2 * Z.abs (F2Z x * 10 ^ Z.of_nat nd - N * 2 ^ 1074) = 2 ^ 1074 ->
     Z.even N = true) /\
    finite r /\
    forall y, finite y ->
      Z.abs (F2Z r * 10 ^ Z.of_nat nd - N * 2 ^ 1074)
      <= Z.abs (F2Z y * 10 ^ Z.of_nat nd - N * 2 ^ 1074).

(** ** Further statements *)

(** The argument of the square root of the EOQ (lines 49-51), given the float
    [d2] of [2 * demand]. *)
Definition eoq_radicand (s : Scenario) (d2 : float) : float :=
  (d2 * ordering_cost s / Py.max (holding_cost s) 0.0001)%float.

(** Both integers of the request can be converted to a float. *)
Definition ints_fit (s : Scenario) : Prop :=
  Z.abs (2 * demand s) <= max_int_float /\ Z.abs (lead_time s) <= max_int_float.

(** A request whose ordering cost is negative. *)
Definition ex_negative_cost : Scenario :=
  {| demand := 100; lead_time := 4; cost := 5; scenario_type := "base";
     ordering_cost := -50; holding_cost := 2; service_target := 0.95;
     demand_std := 10 |}.

(** The service level by scenario type, with its fallback. *)
Definition service_rule (scenario_type : string) : float :=
  if String.eqb (Py.lower scenario_type) "optimistic" then 0.98%float
  else if String.eqb (Py.lower scenario_type) "pessimistic" then 0.9%float
  else 0.95%float.

(** Two sources of draws agree on the first [n] calls. *)
Definition agree_upto (n : nat) (g g' : nat -> float) : Prop :=
  forall k, (k < n)%nat -> g k = g' k.

(** A source that changes after the last call of the simulation. *)
Definition gauss_late : nat -> float :=
  fun k => if Nat.ltb k 3600 then 99.9%float else 0%float.

(** What one event count says about the label and the returned probability. *)
Definition label_check (k : nat) : bool :=
  match stockout_probability (Z.of_nat k) with
  | Ok p =>
      match Py.round p 3 with
      | Ok r =>
          if Nat.ltb k 360 then PrimFloat.leb r 0.1
          else if Nat.ltb k 1080 then PrimFloat.leb 0.1 r && PrimFloat.leb r 0.3
          else PrimFloat.leb 0.3 r
      | Raise _ => false
      end
  | Raise _ => false
  end.

(** The units of [round(x, nd)] for a finite float [x >= 0] of [v] units:
    the decimal [n / 10^nd] nearest to [x], then the float nearest to it. *)
Definition round_dec_units (nd : nat) (v : Z) : Z :=
  round_units (Py.div_half_even (v * 10 ^ Z.of_nat nd) (2 ^ 1074) * 2 ^ 1074)
              (10 ^ Z.of_nat nd).

(** The factor [1 + growth * t] of period [t] (line 71). *)
Definition factor (g : float) (t : nat) : float :=
  match Py.float_of_int (Z.of_nat t) with
  | Ok tf => (1 + g * tf)%float
  | Raise _ => nan
  end.

(** A float that is a number and is not negative. *)
Definition nonneg_number (x : float) : Prop := fnan x = false /\ 0 <= F2Z x < INF.

(** A request with the lead time 0. *)
Definition ex_no_lead : Scenario :=
  {| demand := 100; lead_time := 0; cost := 5; scenario_type := "base";
     ordering_cost := 50; holding_cost := 2; service_target := 0.95;
     demand_std := 10 |}.

(** A float is not negative ([-0.0] and NaN are not). *)
Definition not_negative (x : float) : Prop := PrimFloat.ltb x 0 = false.

(** The scalars of the response, the label apart. *)
Definition scalar_keys : list string :=
  [ "total_cost"; "expected_delay"; "service_level"; "eoq"; "safety_stock";
    "reorder_point"; "stockout_probability" ].

(** The request [s] with another scenario type. *)
Definition with_type (s : Scenario) (ty : string) : Scenario :=
  {| demand := demand s; lead_time := lead_time s; cost := cost s;
     scenario_type := ty;
     ordering_cost := ordering_cost s; holding_cost := holding_cost s;
     service_target := service_target s; demand_std := demand_std s |}.

(** No draw of the simulation is positive. *)
Definition no_positive_draw (gauss : nat -> float) : Prop :=
  forall k, (k < 3600)%nat -> PrimFloat.ltb 0 (gauss k) = false.

(** A float that compares equal to 0 ([+0.0] or [-0.0]). *)
Definition is_zero (x : float) : Prop := PrimFloat.eqb x 0 = true.

(** The float [x] is exactly the integer [z]. *)
Definition float_is (x : float) (z : Z) : Prop :=
  fnan x = false /\ F2Z x = z * 2 ^ 1074.

(** * Properties *)

(** ** Rounding to 53 significant bits, on integers *)

Lemma digits2_pos_size p : digits2_pos p = Pos.size p.
Proof. induction p; simpl; congruence. Qed.

Lemma digits_bounds a : 0 < a -> 2 ^ (Zdigits2 a - 1) <= a < 2 ^ Zdigits2 a.
Proof.
  destruct a as [|p|p]; try lia. intros _.
  change (Zdigits2 (Z.pos p)) with (Z.pos (digits2_pos p)). rewrite digits2_pos_size.
  split.
  - pose proof (Pos.size_le p) as H.
    assert (Hs: Z.pos (Pos.size p) = Z.succ (Z.pos (Pos.size p) - 1)) by lia.
    assert (H2: (2 ^ Z.pos (Pos.size p) <= 2 * Z.pos p)).
    { rewrite <- Pos2Z.inj_pow. apply (Pos2Z.pos_le_pos _ (p~0)%positive). exact H. }
    rewrite Hs in H2. rewrite Z.pow_succ_r in H2 by lia. lia.
  - pose proof (Pos.size_gt p) as H.
    rewrite <- Pos2Z.inj_pow. apply Pos2Z.pos_lt_pos. exact H.
Qed.

Lemma digits_nonneg a : 0 <= Zdigits2 a.
Proof. destruct a; simpl; lia. Qed.

Lemma digits_pos a : 0 < a -> 0 < Zdigits2 a.
Proof. destruct a; simpl; lia. Qed.

Lemma digits_unique a d : 0 < d -> 2 ^ (d - 1) <= a < 2 ^ d -> Zdigits2 a = d.
Proof.
  intros Hd [H1 H2].
  assert (Ha : 0 < a). { pose proof (Z.pow_pos_nonneg 2 (d-1)). lia. }
  destruct (digits_bounds a Ha) as [B1 B2].
  pose proof (digits_pos a Ha).
  destruct (Z.lt_trichotomy (Zdigits2 a) d) as [L|[E|G]]; auto.
  - assert (2 ^ Zdigits2 a <= 2 ^ (d - 1)) by (apply Z.pow_le_mono_r; lia). lia.
  - assert (2 ^ d <= 2 ^ (Zdigits2 a - 1)) by (apply Z.pow_le_mono_r; lia). lia.
Qed.

Lemma digits_mono a b : 0 <= a <= b -> Zdigits2 a <= Zdigits2 b.
Proof.
  intros [Ha Hab].
  destruct (Z.eq_dec a 0) as [->|Hn]. { simpl. apply digits_nonneg. }
  assert (0 < a) by lia. assert (0 < b) by lia.
  destruct (digits_bounds a) as [A1 A2]; auto.
  destruct (digits_bounds b) as [B1 B2]; auto.
  destruct (Z_lt_le_dec (Zdigits2 b) (Zdigits2 a)) as [L|]; auto.
  assert (2 ^ Zdigits2 b <= 2 ^ (Zdigits2 a - 1)) by (apply Z.pow_le_mono_r; lia). lia.
Qed.

Lemma digits_lt_pow a d : 0 <= a -> 0 <= d -> a < 2 ^ d -> Zdigits2 a <= d.
Proof.
  intros Ha Hd H.
  destruct (Z.eq_dec a 0) as [->|Hn]. { simpl. lia. }
  destruct (digits_bounds a) as [A1 A2]; try lia.
  destruct (Z_lt_le_dec d (Zdigits2 a)) as [L|]; auto.
  assert (2 ^ d <= 2 ^ (Zdigits2 a - 1)) by (apply Z.pow_le_mono_r; lia). lia.
Qed.

Lemma digits_ge_pow a d : 0 <= d -> 2 ^ d <= a -> d + 1 <= Zdigits2 a.
Proof.
  intros Hd H.
  assert (0 < a). { pose proof (Z.pow_pos_nonneg 2 d). lia. }
  destruct (digits_bounds a) as [A1 A2]; try lia.
  destruct (Z_lt_le_dec (Zdigits2 a) (d + 1)) as [L|]; auto.
  assert (2 ^ Zdigits2 a <= 2 ^ d) by (apply Z.pow_le_mono_r; lia). lia.
Qed.

(** div_half_even *)
Lemma dhe_cases num den : 0 < den -> 0 <= num ->
  let q := num / den in let r := num mod den in
  num = den * q + r /\ 0 <= r < den /\
  ((Py.div_half_even num den = q /\ 2 * r <= den) \/
   (Py.div_half_even num den = q + 1 /\ den <= 2 * r)).
Proof.
  intros Hd Hn q r. unfold q, r.
  pose proof (Z.div_mod num den ltac:(lia)).
  pose proof (Z.mod_pos_bound num den Hd).
  repeat split; try lia.
  unfold Py.div_half_even.
  destruct (Z.compare_spec (2 * (num mod den)) den);
    try destruct (Z.even (num / den)); (left; split; [reflexivity|lia]) || (right; split; [reflexivity|lia]).
Qed.

Lemma dhe_exact n den : 0 < den -> Py.div_half_even (n * den) den = n.
Proof.
  intros Hd. unfold Py.div_half_even.
  rewrite Z.div_mul by lia. rewrite Z.mod_mul by lia.
  change (2 * 0) with 0.
  destruct (Z.compare_spec 0 den); lia.
Qed.

Lemma dhe_mono p1 d1 p2 d2 :
  0 < d1 -> 0 < d2 -> 0 <= p1 -> 0 <= p2 -> p1 * d2 <= p2 * d1 ->
  Py.div_half_even p1 d1 <= Py.div_half_even p2 d2.
Proof.
  intros H1 H2 P1 P2 H.
  assert (Hq : p1 / d1 <= p2 / d2).
  { apply Z.div_le_lower_bound; try lia.
    (* d2 * (p1/d1) <= p2 *)
    pose proof (Z.mul_div_le p1 d1 H1).
    assert (d1 * (d2 * (p1 / d1)) <= d1 * p2) by nia.
    apply Z.mul_le_mono_pos_l with (p := d1); lia. }
  unfold Py.div_half_even.
  pose proof (Z.div_mod p1 d1 ltac:(lia)) as E1.
  pose proof (Z.div_mod p2 d2 ltac:(lia)) as E2.
  pose proof (Z.mod_pos_bound p1 d1 H1) as B1.
  pose proof (Z.mod_pos_bound p2 d2 H2) as B2.
  set (q1 := p1 / d1) in *. set (q2 := p2 / d2) in *.
  set (r1 := p1 mod d1) in *. set (r2 := p2 mod d2) in *.
  destruct (Z.eq_dec q1 q2) as [Eq|Nq].
  - (* same floor: compare fractions r1/d1 <= r2/d2 *)
    assert (Hr : r1 * d2 <= r2 * d1) by nia.
    rewrite <- Eq.
    destruct (Z.compare_spec (2 * r1) d1); destruct (Z.compare_spec (2 * r2) d2);
      try destruct (Z.even q1); try lia; nia.
  - assert (q1 + 1 <= q2) by lia.
    destruct (Z.compare_spec (2 * r1) d1); destruct (Z.compare_spec (2 * r2) d2);
      try destruct (Z.even q1); try destruct (Z.even q2); lia.
Qed.

Lemma dhe_le_int p d n : 0 < d -> 0 <= p -> p <= n * d -> Py.div_half_even p d <= n.
Proof.
  intros. rewrite <- (dhe_exact n d) by lia.
  apply dhe_mono; try lia. nia. 
Qed.

Lemma dhe_ge_int p d n : 0 < d -> 0 <= p -> 0 <= n -> n * d <= p -> n <= Py.div_half_even p d.
Proof.
  intros. rewrite <- (dhe_exact n d) at 1 by lia.
  apply dhe_mono; try lia; nia.
Qed.

Lemma dhe_nonneg p d : 0 < d -> 0 <= p -> 0 <= Py.div_half_even p d.
Proof. intros. apply dhe_ge_int; lia. Qed.

Lemma div_le_cross p1 q1 p2 q2 :
  0 < q1 -> 0 < q2 -> 0 <= p1 -> p1 * q2 <= p2 * q1 -> p1 / q1 <= p2 / q2.
Proof.
  intros H1 H2 P1 H.
  apply Z.div_le_lower_bound; try lia.
  pose proof (Z.mul_div_le p1 q1 H1).
  apply Z.mul_le_mono_pos_l with (p := q1); nia.
Qed.

Lemma pow2_pos k : 0 < 2 ^ k \/ k < 0.
Proof. destruct (Z_lt_le_dec k 0); [right; lia | left; apply Z.pow_pos_nonneg; lia]. Qed.

Lemma pow2_gt0 k : 0 <= k -> 0 < 2 ^ k.
Proof. intros; apply Z.pow_pos_nonneg; lia. Qed.

Lemma pow2_add a b : 0 <= a -> 0 <= b -> 2 ^ (a + b) = 2 ^ a * 2 ^ b.
Proof. intros; apply Z.pow_add_r; lia. Qed.

Lemma pow2_le a b : 0 <= a <= b -> 2 ^ a <= 2 ^ b.
Proof. intros; apply Z.pow_le_mono_r; lia. Qed.

Lemma digits_shift n j : 0 < n -> 0 <= j -> Zdigits2 (n * 2 ^ j) = Zdigits2 n + j.
Proof.
  intros Hn Hj. destruct (digits_bounds n Hn) as [B1 B2].
  pose proof (digits_pos n Hn). pose proof (pow2_gt0 j Hj).
  apply digits_unique; try lia.
  replace (Zdigits2 n + j - 1) with ((Zdigits2 n - 1) + j) by lia.
  rewrite !pow2_add by lia. split; nia.
Qed.

Lemma round_units_nonneg p q : 0 <= p -> 0 < q -> 0 <= round_units p q.
Proof.
  intros. unfold round_units.
  set (k := Z.max 0 _). pose proof (pow2_gt0 k ltac:(lia)).
  apply Z.mul_nonneg_nonneg; try lia. apply dhe_nonneg; nia.
Qed.

Lemma round_units_mono p1 q1 p2 q2 :
  0 < q1 -> 0 < q2 -> 0 <= p1 -> 0 <= p2 -> p1 * q2 <= p2 * q1 ->
  round_units p1 q1 <= round_units p2 q2.
Proof.
  intros H1 H2 P1 P2 H.
  pose proof (div_le_cross _ _ _ _ H1 H2 P1 H) as Ha.
  assert (A1 : 0 <= p1 / q1) by (apply Z.div_pos; lia).
  assert (A2 : 0 <= p2 / q2) by (apply Z.div_pos; lia).
  pose proof (digits_mono (p1 / q1) (p2 / q2) ltac:(lia)) as Hd.
  unfold round_units.
  set (a1 := p1 / q1) in *. set (a2 := p2 / q2) in *.
  set (k1 := Z.max 0 (Zdigits2 a1 - prec)). set (k2 := Z.max 0 (Zdigits2 a2 - prec)).
  assert (K1 : 0 <= k1) by lia. assert (K2 : 0 <= k2) by lia.
  assert (K12 : k1 <= k2) by lia.
  pose proof (pow2_gt0 k1 K1) as T1. pose proof (pow2_gt0 k2 K2) as T2.
  destruct (Z.eq_dec k1 k2) as [E|N].
  - rewrite <- E. apply Z.mul_le_mono_nonneg_r; try lia.
    apply dhe_mono; try nia.
  - assert (Hk2 : k2 = Zdigits2 a2 - prec) by lia.
    assert (Ha2 : 0 < a2). { destruct (Z.eq_dec a2 0) as [Z0|]; [rewrite Z0 in Hk2; simpl in Hk2; unfold prec in *; lia | lia]. }
    destruct (digits_bounds a2 Ha2) as [B1 _].
    replace (Zdigits2 a2 - 1) with (52 + k2) in B1 by (unfold prec in *; lia).
    (* lower bound on the second *)
    pose proof (Z.mul_div_le p2 q2 H2) as M2. fold a2 in M2.
    assert (L2 : 2 ^ 52 <= Py.div_half_even p2 (q2 * 2 ^ k2)).
    { apply dhe_ge_int; try nia. 
      rewrite pow2_add in B1 by lia. nia. }
    (* upper bound on the first *)
    assert (Hda1 : Zdigits2 a1 <= 53 + k1) by (unfold prec in *; lia).
    assert (U1a : a1 < 2 ^ (53 + k1)).
    { destruct (Z.eq_dec a1 0) as [Z0|]. { rewrite Z0. apply pow2_gt0. lia. }
      destruct (digits_bounds a1 ltac:(lia)) as [_ B2].
      pose proof (pow2_le (Zdigits2 a1) (53 + k1) ltac:(pose proof (digits_nonneg a1); lia)). lia. }
    assert (M1 : p1 < q1 * (a1 + 1)).
    { pose proof (Z.mul_succ_div_gt p1 q1 H1). fold a1 in H0. lia. }
    assert (U1 : Py.div_half_even p1 (q1 * 2 ^ k1) <= 2 ^ 53).
    { apply dhe_le_int; try nia.
      rewrite pow2_add in U1a by lia. nia. }
    assert (P : 2 ^ 53 * 2 ^ k1 <= 2 ^ 52 * 2 ^ k2).
    { rewrite <- !pow2_add by lia. apply pow2_le. lia. }
    nia.
Qed.

Lemma round_units_fix n j : 0 <= n <= 2 ^ 53 -> 0 <= j -> round_units (n * 2 ^ j) 1 = n * 2 ^ j.
Proof.
  intros Hn Hj. unfold round_units. rewrite Z.div_1_r.
  pose proof (pow2_gt0 j Hj) as Tj.
  destruct (Z.eq_dec n 0) as [->|Nz].
  { simpl. reflexivity. }
  rewrite digits_shift by lia.
  set (k := Z.max 0 (Zdigits2 n + j - prec)).
  assert (Hd : Zdigits2 n <= 54) by (apply digits_lt_pow; try lia; change (2^54) with (2 * 2^53); lia).
  destruct (Z.eq_dec n (2 ^ 53)) as [->|Nm].
  - change (Zdigits2 (2 ^ 53)) with 54 in *. unfold prec in k.
    assert (k = j + 1) by lia. rewrite H.
    rewrite Z.mul_1_l. rewrite pow2_add by lia. change (2 ^ 1) with 2.
    replace (2 ^ 53 * 2 ^ j) with (2 ^ 52 * (2 ^ j * 2)) by (change (2^53) with (2^52 * 2); ring).
    rewrite dhe_exact by lia. reflexivity.
  - assert (Zdigits2 n <= 53) by (apply digits_lt_pow; lia).
    assert (Hk: 0 <= k <= j) by (unfold prec in *; lia).
    pose proof (pow2_gt0 k ltac:(lia)) as Tk.
    replace (n * 2 ^ j) with ((n * 2 ^ (j - k)) * (1 * 2 ^ k)).
    2:{ replace j with ((j - k) + k) at 2 by lia. rewrite pow2_add by lia. ring. }
    rewrite dhe_exact by lia. ring.
Qed.

Lemma dhe_scale p d t : 0 < d -> 0 < t -> 0 <= p ->
  Py.div_half_even (p * t) (d * t) = Py.div_half_even p d.
Proof.
  intros Hd Ht Hp. unfold Py.div_half_even.
  rewrite Z.div_mul_cancel_r by lia.
  rewrite Zmult_mod_distr_r.
  replace (2 * (p mod d * t)) with ((2 * (p mod d)) * t) by ring.
  assert (E : ((2 * (p mod d)) * t ?= d * t) = (2 * (p mod d) ?= d)).
  { destruct (Z.compare_spec (2 * (p mod d)) d) as [e|l|g].
    - rewrite e. apply Z.compare_refl.
    - apply Z.compare_lt_iff. nia.
    - apply Z.compare_gt_iff. nia. }
  rewrite E. reflexivity.
Qed.

(** ** The shift and round of [SpecFloat] *)

Lemma shr_m_rec P Q : shr_m (rec_of P Q) = P / Q.
Proof. unfold rec_of. destruct (loc_of _ _) as [|[]]; reflexivity. Qed.

Lemma loc_rec P Q : loc_of_shr_record (rec_of P Q) = loc_of (P mod Q) Q.
Proof. unfold rec_of. destruct (loc_of _ _) as [|[]]; reflexivity. Qed.

Lemma rne_dhe P Q : 0 <= P -> 0 < Q ->
  round_nearest_even (P / Q) (loc_of (P mod Q) Q) = Py.div_half_even P Q.
Proof.
  intros HP HQ. unfold loc_of, Py.div_half_even, round_nearest_even.
  pose proof (Z.mod_pos_bound P Q HQ).
  destruct (Z.eqb_spec (P mod Q) 0) as [E|N].
  - rewrite E. change (2 * 0) with 0. destruct (Z.compare_spec 0 Q); lia.
  - destruct (2 * (P mod Q) ?= Q); reflexivity.
Qed.

Lemma shr_1_rec P Q : 0 <= P -> 0 < Q -> shr_1 (rec_of P Q) = rec_of P (2 * Q).
Proof.
  intros HP HQ.
  pose proof (Z.div_mod P Q ltac:(lia)) as E.
  pose proof (Z.mod_pos_bound P Q HQ) as B.
  assert (Hm : 0 <= P / Q) by (apply Z.div_pos; lia).
  set (m := P / Q) in *. set (r := P mod Q) in *.
  assert (D : forall m' b, m = 2 * m' + b -> 0 <= b <= 1 ->
            P / (2 * Q) = m' /\ P mod (2 * Q) = b * Q + r).
  { intros m' b Em Hb.
    assert (P = (2 * Q) * m' + (b * Q + r)) by (rewrite E, Em; ring).
    apply Z.div_mod_unique with (b := 2 * Q).
    - left. apply Z.mod_pos_bound. lia.
    - left. nia.
    - rewrite <- Z.div_mod by lia. lia. }
  unfold rec_of. fold m r.
  destruct m as [|p|p]; try lia.
  - destruct (D 0 0 ltac:(lia) ltac:(lia)) as [D1 D2]. rewrite D1, D2.
    unfold loc_of. replace (0 * Q + r) with r by ring.
    destruct (Z.eqb_spec r 0) as [Er|Nr]; [reflexivity|].
    destruct (Z.compare_spec (2 * r) Q); destruct (Z.compare_spec (2 * r) (2 * Q)); try lia; reflexivity.
  - destruct p as [p|p|].
    + destruct (D (Z.pos p) 1 ltac:(lia) ltac:(lia)) as [D1 D2]. rewrite D1, D2.
      unfold loc_of.
      destruct (Z.eqb_spec r 0) as [Er|Nr].
      * rewrite Er. replace (1 * Q + 0) with Q by ring.
        destruct (Z.eqb_spec Q 0); try lia.
        rewrite Z.compare_refl. reflexivity.
      * destruct (Z.eqb_spec (1 * Q + r) 0); try lia.
        destruct (Z.compare_spec (2 * r) Q); destruct (Z.compare_spec (2 * (1 * Q + r)) (2 * Q)); try lia; reflexivity.
    + destruct (D (Z.pos p) 0 ltac:(lia) ltac:(lia)) as [D1 D2]. rewrite D1, D2.
      unfold loc_of. replace (0 * Q + r) with r by ring.
      destruct (Z.eqb_spec r 0) as [Er|Nr]; [reflexivity|].
      destruct (Z.compare_spec (2 * r) Q); destruct (Z.compare_spec (2 * r) (2 * Q)); try lia; reflexivity.
    + destruct (D 0 1 ltac:(lia) ltac:(lia)) as [D1 D2]. rewrite D1, D2.
      unfold loc_of.
      destruct (Z.eqb_spec r 0) as [Er|Nr].
      * rewrite Er. replace (1 * Q + 0) with Q by ring.
        destruct (Z.eqb_spec Q 0); try lia.
        rewrite Z.compare_refl. reflexivity.
      * destruct (Z.eqb_spec (1 * Q + r) 0); try lia.
        destruct (Z.compare_spec (2 * r) Q); destruct (Z.compare_spec (2 * (1 * Q + r)) (2 * Q)); try lia; reflexivity.
Qed.

Lemma iter_pos_rec k : forall P Q, 0 <= P -> 0 < Q ->
  iter_pos shr_1 k (rec_of P Q) = rec_of P (Q * 2 ^ Z.pos k).
Proof.
  induction k as [k IH|k IH|]; intros P Q HP HQ; simpl iter_pos.
  - rewrite shr_1_rec by lia.
    pose proof (pow2_gt0 (Z.pos k) ltac:(lia)).
    rewrite IH by lia. rewrite IH by nia.
    f_equal. rewrite Pos2Z.inj_xI. 
    replace (2 * Z.pos k + 1) with (1 + Z.pos k + Z.pos k) by lia.
    rewrite (pow2_add (1 + Z.pos k) (Z.pos k)) by lia.
    rewrite (pow2_add 1 (Z.pos k)) by lia. change (2 ^ 1) with 2. ring.
  - pose proof (pow2_gt0 (Z.pos k) ltac:(lia)).
    rewrite IH by lia. rewrite IH by nia.
    f_equal. rewrite <- Z.mul_assoc. f_equal.
    rewrite <- pow2_add by lia. f_equal. lia.
  - rewrite shr_1_rec by lia. f_equal. change (2 ^ 1) with 2. ring.
Qed.

Lemma shr_rec P Q e n : 0 <= P -> 0 < Q -> 0 <= n ->
  shr (rec_of P Q) e n = (rec_of P (Q * 2 ^ n), e + n).
Proof.
  intros HP HQ Hn. unfold shr. destruct n as [|k|k]; try lia.
  - change (2 ^ 0) with 1. rewrite Z.mul_1_r, Z.add_0_r. reflexivity.
  - rewrite iter_pos_rec by lia. reflexivity.
Qed.

Lemma rec_of_exact n : rec_of n 1 = Build_shr_record n false false.
Proof. unfold rec_of. rewrite Z.div_1_r, Z.mod_1_r. reflexivity. Qed.

Lemma fexp_eq x : fexp prec emax x = Z.max (x - 53) (-1074).
Proof. reflexivity. Qed.

Lemma scaled_floor_bounds P Q j : 0 <= P -> 0 < Q -> 0 <= j ->
  (P / Q) * 2 ^ j <= (P * 2 ^ j) / Q < (P / Q + 1) * 2 ^ j.
Proof.
  intros HP HQ Hj. pose proof (pow2_gt0 j Hj) as T.
  pose proof (Z.mul_div_le P Q HQ). pose proof (Z.mul_succ_div_gt P Q HQ).
  split.
  - apply Z.div_le_lower_bound; nia.
  - apply Z.div_lt_upper_bound; nia.
Qed.

Lemma bra_correct s P Q e :
  0 <= P -> 0 < Q -> -1074 <= e ->
  e <= fexp prec emax (Zdigits2 (P / Q) + e) ->
  binary_round_aux prec emax s (P / Q) e (loc_of (P mod Q) Q)
  = encode s (round_units (P * 2 ^ (e + 1074)) Q).
Proof.
  intros HP HQ He Hk.
  assert (Hm : 0 <= P / Q) by (apply Z.div_pos; lia).
  pose proof (Z.mul_div_le P Q HQ) as ML. pose proof (Z.mul_succ_div_gt P Q HQ) as MU.
  unfold binary_round_aux, shr_fexp.
  change (shr_record_of_loc (P / Q) (loc_of (P mod Q) Q)) with (rec_of P Q).
  set (m := P / Q) in *.
  set (c := fexp prec emax (Zdigits2 m + e)) in *.
  set (k1 := c - e).
  assert (Hk1 : 0 <= k1) by (unfold k1; lia).
  rewrite shr_rec by lia.
  rewrite shr_m_rec, loc_rec.
  pose proof (pow2_gt0 k1 Hk1) as T1.
  rewrite rne_dhe by nia.
  replace (e + k1) with c by (unfold k1; lia).
  set (n := Py.div_half_even P (Q * 2 ^ k1)).
  assert (Hn0 : 0 <= n) by (apply dhe_nonneg; nia).
  set (j := e + 1074). assert (Hj : 0 <= j) by (unfold j; lia).
  pose proof (pow2_gt0 j Hj) as Tj.
  pose proof (digits_nonneg m) as Dm0.
  assert (Hc : c = Z.max (Zdigits2 m + e - 53) (-1074)) by (unfold c; apply fexp_eq).
  (* F1 *)
  assert (F1 : Z.max 0 (Zdigits2 (P * 2 ^ j / Q) - prec) = c + 1074).
  { destruct (Z.eq_dec m 0) as [Em|Nm].
    - rewrite Em in Hc. simpl in Hc. assert (e = -1074) by lia.
      assert (j = 0) by (unfold j; lia). rewrite H0. change (2 ^ 0) with 1. rewrite Z.mul_1_r.
      fold m. rewrite Em. simpl. lia.
    - destruct (scaled_floor_bounds P Q j HP HQ Hj) as [S1 S2]. fold m in S1, S2.
      destruct (digits_bounds m ltac:(lia)) as [B1 B2].
      pose proof (digits_pos m ltac:(lia)).
      assert (Zdigits2 (P * 2 ^ j / Q) = Zdigits2 m + j).
      { apply digits_unique; try lia.
        replace (Zdigits2 m + j - 1) with ((Zdigits2 m - 1) + j) by lia.
        rewrite !pow2_add by lia. split; nia. }
      rewrite H0. unfold prec, j. lia. }
  (* F2 *)
  assert (F2 : round_units (P * 2 ^ j) Q = n * 2 ^ (c + 1074)).
  { unfold round_units. rewrite F1.
    replace (c + 1074) with (k1 + j) by (unfold k1, j; lia).
    rewrite (pow2_add k1 j) by lia.
    replace (Q * (2 ^ k1 * 2 ^ j)) with ((Q * 2 ^ k1) * 2 ^ j) by ring.
    rewrite dhe_scale by nia. reflexivity. }
  (* F3 *)
  assert (F3 : n <= 2 ^ 53).
  { apply dhe_le_int; try nia.
    assert (m < 2 ^ (53 + k1)).
    { destruct (Z.eq_dec m 0) as [Em|Nm]. { rewrite Em. apply pow2_gt0; lia. }
      destruct (digits_bounds m ltac:(lia)) as [B1 B2].
      pose proof (pow2_le (Zdigits2 m) (53 + k1) ltac:(unfold k1; lia)). lia. }
    rewrite pow2_add in H by lia. nia. }
  assert (F4 : -1074 < c -> 2 ^ 52 <= n).
  { intros Hc'. apply dhe_ge_int; try nia.
    assert (Nm : 0 < m). { destruct (Z.eq_dec m 0) as [Em|]; [rewrite Em in Hc; simpl in Hc; lia | lia]. }
    destruct (digits_bounds m Nm) as [B1 B2].
    replace (Zdigits2 m - 1) with (52 + k1) in B1 by (unfold k1; lia).
    rewrite pow2_add in B1 by lia. nia. }
  fold j. rewrite F2.
  assert (Hcu : 0 <= c + 1074) by lia.
  pose proof (pow2_gt0 (c + 1074) Hcu) as Tc.
  destruct (Z.eq_dec n 0) as [En|Nn].
  - (* zero *)
    rewrite En. simpl Zdigits2.
    assert (fexp prec emax (0 + c) - c <= 0) by (rewrite fexp_eq; lia).
    unfold shr. destruct (fexp prec emax (0 + c) - c) eqn:Ek; try lia; reflexivity.
  - destruct (Z.eq_dec n (2 ^ 53)) as [E53|N53].
    + (* carry *)
      rewrite E53.
      change (Zdigits2 (2 ^ 53)) with 54.
      replace (fexp prec emax (54 + c) - c) with 1 by (rewrite fexp_eq; lia).
      change (shr_record_of_loc (2 ^ 53) loc_Exact) with (Build_shr_record (2 ^ 53) false false).
      rewrite <- rec_of_exact. rewrite shr_rec by lia. rewrite shr_m_rec.
      change (2 ^ 53 / (1 * 2 ^ 1)) with (Z.pos (2 ^ 52)).
      cbv iota beta.
      unfold encode.
      assert (V : 2 ^ 53 * 2 ^ (c + 1074) = 2 ^ (c + 1127)).
      { rewrite <- pow2_add by lia. f_equal. lia. }
      rewrite V.
      pose proof (pow2_gt0 (c + 1127) ltac:(lia)).
      destruct (Z.eqb_spec (2 ^ (c + 1127)) 0); try lia.
      destruct (Z.leb_spec (c + 1) (emax - prec)) as [L|L]; unfold emax, prec in L.
      * destruct (Z.leb_spec (2 ^ 2098) (2 ^ (c + 1127))) as [L'|L'].
        { exfalso. pose proof (Z.pow_lt_mono_r 2 (c + 1127) 2098 ltac:(lia) ltac:(lia) ltac:(lia)). lia. }
        assert (D : Zdigits2 (2 ^ (c + 1127)) = c + 1128).
        { apply digits_unique; try lia. replace (c + 1128 - 1) with (c + 1127) by lia.
          split; try lia. apply Z.pow_lt_mono_r; lia. }
        rewrite D. replace (Z.max 0 (c + 1128 - prec)) with (c + 1075) by (unfold prec; lia).
        replace (c + 1127) with (52 + (c + 1075)) by lia.
        rewrite pow2_add by lia. rewrite Z.div_mul by (pose proof (pow2_gt0 (c + 1075)); lia).
        f_equal. unfold emin, emax, prec. lia.
      * destruct (Z.leb_spec (2 ^ 2098) (2 ^ (c + 1127))) as [L'|L']; try reflexivity.
        exfalso. pose proof (pow2_le 2098 (c + 1127) ltac:(lia)). lia.
    + (* no carry *)
      assert (Dn : Zdigits2 n <= 53) by (apply digits_lt_pow; lia).
      assert (fexp prec emax (Zdigits2 n + c) - c <= 0) by (rewrite fexp_eq; lia).
      assert (S2 : shr (shr_record_of_loc n loc_Exact) c (fexp prec emax (Zdigits2 n + c) - c)
                  = (shr_record_of_loc n loc_Exact, c)).
      { unfold shr. destruct (fexp prec emax (Zdigits2 n + c) - c) eqn:Ek; try lia; reflexivity. }
      rewrite S2. simpl shr_m.
      destruct n as [|pn|pn] eqn:En; try lia.
      unfold encode.
      destruct (Z.eqb_spec (Z.pos pn * 2 ^ (c + 1074)) 0); try nia.
      assert (Dv : Zdigits2 (Z.pos pn * 2 ^ (c + 1074)) = Zdigits2 (Z.pos pn) + (c + 1074))
        by (apply digits_shift; lia).
      assert (Dk : Z.max 0 (Zdigits2 (Z.pos pn * 2 ^ (c + 1074)) - prec) = c + 1074).
      { rewrite Dv. unfold prec. destruct (Z.eq_dec c (-1074)) as [Ec|Nc]; try lia.
        specialize (F4 ltac:(lia)).
        pose proof (digits_ge_pow (Z.pos pn) 52 ltac:(lia) F4). lia. }
      destruct (Z.leb_spec c (emax - prec)) as [L|L]; unfold emax, prec in L.
      * destruct (Z.leb_spec (2 ^ 2098) (Z.pos pn * 2 ^ (c + 1074))) as [L'|L'].
        { exfalso.
          assert (Z.pos pn * 2 ^ (c + 1074) < 2 ^ 53 * 2 ^ 2045).
          { pose proof (pow2_le (c + 1074) 2045 ltac:(lia)).
            apply Z.le_lt_trans with (Z.pos pn * 2 ^ 2045); nia. }
          change (2 ^ 53 * 2 ^ 2045) with (2 ^ 2098) in H0. lia. }
        rewrite Dk. rewrite Z.div_mul by lia.
        f_equal. unfold emin, emax, prec. lia.
      * specialize (F4 ltac:(lia)).
        destruct (Z.leb_spec (2 ^ 2098) (Z.pos pn * 2 ^ (c + 1074))) as [L'|L']; try reflexivity.
        exfalso.
        pose proof (pow2_le 2046 (c + 1074) ltac:(lia)).
        assert (2 ^ 52 * 2 ^ 2046 <= Z.pos pn * 2 ^ (c + 1074)) by nia.
        change (2 ^ 52 * 2 ^ 2046) with (2 ^ 2098) in H1. lia.
Qed.

(** ** Comparison of floats through their units *)

Lemma INF_pos : 0 < INF.
Proof. unfold INF. apply pow2_gt0. lia. Qed.

Lemma INF_split : INF = 2 ^ 53 * 2 ^ 2045.
Proof. unfold INF. rewrite <- pow2_add by lia. reflexivity. Qed.

Lemma bounded_inv m e : bounded prec emax m e = true ->
  -1074 <= e <= 971 /\ Zdigits2 (Z.pos m) <= 53 /\ (-1074 < e -> Zdigits2 (Z.pos m) = 53).
Proof.
  unfold bounded, canonical_mantissa. intros H.
  apply andb_prop in H. destruct H as [H1 H2].
  apply Z.eqb_eq in H1. apply Z.leb_le in H2.
  rewrite fexp_eq in H1. unfold emax, prec in H2.
  change (Z.pos (digits2_pos m)) with (Zdigits2 (Z.pos m)) in H1.
  lia.
Qed.

Lemma finite_ord_bounds m e : bounded prec emax m e = true ->
  0 < Z.pos m * 2 ^ (e + 1074) < INF.
Proof.
  intros H. destruct (bounded_inv m e H) as (He & Hd & _).
  pose proof (pow2_gt0 (e + 1074) ltac:(lia)).
  split; try nia.
  destruct (digits_bounds (Z.pos m) ltac:(lia)) as [_ B].
  pose proof (digits_nonneg (Z.pos m)) as Dn.
  pose proof (pow2_le (Zdigits2 (Z.pos m)) 53 ltac:(lia)).
  pose proof (pow2_le (e + 1074) 2045 ltac:(lia)).
  rewrite INF_split.
  apply Z.lt_le_trans with (2 ^ 53 * 2 ^ (e + 1074)); try nia.
Qed.

Lemma finite_ord_lt m1 e1 m2 e2 :
  bounded prec emax m1 e1 = true -> bounded prec emax m2 e2 = true ->
  e1 < e2 -> Z.pos m1 * 2 ^ (e1 + 1074) < Z.pos m2 * 2 ^ (e2 + 1074).
Proof.
  intros H1 H2 L.
  destruct (bounded_inv _ _ H1) as (He1 & Hd1 & _).
  destruct (bounded_inv _ _ H2) as (He2 & _ & Hd2).
  specialize (Hd2 ltac:(lia)).
  destruct (digits_bounds (Z.pos m1) ltac:(lia)) as [_ B1].
  destruct (digits_bounds (Z.pos m2) ltac:(lia)) as [B2 _].
  rewrite Hd2 in B2. change (2 ^ (53 - 1)) with (2 ^ 52) in B2.
  pose proof (digits_nonneg (Z.pos m1)) as Dn.
  pose proof (pow2_le (Zdigits2 (Z.pos m1)) 53 ltac:(lia)).
  pose proof (pow2_gt0 (e1 + 1074) ltac:(lia)).
  pose proof (pow2_gt0 (e2 + 1074) ltac:(lia)).
  assert (2 ^ (e2 + 1074) = 2 ^ (e2 - e1 - 1) * (2 * 2 ^ (e1 + 1074))).
  { change 2 with (2 ^ 1) at 3. rewrite <- !pow2_add by lia. f_equal. lia. }
  pose proof (pow2_gt0 (e2 - e1 - 1) ltac:(lia)).
  change (2 ^ 53) with (2 * 2 ^ 52) in H.
  rewrite H4. nia.
Qed.

Ltac cmp_ord :=
  f_equal; symmetry;
  first [ apply Z.compare_eq_iff; lia
        | apply Z.compare_lt_iff; lia
        | apply Z.compare_gt_iff; lia ].

Lemma compare_ord x y :
  valid_binary x = true -> valid_binary y = true ->
  sf_nan x = false -> sf_nan y = false ->
  SFcompare x y = Some (ord x ?= ord y).
Proof.
  intros Vx Vy Nx Ny. pose proof INF_pos as IP.
  destruct x as [sx|sx| |sx mx ex]; try discriminate;
  destruct y as [sy|sy| |sy my ey]; try discriminate;
  unfold valid_binary in Vx, Vy;
  try (pose proof (finite_ord_bounds _ _ Vx) as Bx);
  try (pose proof (finite_ord_bounds _ _ Vy) as By);
  unfold SFcompare, ord; cbv zeta.
  - cmp_ord.
  - destruct sy; cmp_ord.
  - destruct sy; cmp_ord.
  - destruct sx; cmp_ord.
  - destruct sx, sy; cmp_ord.
  - destruct sx, sy; cmp_ord.
  - destruct sx; cmp_ord.
  - destruct sx, sy; cmp_ord.
  - destruct sx, sy; try cmp_ord.
    + (* both negative *)
      f_equal; symmetry.
      destruct (Z.compare_spec ex ey) as [E|L|G].
      * subst ey. rewrite Pos.compare_cont_spec. simpl Pos.switch_Eq.
        pose proof (pow2_gt0 (ex + 1074) ltac:(destruct (bounded_inv _ _ Vx); lia)).
        change (Pos.compare mx my) with (Z.pos mx ?= Z.pos my).
        destruct (Z.compare_spec (Z.pos mx) (Z.pos my)) as [E'|L'|G'].
        -- rewrite E'. cbn [CompOpp]. apply Z.compare_refl.
        -- cbn [CompOpp]. apply Z.compare_gt_iff.
           assert (Z.pos mx * 2 ^ (ex + 1074) < Z.pos my * 2 ^ (ex + 1074)) by (apply Z.mul_lt_mono_pos_r; lia). lia.
        -- cbn [CompOpp]. apply Z.compare_lt_iff.
           assert (Z.pos my * 2 ^ (ex + 1074) < Z.pos mx * 2 ^ (ex + 1074)) by (apply Z.mul_lt_mono_pos_r; lia). lia.
      * pose proof (finite_ord_lt _ _ _ _ Vx Vy L). apply Z.compare_gt_iff. lia.
      * pose proof (finite_ord_lt _ _ _ _ Vy Vx ltac:(lia)). apply Z.compare_lt_iff. lia.
    + f_equal; symmetry.
      destruct (Z.compare_spec ex ey) as [E|L|G].
      * subst ey. rewrite Pos.compare_cont_spec. simpl Pos.switch_Eq.
        pose proof (pow2_gt0 (ex + 1074) ltac:(destruct (bounded_inv _ _ Vx); lia)).
        change (Pos.compare mx my) with (Z.pos mx ?= Z.pos my).
        destruct (Z.compare_spec (Z.pos mx) (Z.pos my)) as [E'|L'|G'].
        -- rewrite E'. apply Z.compare_refl.
        -- apply Z.compare_lt_iff. apply Z.mul_lt_mono_pos_r; lia.
        -- apply Z.compare_gt_iff. apply Z.mul_lt_mono_pos_r; lia.
      * pose proof (finite_ord_lt _ _ _ _ Vx Vy L). apply Z.compare_lt_iff. lia.
      * pose proof (finite_ord_lt _ _ _ _ Vy Vx ltac:(lia)). apply Z.compare_gt_iff. lia.
Qed.

(** ** The float of a number of units *)

Lemma encode_nan s v : sf_nan (encode s v) = false.
Proof.
  unfold encode. destruct (v =? 0); [reflexivity|].
  destruct (2 ^ 2098 <=? v); reflexivity.
Qed.

Lemma trunc_digits v k : 0 < v -> 0 <= k < Zdigits2 v ->
  0 < v / 2 ^ k /\ Zdigits2 (v / 2 ^ k) = Zdigits2 v - k.
Proof.
  intros Hv Hk. destruct (digits_bounds v Hv) as [B1 B2].
  pose proof (pow2_gt0 k ltac:(lia)) as Tk.
  assert (L : 2 ^ (Zdigits2 v - k - 1) <= v / 2 ^ k).
  { apply Z.div_le_lower_bound; try lia.
    rewrite <- pow2_add by lia. replace (k + (Zdigits2 v - k - 1)) with (Zdigits2 v - 1) by lia. lia. }
  assert (U : v / 2 ^ k < 2 ^ (Zdigits2 v - k)).
  { apply Z.div_lt_upper_bound; try lia.
    rewrite <- pow2_add by lia. replace (k + (Zdigits2 v - k)) with (Zdigits2 v) by lia. lia. }
  pose proof (pow2_gt0 (Zdigits2 v - k - 1) ltac:(lia)).
  split; try lia.
  apply digits_unique; try lia.
Qed.

Lemma encode_valid s v : 0 <= v -> valid_binary (encode s v) = true.
Proof.
  intros Hv. unfold encode.
  destruct (Z.eqb_spec v 0); [reflexivity|].
  destruct (Z.leb_spec (2 ^ 2098) v) as [L|L]; [reflexivity|].
  cbv zeta. unfold valid_binary, bounded, canonical_mantissa.
  pose proof (digits_pos v ltac:(lia)) as Dp.
  assert (Dv : Zdigits2 v <= 2098) by (apply digits_lt_pow; lia).
  set (k := Z.max 0 (Zdigits2 v - prec)).
  assert (Hk : 0 <= k < Zdigits2 v) by (unfold k, prec; lia).
  destruct (trunc_digits v k ltac:(lia) Hk) as [M D].
  change (Z.pos (digits2_pos (Z.to_pos (v / 2 ^ k)))) with (Zdigits2 (Z.pos (Z.to_pos (v / 2 ^ k)))).
  rewrite Z2Pos.id by lia. rewrite D. rewrite fexp_eq.
  apply andb_true_intro. split.
  - apply Z.eqb_eq. unfold k, emin, emax, prec. lia.
  - apply Z.leb_le. unfold k, emin, emax, prec. lia.
Qed.

Lemma round_units_form p q : 0 <= p -> 0 < q ->
  exists n k, round_units p q = n * 2 ^ k /\ 0 <= n <= 2 ^ 53 /\ 0 <= k.
Proof.
  intros Hp Hq. unfold round_units.
  set (a := p / q). set (k := Z.max 0 (Zdigits2 a - prec)).
  exists (Py.div_half_even p (q * 2 ^ k)), k.
  pose proof (pow2_gt0 k ltac:(lia)) as Tk.
  split; [reflexivity|]. split; [|lia]. split; [apply dhe_nonneg; nia|].
  apply dhe_le_int; try nia.
  assert (Ha : 0 <= a) by (apply Z.div_pos; lia).
  assert (a < 2 ^ (53 + k)).
  { destruct (Z.eq_dec a 0) as [Z0|]. { rewrite Z0. apply pow2_gt0. lia. }
    destruct (digits_bounds a ltac:(lia)) as [_ B2].
    pose proof (digits_nonneg a).
    pose proof (pow2_le (Zdigits2 a) (53 + k) ltac:(unfold k, prec; lia)). lia. }
  pose proof (Z.mul_succ_div_gt p q Hq). fold a in H0.
  rewrite pow2_add in H by lia. nia.
Qed.

Lemma round_units_idem p q : 0 <= p -> 0 < q ->
  round_units (round_units p q) 1 = round_units p q.
Proof.
  intros Hp Hq. destruct (round_units_form p q Hp Hq) as (n & k & E & Hn & Hk).
  rewrite E. apply round_units_fix; lia.
Qed.

Lemma round_units_exact_div v : 0 <= v -> round_units v 1 = v ->
  let k := Z.max 0 (Zdigits2 v - prec) in v / 2 ^ k * 2 ^ k = v.
Proof.
  intros Hv E k. unfold round_units in E. rewrite Z.div_1_r in E. fold k in E.
  rewrite Z.mul_1_l in E.
  pose proof (pow2_gt0 k ltac:(unfold k; lia)) as Tk.
  destruct (dhe_cases v (2 ^ k) Tk Hv) as (D & B & [[C _]|[C _]]); rewrite C in E; nia.
Qed.

Lemma encode_ord s v : 0 <= v -> round_units v 1 = v ->
  ord (encode s v) = if s then - Z.min v INF else Z.min v INF.
Proof.
  intros Hv E. unfold encode. pose proof INF_pos.
  destruct (Z.eqb_spec v 0) as [->|N]. { simpl. destruct s; lia. }
  destruct (Z.leb_spec (2 ^ 2098) v) as [L|L]; fold INF in L.
  { unfold ord. rewrite Z.min_r by lia. reflexivity. }
  cbv zeta. unfold ord.
  pose proof (round_units_exact_div v Hv E) as X. cbv zeta in X.
  set (k := Z.max 0 (Zdigits2 v - prec)) in *.
  pose proof (digits_pos v ltac:(lia)) as Dp.
  destruct (trunc_digits v k ltac:(lia) ltac:(unfold k, prec; lia)) as [M _].
  rewrite Z2Pos.id by lia.
  replace (k + emin + 1074) with k by (unfold emin, emax, prec; lia).
  rewrite X. rewrite Z.min_l by lia. reflexivity.
Qed.

(** The rounded value of a non-negative rational, as a float. *)
Lemma bra_facts s P Q e :
  0 <= P -> 0 < Q -> -1074 <= e ->
  e <= fexp prec emax (Zdigits2 (P / Q) + e) ->
  let r := binary_round_aux prec emax s (P / Q) e (loc_of (P mod Q) Q) in
  let v := round_units (P * 2 ^ (e + 1074)) Q in
  r = encode s v /\ valid_binary r = true /\ sf_nan r = false /\
  ord r = if s then - Z.min v INF else Z.min v INF.
Proof.
  intros HP HQ He Hk r v.
  pose proof (pow2_gt0 (e + 1074) ltac:(lia)).
  assert (Hv : 0 <= v) by (apply round_units_nonneg; nia).
  assert (R : r = encode s v) by (apply bra_correct; assumption).
  rewrite R. split; [reflexivity|]. split; [apply encode_valid; assumption|].
  split; [apply encode_nan|].
  apply encode_ord; [assumption|]. apply round_units_idem; nia.
Qed.

(** ** Normalisation and division *)

Lemma pos_iter_xO m d : Z.pos (Pos.iter xO m d) = Z.pos m * 2 ^ Z.pos d.
Proof.
  induction d as [|d IH] using Pos.peano_ind.
  - simpl. lia.
  - rewrite Pos.iter_succ. rewrite Pos2Z.inj_xO, IH.
    rewrite Pos2Z.inj_succ. rewrite Z.pow_succ_r by lia. ring.
Qed.

Lemma shl_align_spec mx ex ex' :
  let '(m', e') := shl_align mx ex ex' in
  e' = Z.min ex ex' /\ Z.pos m' = Z.pos mx * 2 ^ (ex - e').
Proof.
  unfold shl_align. destruct (ex' - ex) as [|d|d] eqn:E.
  - split; [lia|]. replace (ex - ex) with 0 by lia. simpl. lia.
  - split; [lia|]. replace (ex - ex) with 0 by lia. simpl. lia.
  - split; [lia|]. rewrite pos_iter_xO. f_equal. f_equal. lia.
Qed.

Lemma loc_of_exact Q : 0 < Q -> loc_of 0 Q = loc_Exact.
Proof. reflexivity. Qed.

Lemma binary_round_correct s mx ex : -1074 <= ex ->
  binary_round prec emax s mx ex
  = encode s (round_units (Z.pos mx * 2 ^ (ex + 1074)) 1).
Proof.
  intros He. unfold binary_round.
  pose proof (shl_align_spec mx ex (fexp prec emax (Z.pos (digits2_pos mx) + ex))) as S.
  change (Z.pos (digits2_pos mx)) with (Zdigits2 (Z.pos mx)) in *.
  destruct (shl_align mx ex _) as [mz ez]. destruct S as [S1 S2].
  rewrite fexp_eq in S1.
  assert (Hez : -1074 <= ez <= ex) by lia.
  pose proof (bra_correct s (Z.pos mz) 1 ez ltac:(lia) ltac:(lia) ltac:(lia)) as B.
  rewrite Z.div_1_r, Z.mod_1_r in B. change (loc_of 0 1) with loc_Exact in B.
  rewrite B.
  - f_equal. f_equal. rewrite S2. rewrite <- Z.mul_assoc. rewrite <- pow2_add by lia.
    f_equal. f_equal. lia.
  - rewrite S2. rewrite digits_shift by lia. rewrite fexp_eq. lia.
Qed.

Lemma binary_round_facts s mx ex : -1074 <= ex ->
  let r := binary_round prec emax s mx ex in
  let v := round_units (Z.pos mx * 2 ^ (ex + 1074)) 1 in
  r = encode s v /\ valid_binary r = true /\ sf_nan r = false /\
  ord r = sgn s (Z.min v INF).
Proof.
  intros He r v.
  pose proof (pow2_gt0 (ex + 1074) ltac:(lia)).
  assert (Hv : 0 <= v) by (apply round_units_nonneg; nia).
  assert (R : r = encode s v) by (apply binary_round_correct; assumption).
  rewrite R. split; [reflexivity|]. split; [apply encode_valid; assumption|].
  split; [apply encode_nan|].
  apply encode_ord; [assumption|]. apply round_units_idem; nia.
Qed.

Lemma new_location_loc Q r : 0 < Q -> 0 <= r < Q -> new_location Q r = loc_of r Q.
Proof.
  intros HQ Hr. unfold new_location, new_location_even, new_location_odd, loc_of.
  destruct (Z.even Q) eqn:Ev; destruct (Z.eqb_spec r 0); try reflexivity.
  f_equal.
  assert (Od : Z.odd Q = true) by (rewrite <- Z.negb_even, Ev; reflexivity).
  apply Z.odd_spec in Od. destruct Od as [h Od].
  destruct (Z.compare_spec (2 * r + 1) Q); destruct (Z.compare_spec (2 * r) Q); try lia; reflexivity.
Qed.

Lemma round_units_scale p q t : 0 <= p -> 0 < q -> 0 < t ->
  round_units (p * t) (q * t) = round_units p q.
Proof.
  intros Hp Hq Ht. unfold round_units.
  rewrite Z.div_mul_cancel_r by lia.
  set (k := Z.max 0 _). pose proof (pow2_gt0 k ltac:(lia)).
  replace (q * t * 2 ^ k) with ((q * 2 ^ k) * t) by ring.
  rewrite dhe_scale by nia. reflexivity.
Qed.

Lemma div_core_correct s m1 e1 m2 e2 :
  0 < m1 -> 0 < m2 -> -1074 <= e1 - e2 ->
  let '(q, e', l) := SFdiv_core_binary prec emax m1 e1 m2 e2 in
  binary_round_aux prec emax s q e' l
  = encode s (round_units (m1 * 2 ^ (e1 - e2 + 1074)) m2).
Proof.
  intros H1 H2 He. unfold SFdiv_core_binary.
  set (d1 := Zdigits2 m1). set (d2 := Zdigits2 m2).
  set (e' := Z.min (fexp prec emax (d1 + e1 - (d2 + e2))) (e1 - e2)).
  set (sh := e1 - e2 - e').
  assert (He' : -1074 <= e' <= e1 - e2) by (unfold e'; rewrite fexp_eq; lia).
  assert (Hs : 0 <= sh) by (unfold sh; lia).
  set (m' := match sh with Z.pos _ => Z.shiftl m1 sh | 0 => m1 | Z.neg _ => 0 end).
  assert (Em : m' = m1 * 2 ^ sh).
  { unfold m'. destruct sh as [|p|p] eqn:E; try lia.
    rewrite Z.shiftl_mul_pow2 by lia. reflexivity. }
  pose proof (pow2_gt0 sh Hs) as Ts.
  assert (Hm' : 0 < m') by nia.
  pose proof (Z.div_eucl_eq m' m2 ltac:(lia)) as DE.
  pose proof (Z.mod_pos_bound m' m2 H2) as MB.
  assert (Q : fst (Z.div_eucl m' m2) = m' / m2) by reflexivity.
  assert (R : snd (Z.div_eucl m' m2) = m' mod m2) by reflexivity.
  destruct (Z.div_eucl m' m2) as [q r]. simpl in Q, R. subst q r.
  rewrite new_location_loc by lia.
  rewrite bra_correct; try lia.
  - f_equal. f_equal. rewrite Em. rewrite <- Z.mul_assoc. rewrite <- pow2_add by lia.
    f_equal. f_equal. unfold sh. lia.
  - (* enough digits in the quotient *)
    pose proof (digits_pos m1 H1) as D1. pose proof (digits_pos m2 H2) as D2.
    fold d1 in D1. fold d2 in D2.
    assert (Dm' : Zdigits2 m' = d1 + sh) by (rewrite Em; apply digits_shift; lia).
    set (dl := d1 + sh - d2).
    assert (Ht : d1 + e1 - (d2 + e2) = dl + e') by (unfold dl, sh; lia).
    assert (Hfe : e' <= fexp prec emax (dl + e')) by (rewrite <- Ht; unfold e'; lia).
    assert (Hq0 : 0 <= m' / m2) by (apply Z.div_pos; lia).
    pose proof (digits_nonneg (m' / m2)) as Dq0.
    rewrite fexp_eq in *.
    destruct (Z_le_gt_dec dl 0) as [L|G].
    + lia.
    + assert (dl <= Zdigits2 (m' / m2)).
      { destruct (digits_bounds m' Hm') as [B1 _].
        destruct (digits_bounds m2 H2) as [_ B2]. fold d2 in B2.
        rewrite Dm' in B1.
        assert (2 ^ (dl - 1) <= m' / m2).
        { apply Z.div_le_lower_bound; try lia.
          pose proof (pow2_gt0 (dl - 1) ltac:(lia)).
          assert (2 ^ (d1 + sh - 1) = 2 ^ (dl - 1) * 2 ^ d2).
          { rewrite <- pow2_add by lia. f_equal. unfold dl. lia. }
          nia. }
        pose proof (digits_ge_pow (m' / m2) (dl - 1) ltac:(lia) H). lia. }
      lia.
Qed.

(** ** Addition and subtraction *)

Lemma valid_fix m e : bounded prec emax m e = true ->
  round_units (Z.pos m * 2 ^ (e + 1074)) 1 = Z.pos m * 2 ^ (e + 1074).
Proof.
  intros H. destruct (bounded_inv m e H) as (He & Hd & _).
  apply round_units_fix; try lia.
  destruct (digits_bounds (Z.pos m) ltac:(lia)) as [_ B].
  pose proof (digits_nonneg (Z.pos m)).
  pose proof (pow2_le (Zdigits2 (Z.pos m)) 53 ltac:(lia)). lia.
Qed.

Lemma round_units_INF : round_units INF 1 = INF.
Proof.
  unfold INF. replace (2 ^ 2098) with (1 * 2 ^ 2098) by lia.
  pose proof (pow2_gt0 53 ltac:(lia)).
  apply round_units_fix; lia.
Qed.

Lemma round_units_ge_INF v : INF <= v -> INF <= round_units v 1.
Proof.
  intros H. pose proof INF_pos. rewrite <- round_units_INF at 1.
  apply round_units_mono; lia.
Qed.

Lemma round_units_0 q : 0 < q -> round_units 0 q = 0.
Proof.
  intros. unfold round_units. rewrite Z.div_0_l by lia. simpl Zdigits2.
  replace (Z.max 0 (0 - prec)) with 0 by (unfold prec; lia).
  change (2 ^ 0) with 1. rewrite !Z.mul_1_r.
  replace 0 with (0 * q) at 1 by lia. apply dhe_exact. lia.
Qed.

Lemma shl_align_min mx ex ez : ez <= ex ->
  Z.pos (fst (shl_align mx ex ez)) = Z.pos mx * 2 ^ (ex - ez).
Proof.
  intros H. pose proof (shl_align_spec mx ex ez) as S.
  destruct (shl_align mx ex ez) as [m' e']. destruct S as [S1 S2].
  simpl fst. rewrite S2. replace e' with ez by lia. reflexivity.
Qed.

Lemma align_value mx ex ez : -1074 <= ez <= ex ->
  Z.pos mx * 2 ^ (ex - ez) * 2 ^ (ez + 1074) = Z.pos mx * 2 ^ (ex + 1074).
Proof.
  intros H. rewrite <- Z.mul_assoc. rewrite <- pow2_add by lia. f_equal. f_equal. lia.
Qed.

Lemma SFadd_ord x y :
  valid_binary x = true -> valid_binary y = true ->
  sf_nan x = false -> sf_nan y = false -> 0 <= ord x -> 0 <= ord y ->
  sf_nan (SFadd prec emax x y) = false /\
  ord (SFadd prec emax x y) = Z.min INF (round_units (ord x + ord y) 1).
Proof.
  intros Vx Vy Nx Ny Ox Oy. pose proof INF_pos as IP.
  destruct x as [sx|sx| |sx mx ex]; try discriminate;
  destruct y as [sy|sy| |sy my ey]; try discriminate;
  unfold valid_binary in Vx, Vy;
  try (pose proof (finite_ord_bounds _ _ Vx) as Bx);
  try (pose proof (finite_ord_bounds _ _ Vy) as By);
  try (pose proof (valid_fix _ _ Vx) as Fx);
  try (pose proof (valid_fix _ _ Vy) as Fy).
  - (* zero, zero *)
    split; [destruct sx, sy; reflexivity|].
    replace (ord (S754_zero sx) + ord (S754_zero sy)) with 0 by reflexivity.
    rewrite round_units_0 by lia. destruct sx, sy; simpl; lia.
  - (* zero, inf *)
    destruct sy; [unfold ord in Oy; lia|].
    split; [reflexivity|].
    change (ord (S754_zero sx) + ord (S754_infinity false)) with (0 + INF).
    rewrite Z.add_0_l, round_units_INF. simpl. lia.
  - (* zero, finite *)
    destruct sy; [unfold ord in Oy; lia|].
    split; [reflexivity|].
    unfold SFadd, ord. cbv zeta. rewrite Z.add_0_l, Fy. lia.
  - (* inf, zero *)
    destruct sx; [unfold ord in Ox; lia|].
    split; [reflexivity|].
    change (ord (S754_infinity false) + ord (S754_zero sy)) with (INF + 0).
    rewrite Z.add_0_r, round_units_INF. simpl. lia.
  - (* inf, inf *)
    destruct sx; [unfold ord in Ox; lia|]. destruct sy; [unfold ord in Oy; lia|].
    split; [reflexivity|].
    pose proof (round_units_ge_INF (INF + INF) ltac:(lia)).
    change (ord (S754_infinity false)) with INF.
    change (ord (SFadd prec emax (S754_infinity false) (S754_infinity false))) with INF. lia.
  - (* inf, finite *)
    destruct sx; [unfold ord in Ox; lia|]. destruct sy; [unfold ord in Oy; lia|].
    split; [reflexivity|].
    change (ord (SFadd prec emax (S754_infinity false) (S754_finite false my ey))) with INF.
    unfold ord; cbv zeta.
    pose proof (round_units_ge_INF (INF + Z.pos my * 2 ^ (ey + 1074)) ltac:(lia)). lia.
  - (* finite, zero *)
    destruct sx; [unfold ord in Ox; lia|].
    split; [reflexivity|].
    unfold SFadd, ord. cbv zeta. rewrite Z.add_0_r, Fx. lia.
  - (* finite, inf *)
    destruct sx; [unfold ord in Ox; lia|]. destruct sy; [unfold ord in Oy; lia|].
    split; [reflexivity|].
    change (ord (SFadd prec emax (S754_finite false mx ex) (S754_infinity false))) with INF.
    unfold ord; cbv zeta.
    pose proof (round_units_ge_INF (Z.pos mx * 2 ^ (ex + 1074) + INF) ltac:(lia)). lia.
  - (* finite, finite *)
    destruct sx; [unfold ord in Ox; lia|]. destruct sy; [unfold ord in Oy; lia|].
    destruct (bounded_inv _ _ Vx) as (Hex & _). destruct (bounded_inv _ _ Vy) as (Hey & _).
    unfold SFadd. cbv zeta. unfold cond_Zopp.
    set (ez := Z.min ex ey).
    rewrite <- Pos2Z.inj_add. unfold binary_normalize.
    destruct (binary_round_facts false (fst (shl_align mx ex ez) + fst (shl_align my ey ez))%positive ez
                ltac:(unfold ez; lia)) as (_ & _ & Nn & Or).
    split; [exact Nn|]. rewrite Or. unfold sgn.
    rewrite Z.min_comm. f_equal. f_equal.
    rewrite Pos2Z.inj_add. rewrite !shl_align_min by (unfold ez; lia).
    rewrite Z.mul_add_distr_r. rewrite !align_value by (unfold ez; lia).
    reflexivity.
Qed.

Lemma SFsub_ord x d :
  valid_binary x = true -> valid_binary d = true ->
  sf_nan x = false -> sf_nan d = false ->
  - INF < ord x < INF -> 0 <= ord d ->
  sf_nan (SFsub prec emax x d) = false /\
  ord (SFsub prec emax x d) <= Z.max 0 (ord x) /\
  (0 < ord x - ord d -> ord (SFsub prec emax x d) = round_units (ord x - ord d) 1).
Proof.
  intros Vx Vd Nx Nd Ox Od. pose proof INF_pos as IP.
  destruct x as [sx|sx| |sx mx ex]; try discriminate;
  destruct d as [sy|sy| |sy my ey]; try discriminate;
  unfold valid_binary in Vx, Vd;
  try (pose proof (finite_ord_bounds _ _ Vx) as Bx);
  try (pose proof (finite_ord_bounds _ _ Vd) as By);
  try (pose proof (valid_fix _ _ Vx) as Fx);
  try (pose proof (valid_fix _ _ Vd) as Fy).
  - split; [destruct sx, sy; reflexivity|]. split.
    + destruct sx, sy; simpl; lia.
    + unfold ord. lia.
  - destruct sy; [unfold ord in Od; lia|].
    split; [reflexivity|]. split.
    + unfold SFsub, ord. simpl negb. cbv iota. lia.
    + unfold ord at 1 2. lia.
  - destruct sy; [unfold ord in Od; lia|].
    split; [reflexivity|]. split.
    + unfold SFsub, ord. simpl negb. cbv iota zeta. lia.
    + unfold ord at 1 2. cbv zeta. lia.
  - destruct sx; unfold ord in Ox; lia.
  - destruct sx; unfold ord in Ox; lia.
  - destruct sx; unfold ord in Ox; lia.
  - split; [reflexivity|]. split.
    + unfold SFsub. lia.
    + intros Hp. unfold SFsub. change (ord (S754_zero sy)) with 0 in *. rewrite Z.sub_0_r in *.
      unfold ord in *. cbv zeta in *. destruct sx; [lia|]. symmetry. exact Fx.
  - destruct sy; [unfold ord in Od; lia|].
    split; [reflexivity|]. split.
    + unfold SFsub, ord. simpl negb. cbv iota zeta. destruct sx; lia.
    + unfold ord at 1 2. cbv zeta. destruct sx; lia.
  - destruct sy; [unfold ord in Od; lia|].
    destruct (bounded_inv _ _ Vx) as (Hex & _). destruct (bounded_inv _ _ Vd) as (Hey & _).
    unfold SFsub. cbv zeta. unfold cond_Zopp.
    set (ez := Z.min ex ey).
    assert (Ax : Z.pos (fst (shl_align mx ex ez)) * 2 ^ (ez + 1074) = Z.pos mx * 2 ^ (ex + 1074)).
    { rewrite shl_align_min by (unfold ez; lia). apply align_value. unfold ez; lia. }
    assert (Ay : Z.pos (fst (shl_align my ey ez)) * 2 ^ (ez + 1074) = Z.pos my * 2 ^ (ey + 1074)).
    { rewrite shl_align_min by (unfold ez; lia). apply align_value. unfold ez; lia. }
    set (ax := fst (shl_align mx ex ez)) in *. set (ay := fst (shl_align my ey ez)) in *.
    pose proof (pow2_gt0 (ez + 1074) ltac:(unfold ez; lia)) as Tz.
    change (ord (S754_finite false my ey)) with (Z.pos my * 2 ^ (ey + 1074)) in *.
    destruct sx.
    + (* negative minus positive *)
      change (ord (S754_finite true mx ex)) with (- (Z.pos mx * 2 ^ (ex + 1074))) in *.
      change (- Z.pos ax - Z.pos ay) with (Z.neg (ax + ay)).
      unfold binary_normalize.
      destruct (binary_round_facts true (ax + ay)%positive ez ltac:(unfold ez; lia)) as (_ & _ & Nn & Or).
      split; [exact Nn|]. rewrite Or. unfold sgn.
      assert (0 <= round_units (Z.pos (ax + ay) * 2 ^ (ez + 1074)) 1) by (apply round_units_nonneg; nia).
      split; [lia|]. lia.
    + change (ord (S754_finite false mx ex)) with (Z.pos mx * 2 ^ (ex + 1074)) in *.
      destruct (Z.pos ax - Z.pos ay) as [|p|p] eqn:E.
      * split; [reflexivity|]. split; [simpl; lia|]. intros; nia.
      * unfold binary_normalize.
        destruct (binary_round_facts false p ez ltac:(unfold ez; lia)) as (_ & _ & Nn & Or).
        split; [exact Nn|]. rewrite Or. unfold sgn.
        assert (V : Z.pos p * 2 ^ (ez + 1074) = Z.pos mx * 2 ^ (ex + 1074) - Z.pos my * 2 ^ (ey + 1074)).
        { rewrite <- E, <- Ax, <- Ay. ring. }
        rewrite V.
        assert (M : round_units (Z.pos mx * 2 ^ (ex + 1074) - Z.pos my * 2 ^ (ey + 1074)) 1
                    <= Z.pos mx * 2 ^ (ex + 1074)).
        { rewrite <- Fx at 2. apply round_units_mono; lia. }
        split; [lia|]. intros _. lia.
      * unfold binary_normalize.
        destruct (binary_round_facts true p ez ltac:(unfold ez; lia)) as (_ & _ & Nn & Or).
        split; [exact Nn|]. rewrite Or. unfold sgn.
        assert (0 <= round_units (Z.pos p * 2 ^ (ez + 1074)) 1) by (apply round_units_nonneg; nia).
        split; [lia|]. intros. exfalso. nia.
Qed.

Lemma SFdiv_ord x my ey :
  valid_binary x = true -> sf_nan x = false -> 0 <= ord x ->
  bounded prec emax my ey = true -> ey <= 0 ->
  let r := SFdiv prec emax x (S754_finite false my ey) in
  sf_nan r = false /\
  ord r = if ord x =? INF then INF
          else Z.min INF (round_units (ord x * 2 ^ (- ey)) (Z.pos my)).
Proof.
  intros Vx Nx Ox Vy Hey r. subst r. pose proof INF_pos as IP.
  destruct (bounded_inv _ _ Vy) as (Hey' & _).
  pose proof (pow2_gt0 (- ey) ltac:(lia)) as Ty.
  destruct x as [sx|sx| |sx mx ex]; try discriminate; unfold valid_binary in Vx.
  - split; [reflexivity|]. change (ord (S754_zero sx)) with 0.
    destruct (Z.eqb_spec 0 INF); try lia. rewrite Z.mul_0_l, round_units_0 by lia.
    simpl. lia.
  - destruct sx; [unfold ord in Ox; lia|]. split; [reflexivity|].
    change (ord (S754_infinity false)) with INF. rewrite Z.eqb_refl. reflexivity.
  - destruct sx; [pose proof (finite_ord_bounds _ _ Vx); unfold ord in Ox; cbv zeta in Ox; lia|].
    pose proof (finite_ord_bounds _ _ Vx) as Bx.
    destruct (bounded_inv _ _ Vx) as (Hex & _).
    unfold SFdiv. simpl xorb.
    pose proof (div_core_correct false (Z.pos mx) ex (Z.pos my) ey ltac:(lia) ltac:(lia) ltac:(lia)) as C.
    destruct (SFdiv_core_binary prec emax (Z.pos mx) ex (Z.pos my) ey) as [[mz ez] lz].
    rewrite C.
    assert (V : Z.pos mx * 2 ^ (ex - ey + 1074) = Z.pos mx * 2 ^ (ex + 1074) * 2 ^ (- ey)).
    { rewrite <- Z.mul_assoc, <- pow2_add by lia. f_equal. f_equal. lia. }
    rewrite V.
    split; [apply encode_nan|].
    rewrite encode_ord.
    + unfold ord. cbv zeta. destruct (Z.eqb_spec (Z.pos mx * 2 ^ (ex + 1074)) INF); try lia.
    + apply round_units_nonneg; nia.
    + apply round_units_idem; nia.
Qed.

Lemma iter_pos_inv {A : Type} (f : A -> A) (P : A -> Prop) :
  (forall x, P x -> P (f x)) -> forall p x, P x -> P (iter_pos f p x).
Proof.
  intros Hf. induction p as [p IH|p IH|]; intros x Hx; simpl; auto.
Qed.

Lemma shr_1_nonneg r : 0 <= shr_m r -> 0 <= shr_m (shr_1 r).
Proof.
  destruct r as [m rb sb]. simpl. intros H.
  destruct m as [|[p|p|]|p]; simpl; lia.
Qed.

Lemma shr_fexp_nonneg m e l : 0 <= m -> 0 <= shr_m (fst (shr_fexp prec emax m e l)).
Proof.
  intros Hm. unfold shr_fexp, shr.
  assert (H0 : 0 <= shr_m (shr_record_of_loc m l)) by (destruct l as [|[]]; exact Hm).
  destruct (fexp prec emax (Zdigits2 m + e) - e); simpl fst; try exact H0.
  apply iter_pos_inv; [apply shr_1_nonneg | exact H0].
Qed.

Lemma rne_nonneg m l : 0 <= m -> 0 <= round_nearest_even m l.
Proof.
  intros. unfold round_nearest_even. destruct l as [|[]]; try lia.
  destruct (Z.even m); lia.
Qed.

Lemma bra_signed s m e l : 0 <= m ->
  sf_signed s (binary_round_aux prec emax s m e l) = true.
Proof.
  intros Hm. unfold binary_round_aux.
  pose proof (shr_fexp_nonneg m e l Hm) as H1.
  destruct (shr_fexp prec emax m e l) as [mrs' e']. simpl fst in H1.
  pose proof (shr_fexp_nonneg (round_nearest_even (shr_m mrs') (loc_of_shr_record mrs')) e' loc_Exact
                (rne_nonneg _ _ H1)) as H2.
  destruct (shr_fexp prec emax _ e' loc_Exact) as [mrs'' e'']. simpl fst in H2.
  destruct (shr_m mrs''); try lia.
  - simpl. apply eqb_reflx.
  - destruct (e'' <=? emax - prec); simpl; apply eqb_reflx.
Qed.

Lemma signed_false_nonneg x : sf_signed false x = true -> sf_nonneg x = true.
Proof. destruct x as [s|s| |s m e]; simpl; try discriminate; auto; destruct s; auto. Qed.

Lemma SFmul_nonneg x y :
  sf_nonneg x = true -> sf_nonneg y = true -> sf_nonneg (SFmul prec emax x y) = true.
Proof.
  destruct x as [sx|sx| |sx mx ex]; destruct y as [sy|sy| |sy my ey]; simpl;
    intros Hx Hy; try reflexivity;
    try (destruct sx; try discriminate); try (destruct sy; try discriminate); try reflexivity.
  apply signed_false_nonneg. apply bra_signed. lia.
Qed.

Lemma SFdiv_nonneg x y :
  sf_nonneg x = true -> sf_pos y = true -> sf_nonneg (SFdiv prec emax x y) = true.
Proof.
  destruct x as [sx|sx| |sx mx ex]; destruct y as [sy|sy| |sy my ey]; simpl;
    intros Hx Hy; try reflexivity; try discriminate;
    try (destruct sx; try discriminate); try (destruct sy; try discriminate); try reflexivity.
  pose proof (Z.div_pos (match SFdiv_core_binary prec emax (Z.pos mx) ex (Z.pos my) ey with (q, _, _) => q end)) as _.
  unfold SFdiv_core_binary.
  set (m' := match _ with Z.pos _ => Z.shiftl (Z.pos mx) _ | 0 => Z.pos mx | Z.neg _ => 0 end).
  assert (Hm' : 0 <= m').
  { unfold m'. destruct (_ - _ - _); try lia. apply Z.shiftl_nonneg. lia. }
  assert (Q : 0 <= fst (Z.div_eucl m' (Z.pos my))) by (change (0 <= m' / Z.pos my); apply Z.div_pos; lia).
  destruct (Z.div_eucl m' (Z.pos my)) as [q r]. simpl fst in Q.
  apply signed_false_nonneg. apply bra_signed. exact Q.
Qed.

Lemma SFsqrt_nonneg x :
  sf_nonneg x = true -> sf_nonneg (SFsqrt prec emax x) = true.
Proof.
  destruct x as [sx|sx| |sx mx ex]; simpl; intros Hx; try reflexivity;
    destruct sx; try discriminate; try reflexivity.
  unfold SFsqrt_core_binary.
  set (m' := match _ with Z.pos _ => Z.shiftl (Z.pos mx) _ | 0 => Z.pos mx | Z.neg _ => 0 end).
  assert (Hm' : 0 <= m').
  { unfold m'. destruct (_ - _); try lia. apply Z.shiftl_nonneg. lia. }
  pose proof (Z.sqrtrem_spec m' Hm') as S.
  destruct (Z.sqrtrem m') as [q r].
  assert (0 <= q) by nia.
  destruct (r =? 0); [|destruct (r <=? q)]; apply signed_false_nonneg; apply bra_signed; assumption.
Qed.

(** ** Primitive floats *)

Lemma ltb_ord x y : fnan x = false -> fnan y = false ->
  PrimFloat.ltb x y = (F2Z x <? F2Z y).
Proof.
  intros Nx Ny. rewrite ltb_spec. unfold SFltb.
  rewrite compare_ord by (auto using Prim2SF_valid).
  unfold Z.ltb, F2Z. destruct (_ ?= _); reflexivity.
Qed.

Lemma leb_ord x y : fnan x = false -> fnan y = false ->
  PrimFloat.leb x y = (F2Z x <=? F2Z y).
Proof.
  intros Nx Ny. rewrite leb_spec. unfold SFleb.
  rewrite compare_ord by (auto using Prim2SF_valid).
  unfold Z.leb, F2Z. destruct (_ ?= _); reflexivity.
Qed.

Lemma eqb_ord x y : fnan x = false -> fnan y = false ->
  PrimFloat.eqb x y = (F2Z x =? F2Z y).
Proof.
  intros Nx Ny. rewrite eqb_spec. unfold SFeqb.
  rewrite compare_ord by (auto using Prim2SF_valid).
  unfold Z.eqb, F2Z. destruct (ord (Prim2SF x)), (ord (Prim2SF y)); simpl; try reflexivity;
  rewrite ?Pos.compare_cont_spec; destruct (Pos.compare_spec p p0); subst; try reflexivity;
  rewrite ?Pos.eqb_refl; try reflexivity;
  try (symmetry; apply Pos.eqb_neq; lia).
Qed.

Lemma SFcompare_nan_l y : SFcompare S754_nan y = None.
Proof. reflexivity. Qed.

Lemma SFcompare_nan_r x : SFcompare x S754_nan = None.
Proof. destruct x; reflexivity. Qed.

Lemma fnan_inv x : fnan x = true -> Prim2SF x = S754_nan.
Proof. unfold fnan. destruct (Prim2SF x); simpl; congruence. Qed.

Lemma ltb_nan x y : fnan x = true \/ fnan y = true -> PrimFloat.ltb x y = false.
Proof.
  intros [H|H]; apply fnan_inv in H; rewrite ltb_spec; unfold SFltb; rewrite H;
    [rewrite SFcompare_nan_l | rewrite SFcompare_nan_r]; reflexivity.
Qed.

Lemma leb_nan x y : fnan x = true \/ fnan y = true -> PrimFloat.leb x y = false.
Proof.
  intros [H|H]; apply fnan_inv in H; rewrite leb_spec; unfold SFleb; rewrite H;
    [rewrite SFcompare_nan_l | rewrite SFcompare_nan_r]; reflexivity.
Qed.

Lemma ltb_true_inv x y : PrimFloat.ltb x y = true ->
  fnan x = false /\ fnan y = false /\ F2Z x < F2Z y.
Proof.
  intros H.
  destruct (fnan x) eqn:Nx. { rewrite ltb_nan in H by auto. discriminate. }
  destruct (fnan y) eqn:Ny. { rewrite ltb_nan in H by auto. discriminate. }
  rewrite ltb_ord in H by assumption. apply Z.ltb_lt in H. auto.
Qed.

Lemma leb_true_inv x y : PrimFloat.leb x y = true ->
  fnan x = false /\ fnan y = false /\ F2Z x <= F2Z y.
Proof.
  intros H.
  destruct (fnan x) eqn:Nx. { rewrite leb_nan in H by auto. discriminate. }
  destruct (fnan y) eqn:Ny. { rewrite leb_nan in H by auto. discriminate. }
  rewrite leb_ord in H by assumption. apply Z.leb_le in H. auto.
Qed.

Lemma F2Z_zero : F2Z 0%float = 0.
Proof. reflexivity. Qed.

Lemma fnan_zero : fnan 0%float = false.
Proof. reflexivity. Qed.

Lemma F2Z_infinity : F2Z infinity = INF.
Proof. reflexivity. Qed.

Lemma F2Z_neg_infinity : F2Z neg_infinity = - INF.
Proof. reflexivity. Qed.

Lemma F2Z_range x : - INF <= F2Z x <= INF.
Proof.
  unfold F2Z. pose proof (Prim2SF_valid x) as V. pose proof INF_pos.
  destruct (Prim2SF x) as [s|s| |s m e]; unfold ord; try lia.
  - destruct s; lia.
  - unfold valid_binary in V. pose proof (finite_ord_bounds _ _ V). cbv zeta. destruct s; lia.
Qed.

Lemma sub_ord x d :
  fnan x = false -> fnan d = false -> - INF < F2Z x < INF -> 0 <= F2Z d ->
  fnan (x - d)%float = false /\
  F2Z (x - d)%float <= Z.max 0 (F2Z x) /\
  (0 < F2Z x - F2Z d -> F2Z (x - d)%float = round_units (F2Z x - F2Z d) 1).
Proof.
  intros. unfold fnan, F2Z. rewrite sub_spec.
  apply SFsub_ord; auto using Prim2SF_valid.
Qed.

Lemma add_ord x y :
  fnan x = false -> fnan y = false -> 0 <= F2Z x -> 0 <= F2Z y ->
  fnan (x + y)%float = false /\
  F2Z (x + y)%float = Z.min INF (round_units (F2Z x + F2Z y) 1).
Proof.
  intros. unfold fnan, F2Z. rewrite add_spec.
  apply SFadd_ord; auto using Prim2SF_valid.
Qed.

Lemma Prim2SF_300 : Prim2SF 300%float = S754_finite false 5277655813324800 (-44).
Proof. reflexivity. Qed.

Lemma div300_ord x :
  fnan x = false -> 0 <= F2Z x ->
  fnan (x / 300)%float = false /\ F2Z (x / 300)%float = div300_units (F2Z x).
Proof.
  intros Nx Ox. unfold fnan, F2Z. rewrite div_spec, Prim2SF_300.
  assert (B : bounded prec emax 5277655813324800 (-44) = true) by reflexivity.
  assert (L : -44 <= 0) by lia.
  pose proof (SFdiv_ord (Prim2SF x) 5277655813324800 (-44) (Prim2SF_valid x) Nx Ox B L) as [D1 D2].
  cbv zeta in D1, D2. split; [exact D1|]. unfold SF64div. rewrite D2.
  unfold div300_units. destruct (_ =? INF); [reflexivity|].
  f_equal. change (Z.pos 5277655813324800) with (300 * 2 ^ 44). change (- -44) with 44.
  apply round_units_scale; try lia. exact Ox.
Qed.

Lemma div300_units_mono u v : 0 <= u <= v -> v <= INF ->
  div300_units u <= div300_units v.
Proof.
  intros H Hv. unfold div300_units. pose proof INF_pos.
  destruct (Z.eqb_spec u INF), (Z.eqb_spec v INF); try lia.
  pose proof (round_units_mono u 300 v 300 ltac:(lia) ltac:(lia) ltac:(lia) ltac:(lia) ltac:(lia)). lia.
Qed.

Lemma div300_units_nonneg u : 0 <= u -> 0 <= div300_units u.
Proof.
  intros H. unfold div300_units. pose proof INF_pos.
  destruct (Z.eqb_spec u INF); try lia.
  pose proof (round_units_nonneg u 300 H ltac:(lia)). lia.
Qed.

(** [Py.max 0.0 g] is never NaN and never negative. *)
Lemma max0_ord g : fnan (Py.max 0%float g) = false /\ 0 <= F2Z (Py.max 0%float g).
Proof.
  unfold Py.max. destruct (PrimFloat.ltb 0 g) eqn:E.
  - apply ltb_true_inv in E. destruct E as (_ & N & L). rewrite F2Z_zero in L. split; [exact N|lia].
  - split; [reflexivity|]. rewrite F2Z_zero. lia.
Qed.

Lemma fnonneg_ltb0 x : fnonneg x = true -> PrimFloat.ltb x 0 = false.
Proof.
  unfold fnonneg. intros H. rewrite ltb_spec. unfold SFltb.
  change (Prim2SF 0) with (S754_zero false).
  destruct (Prim2SF x) as [s|s| |s m e]; simpl in *; try reflexivity; destruct s; try discriminate; reflexivity.
Qed.

Lemma fpos_eqb0 x : fpos x = true -> PrimFloat.eqb x 0 = false.
Proof.
  unfold fpos. intros H. rewrite eqb_spec. unfold SFeqb.
  change (Prim2SF 0) with (S754_zero false).
  destruct (Prim2SF x) as [s|s| |s m e]; simpl in *; try discriminate; destruct s; try discriminate; reflexivity.
Qed.

Lemma ltb0_fpos x : PrimFloat.ltb 0 x = true -> fpos x = true.
Proof.
  unfold fpos. rewrite ltb_spec. unfold SFltb.
  change (Prim2SF 0) with (S754_zero false).
  destruct (Prim2SF x) as [s|s| |s m e]; simpl; try discriminate; destruct s; try discriminate; reflexivity.
Qed.

Lemma leb0_fnonneg x : PrimFloat.leb 0 x = true -> fnonneg x = true.
Proof.
  unfold fnonneg. rewrite leb_spec. unfold SFleb.
  change (Prim2SF 0) with (S754_zero false).
  destruct (Prim2SF x) as [s|s| |s m e]; simpl; try discriminate; try reflexivity; destruct s; try discriminate; reflexivity.
Qed.

Lemma fpos_fnonneg x : fpos x = true -> fnonneg x = true.
Proof. unfold fpos, fnonneg. destruct (Prim2SF x) as [s|s| |s m e]; simpl; auto; discriminate. Qed.

Lemma mul_nonneg x y : fnonneg x = true -> fnonneg y = true -> fnonneg (x * y)%float = true.
Proof. unfold fnonneg. rewrite mul_spec. apply SFmul_nonneg. Qed.

Lemma div_nonneg x y : fnonneg x = true -> fpos y = true -> fnonneg (x / y)%float = true.
Proof. unfold fnonneg, fpos. rewrite div_spec. apply SFdiv_nonneg. Qed.

Lemma sqrt_nonneg x : fnonneg x = true -> fnonneg (PrimFloat.sqrt x) = true.
Proof. unfold fnonneg. rewrite sqrt_spec. apply SFsqrt_nonneg. Qed.

(** ** [float(n)], [a / b] on integers and [round] *)

Lemma encode_inf s v : 0 <= v ->
  (exists s', encode s v = S754_infinity s') <-> INF <= v.
Proof.
  intros Hv. unfold encode. pose proof INF_pos.
  destruct (Z.eqb_spec v 0).
  - split; [intros [s' E]; discriminate | lia].
  - destruct (Z.leb_spec (2 ^ 2098) v) as [L|L]; fold INF in L.
    + split; [auto | eauto].
    + split; [intros [s' E]; discriminate | lia].
Qed.

Lemma encode_SF2Prim s v : 0 <= v -> round_units v 1 = v -> v < INF ->
  let f := SF2Prim (encode s v) in
  Prim2SF f = encode s v /\ fnan f = false /\ F2Z f = sgn s v.
Proof.
  intros Hv Fx Lt f.
  assert (P : Prim2SF f = encode s v) by (apply Prim2SF_SF2Prim, encode_valid; assumption).
  split; [exact P|]. unfold fnan, F2Z. rewrite P. split; [apply encode_nan|].
  rewrite encode_ord by assumption. rewrite Z.min_l by lia. reflexivity.
Qed.

Lemma round_max_int : round_units (max_int_float * 2 ^ 1074) 1 < INF.
Proof. vm_compute. reflexivity. Qed.

Lemma round_over_int : round_units ((max_int_float + 1) * 2 ^ 1074) 1 = INF.
Proof. vm_compute. reflexivity. Qed.

Lemma float_of_int_ok z : Z.abs z <= max_int_float ->
  exists f, Py.float_of_int z = Ok f /\ fnan f = false /\
            F2Z f = sgn (z <? 0) (round_units (Z.abs z * 2 ^ 1074) 1) /\
            - INF < F2Z f < INF.
Proof.
  intros Hz. unfold Py.float_of_int, binary_normalize.
  pose proof INF_pos as IP.
  destruct z as [|p|p].
  - exists 0%float. repeat split; reflexivity.
  - rewrite binary_round_correct by lia. change (0 + 1074) with 1074.
    set (v := round_units (Z.pos p * 2 ^ 1074) 1).
    assert (V0 : 0 <= v) by (apply round_units_nonneg; lia).
    assert (VI : v < INF).
    { apply Z.le_lt_trans with (round_units (max_int_float * 2 ^ 1074) 1); [|apply round_max_int].
      apply round_units_mono; lia. }
    destruct (encode_SF2Prim false v V0 ltac:(apply round_units_idem; lia) VI) as (P & N & O).
    exists (SF2Prim (encode false v)).
    split.
    + destruct (encode false v) eqn:E; try reflexivity.
      exfalso. assert (INF <= v) by (apply (encode_inf false v V0); eauto). lia.
    + split; [exact N|]. split; [exact O|]. rewrite O. unfold sgn. lia.
  - rewrite binary_round_correct by lia. change (0 + 1074) with 1074.
    set (v := round_units (Z.pos p * 2 ^ 1074) 1).
    assert (V0 : 0 <= v) by (apply round_units_nonneg; lia).
    assert (VI : v < INF).
    { apply Z.le_lt_trans with (round_units (max_int_float * 2 ^ 1074) 1); [|apply round_max_int].
      apply round_units_mono; lia. }
    destruct (encode_SF2Prim true v V0 ltac:(apply round_units_idem; lia) VI) as (P & N & O).
    exists (SF2Prim (encode true v)).
    split.
    + destruct (encode true v) eqn:E; try reflexivity.
      exfalso. assert (INF <= v) by (apply (encode_inf true v V0); eauto). lia.
    + split; [exact N|]. split; [exact O|]. rewrite O. unfold sgn. lia.
Qed.

Lemma float_of_int_overflow z : max_int_float < Z.abs z ->
  Py.float_of_int z = Raise OverflowError.
Proof.
  intros Hz. unfold Py.float_of_int, binary_normalize.
  assert (M0 : 0 < max_int_float) by (vm_compute; reflexivity).
  destruct z as [|p|p]; simpl Z.abs in Hz; try lia;
    rewrite binary_round_correct by lia; change (0 + 1074) with 1074.
  - set (v := round_units (Z.pos p * 2 ^ 1074) 1).
    assert (VI : INF <= v).
    { rewrite <- round_over_int. apply round_units_mono; lia. }
    destruct (proj2 (encode_inf false v ltac:(pose proof INF_pos; lia)) VI) as [s' E].
    rewrite E. reflexivity.
  - set (v := round_units (Z.pos p * 2 ^ 1074) 1).
    assert (VI : INF <= v).
    { rewrite <- round_over_int. apply round_units_mono; lia. }
    destruct (proj2 (encode_inf true v ltac:(pose proof INF_pos; lia)) VI) as [s' E].
    rewrite E. reflexivity.
Qed.

Lemma int_truediv_ok a b : 0 <= a -> 0 < b ->
  round_units (a * 2 ^ 1074) b < INF ->
  exists f, Py.int_truediv a b = Ok f /\ fnan f = false /\
            F2Z f = round_units (a * 2 ^ 1074) b.
Proof.
  intros Ha Hb Hv. unfold Py.int_truediv.
  destruct (Z.eqb_spec b 0); try lia.
  replace (a <? 0) with false by (symmetry; apply Z.ltb_ge; lia).
  replace (b <? 0) with false by (symmetry; apply Z.ltb_ge; lia).
  simpl xorb.
  destruct (Z.eqb_spec a 0) as [->|Na].
  - exists 0%float. split; [reflexivity|]. split; [reflexivity|].
    rewrite Z.mul_0_l, round_units_0 by lia. reflexivity.
  - rewrite !Z.abs_eq by lia.
    pose proof (div_core_correct false a 0 b 0 ltac:(lia) ltac:(lia) ltac:(lia)) as C.
    destruct (SFdiv_core_binary prec emax a 0 b 0) as [[mz ez] lz].
    rewrite C. change (0 - 0 + 1074) with 1074.
    set (v := round_units (a * 2 ^ 1074) b) in *.
    assert (V0 : 0 <= v) by (apply round_units_nonneg; lia).
    destruct (encode_SF2Prim false v V0 ltac:(apply round_units_idem; lia) Hv) as (P & N & O).
    exists (SF2Prim (encode false v)). split.
    + destruct (encode false v) eqn:E; try reflexivity.
      exfalso. assert (INF <= v) by (apply (encode_inf false v V0); eauto). lia.
    + split; [exact N | exact O].
Qed.

Lemma pow10_pos n : 0 < 10 ^ Z.of_nat n.
Proof. apply Z.pow_pos_nonneg; lia. Qed.

Lemma round_total x nd : exists y, Py.round x nd = Ok y.
Proof.
  unfold Py.round. pose proof (Prim2SF_valid x) as V.
  destruct (Prim2SF x) as [s|s| |s m e] eqn:E; eauto.
  destruct (0 <=? e) eqn:Le; eauto.
  apply Z.leb_gt in Le. cbv zeta.
  pose proof (pow10_pos nd) as P10. set (p10 := 10 ^ Z.of_nat nd) in *.
  set (n := Py.div_half_even (Z.pos m * p10) (2 ^ (- e))).
  pose proof (pow2_gt0 (- e) ltac:(lia)) as T.
  assert (N0 : 0 <= n) by (apply dhe_nonneg; nia).
  destruct (Z.eqb_spec n 0); eauto.
  pose proof (div_core_correct s n 0 p10 0 ltac:(lia) ltac:(lia) ltac:(lia)) as C.
  destruct (SFdiv_core_binary prec emax n 0 p10 0) as [[mz ez] lz].
  rewrite C. change (0 - 0 + 1074) with 1074.
  set (v := round_units (n * 2 ^ 1074) p10).
  assert (V0 : 0 <= v) by (apply round_units_nonneg; lia).
  assert (VI : v < INF).
  { unfold valid_binary in V. pose proof (finite_ord_bounds _ _ V) as B.
    pose proof (valid_fix _ _ V) as F. destruct (bounded_inv _ _ V) as (He & _).
    assert (Nle : n <= Z.pos m * p10) by (apply dhe_le_int; nia).
    pose proof (pow2_gt0 (e + 1074) ltac:(lia)).
    pose proof (pow2_gt0 (e + 1075) ltac:(lia)).
    assert (F2 : round_units (Z.pos m * 2 ^ (e + 1075)) 1 = Z.pos m * 2 ^ (e + 1075)).
    { apply round_units_fix; try lia.
      destruct (digits_bounds (Z.pos m) ltac:(lia)) as [_ Bm].
      pose proof (digits_nonneg (Z.pos m)).
      pose proof (pow2_le (Zdigits2 (Z.pos m)) 53 ltac:(destruct (bounded_inv _ _ V); lia)). lia. }
    assert (S2 : 2 ^ (e + 1075) = 2 * 2 ^ (e + 1074)).
    { replace (e + 1075) with (1 + (e + 1074)) by lia. rewrite pow2_add by lia. reflexivity. }
    assert (B2 : Z.pos m * 2 ^ (e + 1075) < INF).
    { rewrite INF_split. 
      destruct (digits_bounds (Z.pos m) ltac:(lia)) as [_ Bm].
      pose proof (digits_nonneg (Z.pos m)).
      pose proof (pow2_le (Zdigits2 (Z.pos m)) 53 ltac:(destruct (bounded_inv _ _ V); lia)).
      pose proof (pow2_le (e + 1075) 2045 ltac:(lia)).
      pose proof (pow2_gt0 2045 ltac:(lia)). nia. }
    apply Z.le_lt_trans with (round_units (Z.pos m * 2 ^ (e + 1075)) 1); [|lia].
    apply round_units_mono; try nia.
    (* n * 2^1074 * 1 <= m * 2^(e+1074) * p10, using n * 2^(-e) <= m * p10 + 2^(-e)/2 *)
    destruct (dhe_cases (Z.pos m * p10) (2 ^ (- e)) T ltac:(nia)) as (D & Bd & Cs).
    fold n in Cs.
    assert (S : 2 ^ 1074 = 2 ^ (e + 1074) * 2 ^ (- e)).
    { rewrite <- pow2_add by lia. f_equal. lia. }
    assert (K : n * 2 ^ (- e) <= 2 * (Z.pos m * p10)).
    { assert (1 <= Z.pos m * p10 / 2 ^ (- e) \/ Z.pos m * p10 / 2 ^ (- e) = 0)
        by (pose proof (Z.div_pos (Z.pos m * p10) (2 ^ (- e)) ltac:(nia) T); lia).
      destruct Cs as [[C1 C2]|[C1 C2]]; nia. }
    rewrite S, S2. nia. }
  destruct (encode s v) eqn:En; eauto.
  exfalso. assert (INF <= v) by (apply (encode_inf s v V0); eauto). lia.
Qed.

(** ** The loops of the simulation *)

(** Loops *)

Lemma for_in_app {S : Type} (xs ys : list nat) (body : nat -> S -> result S) st :
  for_in (xs ++ ys) body st = bind (for_in xs body st) (for_in ys body).
Proof.
  revert st. induction xs as [|x xs IH]; intros st; simpl; [reflexivity|].
  destruct (body x st); simpl; auto.
Qed.

Lemma getitem_app {A : Type} (l r : list A) (x : A) :
  getitem (l ++ x :: r) (List.length l) = Ok x.
Proof.
  unfold getitem. rewrite nth_error_app2 by lia. rewrite Nat.sub_diag. reflexivity.
Qed.

Lemma list_set_app {A : Type} (l r : list A) (x v : A) :
  list_set (l ++ x :: r) (List.length l) v = l ++ v :: r.
Proof. induction l as [|y l IH]; simpl; [reflexivity|]. rewrite IH. reflexivity. Qed.

Lemma setitem_app {A : Type} (l r : list A) (x v : A) :
  setitem (l ++ x :: r) (List.length l) v = Ok (l ++ v :: r).
Proof.
  unfold setitem. rewrite length_app. simpl List.length.
  replace (List.length l <? List.length l + S (List.length r))%nat with true
    by (symmetry; apply Nat.ltb_lt; lia).
  rewrite list_set_app. reflexivity.
Qed.

Lemma draws_S gauss c n :
  draws gauss c (S n) = Py.max 0%float (gauss c) :: draws gauss (S c) n.
Proof.
  unfold draws. simpl seq. simpl map. rewrite Nat.add_0_r. f_equal.
  rewrite <- seq_shift, map_map. apply map_ext. intros i. f_equal. f_equal. lia.
Qed.

Lemma periods_spec gauss : forall n ds dm dM ts tm tM ips ev c iv pth,
  List.length dm = List.length ds -> List.length dM = List.length ds ->
  List.length ts = n -> List.length tm = n -> List.length tM = n ->
  for_in (seq (List.length ds) n) (period_step gauss)
    (Build_sim ips (ds ++ ts) (dm ++ tm) (dM ++ tM) ev c iv pth)
  = Ok (Build_sim ips
          (ds ++ zip_with PrimFloat.add ts (path_from iv (draws gauss c n)))
          (dm ++ zip_with min_upd tm (path_from iv (draws gauss c n)))
          (dM ++ zip_with max_upd tM (path_from iv (draws gauss c n)))
          (ev + count_true (stockouts_from iv (draws gauss c n)))
          (c + n)
          (fold_left level_step (draws gauss c n) iv)
          (pth ++ path_from iv (draws gauss c n))).
Proof.
  induction n as [|n IH]; intros ds dm dM ts tm tM ips ev c iv pth Lm LM Ls Lmi LMa.
  - destruct ts, tm, tM; try discriminate. simpl.
    rewrite Z.add_0_r, Nat.add_0_r, !app_nil_r. reflexivity.
  - destruct ts as [|s_t ts]; try discriminate.
    destruct tm as [|m_t tm]; try discriminate.
    destruct tM as [|M_t tM]; try discriminate.
    simpl in Ls, Lmi, LMa.
    rewrite draws_S. simpl seq. simpl for_in.
    unfold period_step at 1. cbv zeta.
    simpl sum_levels. simpl min_levels. simpl max_levels. simpl gauss_calls.
    simpl inv. simpl path. simpl stockout_events. simpl inventory_paths.
    rewrite getitem_app. simpl bind. rewrite setitem_app. simpl bind.
    rewrite <- Lm. rewrite getitem_app. simpl bind.
    set (d := Py.max 0%float (gauss c)).
    set (inv1 := (iv - d)%float).
    set (l := if (inv1 <=? 0)%float then int_zero else inv1).
    assert (Em : (if (l <? m_t)%float then setitem (dm ++ m_t :: tm) (List.length dm) l
                  else Ok (dm ++ m_t :: tm)) = Ok (dm ++ min_upd m_t l :: tm)).
    { unfold min_upd. destruct (l <? m_t)%float; [apply setitem_app | reflexivity]. }
    rewrite Em. simpl bind.
    replace (List.length dm) with (List.length dM) by lia. rewrite getitem_app. simpl bind.
    assert (EM : (if (M_t <? l)%float then setitem (dM ++ M_t :: tM) (List.length dM) l
                  else Ok (dM ++ M_t :: tM)) = Ok (dM ++ max_upd M_t l :: tM)).
    { unfold max_upd. destruct (M_t <? l)%float; [apply setitem_app | reflexivity]. }
    rewrite EM. simpl bind.
    replace (ds ++ (s_t + l)%float :: ts) with ((ds ++ [(s_t + l)%float]) ++ ts)
      by (rewrite <- app_assoc; reflexivity).
    replace (dm ++ min_upd m_t l :: tm) with ((dm ++ [min_upd m_t l]) ++ tm)
      by (rewrite <- app_assoc; reflexivity).
    replace (dM ++ max_upd M_t l :: tM) with ((dM ++ [max_upd M_t l]) ++ tM)
      by (rewrite <- app_assoc; reflexivity).
    replace (S (List.length dM)) with (List.length (ds ++ [(s_t + l)%float]))
      by (rewrite length_app; simpl; lia).
    rewrite IH by (rewrite ?length_app; simpl; lia).
    change (level_step iv d) with l. change (stockout iv d) with (inv1 <=? 0)%float.
    simpl path_from. simpl stockouts_from. simpl fold_left. simpl zip_with. simpl count_true.
    change (level_step iv d) with l. change (stockout iv d) with (inv1 <=? 0)%float.
    f_equal. f_equal.
    + rewrite <- app_assoc. reflexivity.
    + rewrite <- app_assoc. reflexivity.
    + rewrite <- app_assoc. reflexivity.
    + destruct (inv1 <=? 0)%float; lia.
    + lia.
    + rewrite <- app_assoc. reflexivity.
Qed.

Lemma path_from_length iv ds : List.length (path_from iv ds) = List.length ds.
Proof. revert iv. induction ds as [|d ds IH]; intros iv; simpl; auto. Qed.

Lemma draws_length gauss c n : List.length (draws gauss c n) = n.
Proof. unfold draws. rewrite length_map, length_seq. reflexivity. Qed.

Lemma zip_with_length {A B C : Type} (f : A -> B -> C) xs ys :
  List.length xs = List.length ys -> List.length (zip_with f xs ys) = List.length xs.
Proof.
  revert ys. induction xs as [|x xs IH]; intros [|y ys] H; simpl in *; try lia.
  rewrite IH; lia.
Qed.

Lemma run_step_pure gauss start run st : lists_ok st ->
  run_step gauss start run st = Ok (run_pure gauss start run st).
Proof.
  intros (Ls & Lm & LM). unfold run_step.
  pose proof (periods_spec gauss horizon [] [] [] (sum_levels st) (min_levels st)
                (max_levels st) (inventory_paths st) (stockout_events st)
                (gauss_calls st) start [] eq_refl eq_refl Ls Lm LM) as P.
  simpl List.length in P. simpl app in P. unfold range. rewrite P. simpl bind.
  unfold run_pure. cbv zeta.
  destruct (Nat.ltb run 20); simpl; f_equal; f_equal; lia.
Qed.

Lemma run_pure_ok gauss start run st : lists_ok st -> lists_ok (run_pure gauss start run st).
Proof.
  intros (Ls & Lm & LM). unfold lists_ok, run_pure. simpl.
  rewrite !zip_with_length; rewrite ?path_from_length, ?draws_length; auto.
Qed.

Lemma sim_init_ok : lists_ok sim_init.
Proof. repeat split. Qed.

Lemma runs_pure_ok gauss start n : lists_ok (runs_pure gauss start n).
Proof. induction n; simpl; [apply sim_init_ok | apply run_pure_ok; assumption]. Qed.

Lemma runs_loop gauss start n :
  for_in (seq 0 n) (run_step gauss start) sim_init = Ok (runs_pure gauss start n).
Proof.
  induction n as [|n IH]; [reflexivity|].
  rewrite seq_S, for_in_app, IH. simpl.
  rewrite run_step_pure by apply runs_pure_ok. reflexivity.
Qed.

Lemma simulate_pure gauss start :
  simulate gauss start = Ok (runs_pure gauss start num_runs).
Proof. apply runs_loop. Qed.

Lemma runs_pure_calls gauss start n :
  gauss_calls (runs_pure gauss start n) = (n * horizon)%nat.
Proof.
  induction n as [|n IH]; [reflexivity|].
  change (gauss_calls (runs_pure gauss start (S n)))
    with (gauss_calls (runs_pure gauss start n) + horizon)%nat.
  rewrite IH. unfold horizon. lia.
Qed.

Lemma runs_pure_S gauss start n :
  runs_pure gauss start (S n) =
  let st := runs_pure gauss start n in
  let p := run_path gauss start n in
  {| inventory_paths :=
       if Nat.ltb n 20 then inventory_paths st ++ [p] else inventory_paths st;
     sum_levels := zip_with PrimFloat.add (sum_levels st) p;
     min_levels := zip_with min_upd (min_levels st) p;
     max_levels := zip_with max_upd (max_levels st) p;
     stockout_events := stockout_events st + count_true (run_stockouts gauss start n);
     gauss_calls := gauss_calls st + horizon;
     inv := fold_left level_step (run_draws gauss n) start;
     path := p |}.
Proof.
  simpl runs_pure. unfold run_pure. rewrite runs_pure_calls. reflexivity.
Qed.

Lemma avg_levels_spec sums :
  avg_levels sums = Ok (map (fun x => (x / 300)%float) sums).
Proof.
  induction sums as [|x sums IH]; [reflexivity|].
  simpl avg_levels. change (Py.float_of_int (Z.of_nat num_runs)) with (Ok 300%float).
  simpl bind. unfold Py.float_div. change (300 =? 0)%float with false. cbv iota.
  simpl bind. rewrite IH. reflexivity.
Qed.

(** ** Levels and realized demands *)

Lemma is_level_finite x : is_level x -> finite x.
Proof. intros [N B]. split; [exact N|]. pose proof INF_pos. lia. Qed.

Lemma is_level_zero : is_level int_zero.
Proof. split; [reflexivity|]. change (F2Z int_zero) with 0. pose proof INF_pos. lia. Qed.

Lemma draws_are_draws gauss c n : Forall is_draw (draws gauss c n).
Proof.
  unfold draws. apply Forall_forall. intros d H. apply in_map_iff in H.
  destruct H as (i & <- & _). apply max0_ord.
Qed.

Lemma level_step_spec iv d : finite iv -> is_draw d ->
  is_level (level_step iv d) /\ F2Z (level_step iv d) <= Z.max 0 (F2Z iv) /\
  (stockout iv d = true <-> level_step iv d = int_zero) .
Proof.
  intros [Ni Bi] [Nd Bd]. unfold level_step, stockout. cbv zeta.
  destruct (sub_ord iv d Ni Nd Bi Bd) as (Nr & Ur & _).
  rewrite (leb_ord _ _ Nr fnan_zero). rewrite F2Z_zero.
  pose proof INF_pos.
  destruct (Z.leb_spec (F2Z (iv - d)%float) 0) as [L|L].
  - split; [apply is_level_zero|]. split; [change (F2Z int_zero) with 0; lia|]. tauto.
  - split; [split; [exact Nr|lia]|]. split; [lia|].
    split; [discriminate|]. intros E. rewrite E in L. change (F2Z int_zero) with 0 in L. lia.
Qed.

Lemma level_step_level iv d : is_level iv -> is_draw d ->
  is_level (level_step iv d) /\ F2Z (level_step iv d) <= F2Z iv.
Proof.
  intros Li Dd. destruct (level_step_spec iv d (is_level_finite _ Li) Dd) as (L & U & _).
  split; [exact L|]. destruct Li as [_ B]. lia.
Qed.

(** Once at zero, always at zero, with a stockout every period. *)
Lemma level_step_zero d : is_draw d ->
  level_step int_zero d = int_zero /\ stockout int_zero d = true.
Proof.
  intros Dd.
  destruct (level_step_spec int_zero d (is_level_finite _ is_level_zero) Dd) as ([N B] & U & S).
  change (F2Z int_zero) with 0 in U.
  assert (St : stockout int_zero d = true).
  { unfold stockout. destruct Dd as [Nd Bd].
    destruct (sub_ord int_zero d eq_refl Nd ltac:(change (F2Z int_zero) with 0; pose proof INF_pos; lia) Bd)
      as (Nr & Ur & _).
    rewrite (leb_ord _ _ Nr fnan_zero). rewrite F2Z_zero. apply Z.leb_le.
    change (F2Z int_zero) with 0 in Ur. lia. }
  split; [apply S; exact St | exact St].
Qed.

(** Paths *)

Lemma path_from_levels iv ds : finite iv -> Forall is_draw ds ->
  Forall is_level (path_from iv ds).
Proof.
  intros Fi Hd. revert iv Fi. induction Hd as [|d ds Dd Hd IH]; intros iv Fi; simpl.
  - constructor.
  - destruct (level_step_spec iv d Fi Dd) as (L & _ & _).
    constructor; [exact L|]. apply IH. apply is_level_finite. exact L.
Qed.

Lemma path_from_chain iv ds : is_level iv -> Forall is_draw ds ->
  chain iv (path_from iv ds).
Proof.
  intros Li Hd. revert iv Li. induction Hd as [|d ds Dd Hd IH]; intros iv Li; simpl.
  - exact I.
  - destruct (level_step_level iv d Li Dd) as (L & U).
    split; [exact U|]. apply IH. exact L.
Qed.

Lemma path_from_first iv ds : finite iv -> Forall is_draw ds ->
  match path_from iv ds with
  | [] => True
  | x :: l => F2Z x <= Z.max 0 (F2Z iv) /\ chain x l
  end.
Proof.
  intros Fi Hd. destruct Hd as [|d ds Dd Hd]; simpl; [exact I|].
  destruct (level_step_spec iv d Fi Dd) as (L & U & _).
  split; [exact U|]. apply path_from_chain; assumption.
Qed.

Lemma chain_head x l j : chain x l -> (j < List.length l)%nat ->
  F2Z (nth j l 0%float) <= F2Z x.
Proof.
  revert x j. induction l as [|y l IH]; intros x j C H; simpl in H; [lia|].
  destruct C as [C1 C2]. destruct j as [|j]; simpl; [exact C1|].
  specialize (IH y j C2 ltac:(lia)). lia.
Qed.

Lemma chain_nth x l i j : chain x l -> (i <= j < List.length l)%nat ->
  F2Z (nth j l 0%float) <= F2Z (nth i l 0%float).
Proof.
  revert x i j. induction l as [|y l IH]; intros x i j C H; simpl in H; [lia|].
  destruct C as [C1 C2].
  destruct i as [|i], j as [|j]; simpl; try lia.
  - apply chain_head; [exact C2 | lia].
  - apply (IH y); [exact C2 | lia].
Qed.

(** ** The accumulators, period by period *)

Lemma nth_zip_with {A B C : Type} (f : A -> B -> C) xs ys i dx dy dz :
  (i < List.length xs)%nat -> List.length xs = List.length ys ->
  nth i (zip_with f xs ys) dz = f (nth i xs dx) (nth i ys dy).
Proof.
  revert ys i. induction xs as [|x xs IH]; intros [|y ys] i Hi Hl; simpl in *; try lia.
  destruct i as [|i]; [reflexivity|]. apply IH; lia.
Qed.

Lemma run_path_length gauss start r : List.length (run_path gauss start r) = horizon.
Proof. unfold run_path, run_draws. rewrite path_from_length, draws_length. reflexivity. Qed.

Lemma column_S gauss start t n :
  column gauss start t (S n) = column gauss start t n ++ [level gauss start n t].
Proof. unfold column. rewrite seq_S, map_app. reflexivity. Qed.

Section Columns.
Variable gauss : nat -> float.
Variable start : float.

Lemma sums_col t n : (t < horizon)%nat ->
  nth t (sum_levels (runs_pure gauss start n)) 0%float
  = fold_left PrimFloat.add (column gauss start t n) 0%float.
Proof.
  intros Ht. induction n as [|n IH].
  - simpl. unfold horizon in Ht.
    do 12 (destruct t as [|t]; [reflexivity|]). lia.
  - rewrite runs_pure_S. cbv zeta. simpl sum_levels.
    destruct (runs_pure_ok gauss start n) as (Ls & _ & _).
    rewrite (nth_zip_with _ _ _ _ 0%float 0%float) by (rewrite ?run_path_length; lia).
    rewrite IH, column_S, fold_left_app. reflexivity.
Qed.

Lemma mins_col t n : (t < horizon)%nat ->
  nth t (min_levels (runs_pure gauss start n)) 0%float
  = fold_left min_upd (column gauss start t n) infinity.
Proof.
  intros Ht. induction n as [|n IH].
  - simpl. unfold horizon in Ht.
    do 12 (destruct t as [|t]; [reflexivity|]). lia.
  - rewrite runs_pure_S. cbv zeta. simpl min_levels.
    destruct (runs_pure_ok gauss start n) as (_ & Lm & _).
    rewrite (nth_zip_with _ _ _ _ 0%float 0%float) by (rewrite ?run_path_length; lia).
    rewrite IH, column_S, fold_left_app. reflexivity.
Qed.

Lemma maxs_col t n : (t < horizon)%nat ->
  nth t (max_levels (runs_pure gauss start n)) 0%float
  = fold_left max_upd (column gauss start t n) neg_infinity.
Proof.
  intros Ht. induction n as [|n IH].
  - simpl. unfold horizon in Ht.
    do 12 (destruct t as [|t]; [reflexivity|]). lia.
  - rewrite runs_pure_S. cbv zeta. simpl max_levels.
    destruct (runs_pure_ok gauss start n) as (_ & _ & LM).
    rewrite (nth_zip_with _ _ _ _ 0%float 0%float) by (rewrite ?run_path_length; lia).
    rewrite IH, column_S, fold_left_app. reflexivity.
Qed.

Lemma events_sum n : stockout_events (runs_pure gauss start n) = sum_counts gauss start n.
Proof.
  induction n as [|n IH]; [reflexivity|].
  rewrite runs_pure_S. cbv zeta. simpl stockout_events. rewrite IH. reflexivity.
Qed.

Lemma paths_kept n :
  inventory_paths (runs_pure gauss start n)
  = map (run_path gauss start) (seq 0 (Nat.min n 20)).
Proof.
  induction n as [|n IH]; [reflexivity|].
  rewrite runs_pure_S. cbv zeta. simpl inventory_paths. rewrite IH.
  destruct (Nat.ltb_spec n 20) as [L|L].
  - replace (Nat.min n 20) with n by lia. replace (Nat.min (S n) 20) with (S n) by lia.
    rewrite seq_S, map_app. reflexivity.
  - replace (Nat.min n 20) with 20%nat by lia. replace (Nat.min (S n) 20) with 20%nat by lia.
    reflexivity.
Qed.

End Columns.

Lemma count_true_bounds bs : 0 <= count_true bs <= Z.of_nat (List.length bs).
Proof. induction bs as [|b bs IH]; simpl List.length; simpl count_true; [lia|]. destruct b; lia. Qed.

Lemma stockouts_from_length iv ds : List.length (stockouts_from iv ds) = List.length ds.
Proof. revert iv. induction ds as [|d ds IH]; intros iv; simpl; auto. Qed.

Lemma run_stockouts_length gauss start r :
  List.length (run_stockouts gauss start r) = horizon.
Proof. unfold run_stockouts, run_draws. rewrite stockouts_from_length, draws_length. reflexivity. Qed.

Lemma sum_counts_bounds gauss start n :
  0 <= sum_counts gauss start n <= Z.of_nat n * Z.of_nat horizon.
Proof.
  induction n as [|n IH]; [simpl; lia|].
  change (sum_counts gauss start (S n))
    with (sum_counts gauss start n + count_true (run_stockouts gauss start n)).
  pose proof (count_true_bounds (run_stockouts gauss start n)) as B.
  rewrite run_stockouts_length in B.
  change (Z.of_nat horizon) with 12 in *. lia.
Qed.

(** ** Minimum, maximum and sum of the levels of a period *)

Lemma min_upd_ord m x : fnan m = false -> fnan x = false ->
  fnan (min_upd m x) = false /\ F2Z (min_upd m x) = Z.min (F2Z m) (F2Z x).
Proof.
  intros Nm Nx. unfold min_upd. rewrite (ltb_ord _ _ Nx Nm).
  destruct (Z.ltb_spec (F2Z x) (F2Z m)); split; auto; lia.
Qed.

Lemma max_upd_ord m x : fnan m = false -> fnan x = false ->
  fnan (max_upd m x) = false /\ F2Z (max_upd m x) = Z.max (F2Z m) (F2Z x).
Proof.
  intros Nm Nx. unfold max_upd. rewrite (ltb_ord _ _ Nm Nx).
  destruct (Z.ltb_spec (F2Z m) (F2Z x)); split; auto; lia.
Qed.

Lemma fold_min_spec l : forall m, fnan m = false -> Forall is_level l ->
  fnan (fold_left min_upd l m) = false /\
  F2Z (fold_left min_upd l m) <= F2Z m /\
  (forall x, In x l -> F2Z (fold_left min_upd l m) <= F2Z x) /\
  (fold_left min_upd l m = m \/ In (fold_left min_upd l m) l).
Proof.
  induction l as [|x l IH]; intros m Nm Hl; simpl.
  - repeat split; auto; try lia; try (intros x []).
  - inversion Hl as [|? ? [Nx Bx] Hl']; subst.
    destruct (min_upd_ord m x Nm Nx) as [N1 O1].
    destruct (IH (min_upd m x) N1 Hl') as (N & U & A & At).
    split; [exact N|]. split; [lia|]. split.
    + intros y [<-|Hy]; [lia | apply A; exact Hy].
    + destruct At as [E|I]; [|right; right; exact I].
      rewrite E. unfold min_upd. destruct (PrimFloat.ltb x m); [right; left; reflexivity | left; reflexivity].
Qed.

Lemma fold_max_spec l : forall m, fnan m = false -> Forall is_level l ->
  fnan (fold_left max_upd l m) = false /\
  F2Z m <= F2Z (fold_left max_upd l m) /\
  (forall x, In x l -> F2Z x <= F2Z (fold_left max_upd l m)) /\
  (fold_left max_upd l m = m \/ In (fold_left max_upd l m) l).
Proof.
  induction l as [|x l IH]; intros m Nm Hl; simpl.
  - repeat split; auto; try lia; try (intros x []).
  - inversion Hl as [|? ? [Nx Bx] Hl']; subst.
    destruct (max_upd_ord m x Nm Nx) as [N1 O1].
    destruct (IH (max_upd m x) N1 Hl') as (N & U & A & At).
    split; [exact N|]. split; [lia|]. split.
    + intros y [<-|Hy]; [lia | apply A; exact Hy].
    + destruct At as [E|I]; [|right; right; exact I].
      rewrite E. unfold max_upd. destruct (PrimFloat.ltb m x); [right; left; reflexivity | left; reflexivity].
Qed.

Lemma fold_min_mono l2 l1 : below l2 l1 -> forall m2 m1,
  fnan m2 = false -> fnan m1 = false -> F2Z m2 <= F2Z m1 ->
  Forall is_level l2 -> Forall is_level l1 ->
  F2Z (fold_left min_upd l2 m2) <= F2Z (fold_left min_upd l1 m1).
Proof.
  induction 1 as [|y x l2 l1 Hyx Hl IH]; intros m2 m1 N2 N1 Hm F2 F1; simpl; [exact Hm|].
  inversion F2 as [|? ? [Ny By] F2']; inversion F1 as [|? ? [Nx Bx] F1']; subst.
  destruct (min_upd_ord m2 y N2 Ny) as [Na Oa]. destruct (min_upd_ord m1 x N1 Nx) as [Nb Ob].
  apply IH; auto. lia.
Qed.

Lemma fold_max_mono l2 l1 : below l2 l1 -> forall m2 m1,
  fnan m2 = false -> fnan m1 = false -> F2Z m2 <= F2Z m1 ->
  Forall is_level l2 -> Forall is_level l1 ->
  F2Z (fold_left max_upd l2 m2) <= F2Z (fold_left max_upd l1 m1).
Proof.
  induction 1 as [|y x l2 l1 Hyx Hl IH]; intros m2 m1 N2 N1 Hm F2 F1; simpl; [exact Hm|].
  inversion F2 as [|? ? [Ny By] F2']; inversion F1 as [|? ? [Nx Bx] F1']; subst.
  destruct (max_upd_ord m2 y N2 Ny) as [Na Oa]. destruct (max_upd_ord m1 x N1 Nx) as [Nb Ob].
  apply IH; auto. lia.
Qed.

Lemma add_units_mono u1 v1 u2 v2 : 0 <= u1 <= u2 -> 0 <= v1 <= v2 ->
  add_units u1 v1 <= add_units u2 v2.
Proof.
  intros Hu Hv. unfold add_units.
  pose proof (round_units_mono (u1 + v1) 1 (u2 + v2) 1 ltac:(lia) ltac:(lia) ltac:(lia) ltac:(lia) ltac:(lia)).
  lia.
Qed.

Lemma add_sum s x : is_sum s -> is_level x ->
  is_sum (s + x)%float /\ F2Z (s + x)%float = add_units (F2Z s) (F2Z x).
Proof.
  intros [Ns Bs] [Nx Bx]. destruct (add_ord s x Ns Nx Bs ltac:(lia)) as [N O].
  split; [|exact O]. split; [exact N|]. rewrite O. pose proof INF_pos.
  pose proof (round_units_nonneg (F2Z s + F2Z x) 1 ltac:(lia) ltac:(lia)). lia.
Qed.

Lemma fold_sum_spec l : forall s, is_sum s -> Forall is_level l ->
  is_sum (fold_left PrimFloat.add l s).
Proof.
  induction l as [|x l IH]; intros s Hs Hl; simpl; [exact Hs|].
  inversion Hl as [|? ? Hx Hl']; subst. apply IH; [|exact Hl'].
  apply add_sum; assumption.
Qed.

Lemma fold_sum_mono l2 l1 : below l2 l1 -> forall s2 s1,
  is_sum s2 -> is_sum s1 -> F2Z s2 <= F2Z s1 ->
  Forall is_level l2 -> Forall is_level l1 ->
  F2Z (fold_left PrimFloat.add l2 s2) <= F2Z (fold_left PrimFloat.add l1 s1).
Proof.
  induction 1 as [|y x l2 l1 Hyx Hl IH]; intros s2 s1 S2 S1 Hs F2 F1; simpl; [exact Hs|].
  inversion F2 as [|? ? Ly F2']; inversion F1 as [|? ? Lx F1']; subst.
  destruct (add_sum s2 y S2 Ly) as [Sa Oa]. destruct (add_sum s1 x S1 Lx) as [Sb Ob].
  apply IH; auto. rewrite Oa, Ob.
  destruct S2, S1, Ly as [_ ?], Lx as [_ ?]. apply add_units_mono; lia.
Qed.

Lemma div300_sum s : is_sum s ->
  is_sum (s / 300)%float /\ F2Z (s / 300)%float = div300_units (F2Z s).
Proof.
  intros [N B]. destruct (div300_ord s N B) as [N' O].
  split; [|exact O]. split; [exact N'|]. rewrite O. apply div300_units_nonneg. exact B.
Qed.

(** ** The response *)

Lemma prob_table : forallb prob_check (seq 0 3601) = true.
Proof. vm_compute. reflexivity. Qed.

Lemma prob_check_at k : 0 <= k <= 3600 -> prob_check (Z.to_nat k) = true.
Proof.
  intros H. pose proof prob_table as T. rewrite forallb_forall in T.
  apply T. apply in_seq. lia.
Qed.

Lemma Ok_inj {A : Type} (a b : A) : Ok a = Ok b -> a = b.
Proof. intros H. injection H. auto. Qed.

Lemma run_simulation_inv s gauss resp :
  run_simulation s gauss = Ok resp ->
  exists tc ed e ss rp fc start avg p r_tc r_ed r_sl r_e r_ss r_rp r_p,
    total_cost s = Ok tc /\ expected_delay s = Ok ed /\ eoq s = Ok e /\
    safety_stock s = Ok ss /\ reorder_point s ss = Ok rp /\
    forecast s = Ok fc /\ starting_inventory s ss = Ok start /\
    simulate gauss start = Ok (runs_pure gauss start num_runs) /\
    avg = map (fun x => (x / 300)%float) (sum_levels (runs_pure gauss start num_runs)) /\
    stockout_probability (stockout_events (runs_pure gauss start num_runs)) = Ok p /\
    Py.round tc 2 = Ok r_tc /\ Py.round ed 2 = Ok r_ed /\
    Py.round (service_level s) 3 = Ok r_sl /\ Py.round e 2 = Ok r_e /\
    Py.round ss 2 = Ok r_ss /\ Py.round rp 2 = Ok r_rp /\ Py.round p 3 = Ok r_p /\
    resp = [ ("total_cost", VFloat r_tc);
             ("expected_delay", VFloat r_ed);
             ("service_level", VFloat r_sl);
             ("eoq", VFloat r_e);
             ("safety_stock", VFloat r_ss);
             ("reorder_point", VFloat r_rp);
             ("forecast", VList fc);
             ("inventory_avg", VList avg);
             ("inventory_lower", VList (min_levels (runs_pure gauss start num_runs)));
             ("inventory_upper", VList (max_levels (runs_pure gauss start num_runs)));
             ("stockout_probability", VFloat r_p);
             ("risk_level", VStr (risk_level p)) ].
Proof.
  unfold run_simulation. intros H.
  destruct (total_cost s) as [tc|] eqn:E1; [|discriminate]. cbv beta iota delta [bind] in H.
  destruct (expected_delay s) as [ed|] eqn:E2; [|discriminate]. cbv beta iota delta [bind] in H.
  destruct (eoq s) as [e|] eqn:E3; [|discriminate]. cbv beta iota delta [bind] in H.
  destruct (safety_stock s) as [ss|] eqn:E4; [|discriminate]. cbv beta iota delta [bind] in H.
  destruct (reorder_point s ss) as [rp|] eqn:E5; [|discriminate]. cbv beta iota delta [bind] in H.
  destruct (forecast s) as [fc|] eqn:E6; [|discriminate]. cbv beta iota delta [bind] in H.
  destruct (starting_inventory s ss) as [start|] eqn:E7; [|discriminate]. cbv beta iota delta [bind] in H.
  rewrite simulate_pure in H. cbv beta iota delta [bind] in H.
  rewrite avg_levels_spec in H. cbv beta iota delta [bind] in H.
  destruct (stockout_probability _) as [p|] eqn:E8; [|discriminate]. cbv beta iota delta [bind] in H.
  destruct (Py.round tc 2) as [r_tc|] eqn:R1; [|discriminate]. cbv beta iota delta [bind] in H.
  destruct (Py.round ed 2) as [r_ed|] eqn:R2; [|discriminate]. cbv beta iota delta [bind] in H.
  destruct (Py.round (service_level s) 3) as [r_sl|] eqn:R3; [|discriminate]. cbv beta iota delta [bind] in H.
  destruct (Py.round e 2) as [r_e|] eqn:R4; [|discriminate]. cbv beta iota delta [bind] in H.
  destruct (Py.round ss 2) as [r_ss|] eqn:R5; [|discriminate]. cbv beta iota delta [bind] in H.
  destruct (Py.round rp 2) as [r_rp|] eqn:R6; [|discriminate]. cbv beta iota delta [bind] in H.
  destruct (Py.round p 3) as [r_p|] eqn:R7; [|discriminate]. cbv beta iota delta [bind] in H.
  apply Ok_inj in H. subst resp.
  exists tc, ed, e, ss, rp, fc, start,
    (map (fun x => (x / 300)%float) (sum_levels (runs_pure gauss start num_runs))),
    p, r_tc, r_ed, r_sl, r_e, r_ss, r_rp, r_p.
  repeat (split; [first [assumption | apply simulate_pure | reflexivity]|]).
  reflexivity.
Qed.

Lemma events_range gauss start :
  0 <= stockout_events (runs_pure gauss start num_runs) <= 3600.
Proof.
  rewrite events_sum. pose proof (sum_counts_bounds gauss start num_runs) as B.
  change (Z.of_nat num_runs * Z.of_nat horizon) with 3600 in B. exact B.
Qed.

(** C1, counterexample: for demand 100, lead time 4 and draws all equal to
    99.9 the run returns, the simulation has collected 20 paths, and the
    response has no field inventory_paths. *)
Lemma C1_counterexample :
  exists resp ss start st,
    run_simulation (ex_scenario 100 10) (gauss_const 99.9) = Ok resp /\
    safety_stock (ex_scenario 100 10) = Ok ss /\
    starting_inventory (ex_scenario 100 10) ss = Ok start /\
    simulate (gauss_const 99.9) start = Ok st /\
    List.length (inventory_paths st) = 20%nat /\
    ~ In "inventory_paths" (keys resp).
Proof.
  do 4 eexists. split; [vm_compute; reflexivity|].
  split; [vm_compute; reflexivity|]. split; [vm_compute; reflexivity|].
  split; [vm_compute; reflexivity|]. split; [vm_compute; reflexivity|].
  intros H. cbn in H. intuition discriminate.
Qed.

(** C1: the response has exactly the twelve keys of the return statement;
    the sampled paths are collected (the first 20 runs, 12 levels each) but
    are not part of the response. *)
Theorem C1_response_omits_inventory_paths s gauss resp :
  run_simulation s gauss = Ok resp ->
  keys resp = response_keys /\
  field resp "inventory_paths" = None /\
  exists ss start st,
    safety_stock s = Ok ss /\ starting_inventory s ss = Ok start /\
    simulate gauss start = Ok st /\
    inventory_paths st = map (run_path gauss start) (seq 0 20) /\
    Forall (fun p => List.length p = horizon) (inventory_paths st).
Proof.
  intros H. apply run_simulation_inv in H.
  destruct H as (tc & ed & e & ss & rp & fc & start & avg & p & r_tc & r_ed & r_sl
                 & r_e & r_ss & r_rp & r_p & H).
  destruct H as (_ & _ & _ & Hss & _ & _ & Hst & Hsim & _ & _ & _ & _ & _ & _ & _ & _ & _ & ->).
  split; [reflexivity|]. split; [reflexivity|].
  exists ss, start, (runs_pure gauss start num_runs).
  split; [exact Hss|]. split; [exact Hst|]. split; [exact Hsim|].
  rewrite paths_kept. change (Nat.min num_runs 20) with 20%nat.
  split; [reflexivity|].
  apply Forall_forall. intros p0 Hp. apply in_map_iff in Hp.
  destruct Hp as (r & <- & _). apply run_path_length.
Qed.

Lemma C1_witness :
  exists resp, run_simulation (ex_scenario 100 10) (gauss_const 99.9) = Ok resp /\
               keys resp = response_keys /\ field resp "inventory_paths" = None.
Proof.
  assert (E : exists resp, run_simulation (ex_scenario 100 10) (gauss_const 99.9) = Ok resp).
  { eexists. vm_compute. reflexivity. }
  destruct E as [resp E]. exists resp. split; [exact E|].
  pose proof (C1_response_omits_inventory_paths _ _ _ E) as (K & F & _).
  split; assumption.
Defined.

Lemma risk_level_cases p :
  (risk_level p = "low" <-> PrimFloat.ltb p 0.1 = true) /\
  (risk_level p = "medium" <-> PrimFloat.ltb p 0.1 = false /\ PrimFloat.ltb p 0.3 = true) /\
  (risk_level p = "high" <-> PrimFloat.ltb p 0.1 = false /\ PrimFloat.ltb p 0.3 = false).
Proof.
  unfold risk_level.
  destruct (PrimFloat.ltb p 0.1), (PrimFloat.ltb p 0.3);
    repeat split; intros; try discriminate; try reflexivity;
    try (destruct H; discriminate); auto.
Qed.

Lemma prob_facts k : 0 <= k <= 3600 ->
  exists p r fk,
    stockout_probability k = Ok p /\ Py.round p 3 = Ok r /\
    Py.float_of_int k = Ok fk /\ p = (fk / 3600)%float /\
    PrimFloat.leb 0 p = true /\ PrimFloat.leb p 1 = true /\
    PrimFloat.leb 0 r = true /\ PrimFloat.leb r 1 = true /\
    PrimFloat.ltb p 0.1 = (k <? 360)%Z /\ PrimFloat.ltb p 0.3 = (k <? 1080)%Z.
Proof.
  intros H. pose proof (prob_check_at k H) as C. unfold prob_check in C.
  rewrite Z2Nat.id in C by lia.
  destruct (stockout_probability k) as [p|] eqn:E1; [|discriminate].
  destruct (Py.round p 3) as [r|] eqn:E2; [|discriminate].
  destruct (Py.float_of_int k) as [fk|] eqn:E3; [|discriminate].
  apply andb_prop in C. destruct C as [C G7].
  apply andb_prop in C. destruct C as [C G6].
  apply andb_prop in C. destruct C as [C G5].
  apply andb_prop in C. destruct C as [C G4].
  apply andb_prop in C. destruct C as [C G3].
  apply andb_prop in C. destruct C as [G1 G2].
  exists p, r, fk.
  apply FloatAxioms.Leibniz.eqb_spec in G7. apply eqb_prop in G5. apply eqb_prop in G6.
  do 8 (split; [first [reflexivity | assumption]|]).
  split.
  - rewrite G5. destruct (Z.ltb_spec k 360), (Nat.ltb_spec (Z.to_nat k) 360); try reflexivity; lia.
  - rewrite G6. destruct (Z.ltb_spec k 1080), (Nat.ltb_spec (Z.to_nat k) 1080); try reflexivity; lia.
Qed.

(** C2, counterexample: with 359 stockout events out of 3600 the label is
    "low" although the returned probability is 0.1, which is not < 0.10. *)
Lemma C2_counterexample :
  exists resp r_p,
    run_simulation (ex_scenario 100 100) gauss_359 = Ok resp /\
    field resp "stockout_probability" = Some (VFloat r_p) /\
    field resp "risk_level" = Some (VStr "low") /\
    PrimFloat.ltb r_p 0.1 = false.
Proof.
  eexists. eexists. split; [vm_compute; reflexivity|].
  split; [reflexivity|]. split; reflexivity.
Qed.

(** C2: the label follows the thresholds applied to the unrounded
    probability events / 3600, that is to the number of stockout events:
    "low" below 360 events, "medium" below 1080, "high" from 1080 on; the
    response carries that probability rounded to 3 decimals. *)
Theorem C2_risk_level_of_unrounded_probability s gauss resp :
  run_simulation s gauss = Ok resp ->
  exists ss start p r_p,
    safety_stock s = Ok ss /\ starting_inventory s ss = Ok start /\
    let events := sum_counts gauss start num_runs in
    0 <= events <= 3600 /\
    stockout_probability events = Ok p /\
    Py.round p 3 = Ok r_p /\
    field resp "stockout_probability" = Some (VFloat r_p) /\
    field resp "risk_level" = Some (VStr (risk_level p)) /\
    (risk_level p = "low" <-> PrimFloat.ltb p 0.1 = true) /\
    (risk_level p = "medium" <->
       PrimFloat.ltb p 0.1 = false /\ PrimFloat.ltb p 0.3 = true) /\
    (risk_level p = "high" <->
       PrimFloat.ltb p 0.1 = false /\ PrimFloat.ltb p 0.3 = false) /\
    PrimFloat.ltb p 0.1 = (events <? 360)%Z /\
    PrimFloat.ltb p 0.3 = (events <? 1080)%Z.
Proof.
  intros H. apply run_simulation_inv in H.
  destruct H as (tc & ed & e & ss & rp & fc & start & avg & p & r_tc & r_ed & r_sl
                 & r_e & r_ss & r_rp & r_p & H).
  destruct H as (_ & _ & _ & Hss & _ & _ & Hst & _ & _ & Hp & _ & _ & _ & _ & _ & _ & Hr & ->).
  exists ss, start, p, r_p. split; [exact Hss|]. split; [exact Hst|]. cbv zeta.
  rewrite events_sum in Hp.
  pose proof (sum_counts_bounds gauss start num_runs) as B.
  change (Z.of_nat num_runs * Z.of_nat horizon) with 3600 in B.
  destruct (prob_facts _ B) as (p' & r' & fk & E1 & _ & _ & _ & _ & _ & _ & _ & L1 & L2).
  rewrite Hp in E1. apply Ok_inj in E1. subst p'.
  destruct (risk_level_cases p) as (R1 & R2 & R3).
  split; [exact B|]. split; [exact Hp|]. split; [exact Hr|].
  split; [reflexivity|]. split; [reflexivity|].
  split; [exact R1|]. split; [exact R2|]. split; [exact R3|].
  split; assumption.
Qed.

Lemma C2_witness :
  exists resp p,
    run_simulation (ex_scenario 100 100) gauss_359 = Ok resp /\
    field resp "risk_level" = Some (VStr (risk_level p)) /\
    PrimFloat.ltb p 0.1 = (sum_counts gauss_359 430 num_runs <? 360)%Z.
Proof.
  assert (E : exists resp, run_simulation (ex_scenario 100 100) gauss_359 = Ok resp).
  { eexists. vm_compute. reflexivity. }
  destruct E as (resp & E). exists resp.
  destruct (C2_risk_level_of_unrounded_probability _ _ _ E)
    as (ss & start & p & r_p & Hss & Hst & W).
  cbv zeta in W. destruct W as (_ & _ & _ & _ & F & _ & _ & _ & L & _).
  assert (Es : start = 430%float).
  { assert (S1 : safety_stock (ex_scenario 100 100) = Ok 330%float) by (vm_compute; reflexivity).
    rewrite S1 in Hss. apply Ok_inj in Hss. subst ss.
    assert (S2 : starting_inventory (ex_scenario 100 100) 330 = Ok 430%float) by (vm_compute; reflexivity).
    rewrite S2 in Hst. apply Ok_inj in Hst. auto. }
  subst start. exists p. split; [exact E|]. split; [exact F | exact L].
Defined.

(** C5: the stockout probability is the number of stockout events, summed
    over the 300 x 12 cells with at most one event per cell, divided by
    3600; it lies in [0, 1], and so does the rounded value of the response. *)
Theorem C5_stockout_probability s gauss resp :
  run_simulation s gauss = Ok resp ->
  exists ss start p r_p fk,
    safety_stock s = Ok ss /\ starting_inventory s ss = Ok start /\
    let events := sum_counts gauss start num_runs in
    (exists st, simulate gauss start = Ok st /\ stockout_events st = events) /\
    (forall run, sum_counts gauss start (S run)
       = sum_counts gauss start run + count_true (run_stockouts gauss start run)) /\
    (forall run, 0 <= count_true (run_stockouts gauss start run) <= Z.of_nat horizon) /\
    0 <= events <= Z.of_nat num_runs * Z.of_nat horizon /\
    stockout_probability events = Ok p /\
    Py.float_of_int events = Ok fk /\ p = (fk / 3600)%float /\
    PrimFloat.leb 0 p = true /\ PrimFloat.leb p 1 = true /\
    Py.round p 3 = Ok r_p /\
    field resp "stockout_probability" = Some (VFloat r_p) /\
    PrimFloat.leb 0 r_p = true /\ PrimFloat.leb r_p 1 = true.
Proof.
  intros H. apply run_simulation_inv in H.
  destruct H as (tc & ed & e & ss & rp & fc & start & avg & p & r_tc & r_ed & r_sl
                 & r_e & r_ss & r_rp & r_p & H).
  destruct H as (_ & _ & _ & Hss & _ & _ & Hst & Hsim & _ & Hp & _ & _ & _ & _ & _ & _ & Hr & ->).
  rewrite events_sum in Hp.
  pose proof (sum_counts_bounds gauss start num_runs) as B.
  assert (B' : 0 <= sum_counts gauss start num_runs <= 3600) by exact B.
  destruct (prob_facts _ B') as (p' & r' & fk & E1 & E2 & E3 & E4 & L1 & L2 & L3 & L4 & _).
  rewrite Hp in E1. apply Ok_inj in E1. subst p'.
  rewrite Hr in E2. apply Ok_inj in E2. subst r'.
  exists ss, start, p, r_p, fk. split; [exact Hss|]. split; [exact Hst|]. cbv zeta.
  split.
  { exists (runs_pure gauss start num_runs). split; [exact Hsim | apply events_sum]. }
  split; [intros run; reflexivity|].
  split.
  { intros run. pose proof (count_true_bounds (run_stockouts gauss start run)) as C.
    rewrite run_stockouts_length in C. exact C. }
  split; [exact B|]. split; [exact Hp|]. split; [exact E3|]. split; [exact E4|].
  split; [exact L1|]. split; [exact L2|]. split; [exact Hr|].
  split; [reflexivity|]. split; assumption.
Qed.

Lemma C5_witness :
  exists resp r_p,
    run_simulation (ex_scenario 100 10) (gauss_const 99.9) = Ok resp /\
    field resp "stockout_probability" = Some (VFloat r_p) /\
    PrimFloat.leb 0 r_p = true /\ PrimFloat.leb r_p 1 = true.
Proof.
  assert (E : exists resp, run_simulation (ex_scenario 100 10) (gauss_const 99.9) = Ok resp).
  { eexists. vm_compute. reflexivity. }
  destruct E as (resp & E). exists resp.
  destruct (C5_stockout_probability _ _ _ E)
    as (ss & start & p & r_p & fk & Hss & Hst & W).
  cbv zeta in W. destruct W as (_ & _ & _ & _ & _ & _ & _ & _ & _ & _ & F & L1 & L2).
  exists r_p. split; [exact E|]. split; [exact F|]. split; assumption.
Defined.

(** ** Trajectories *)

Lemma fle_ord x y : fnan x = false -> fnan y = false -> (fle x y <-> F2Z x <= F2Z y).
Proof.
  intros Nx Ny. unfold fle. rewrite (leb_ord _ _ Nx Ny). apply Z.leb_le.
Qed.

Lemma path_from_nth iv ds t : (t < List.length ds)%nat ->
  nth t (path_from iv ds) 0%float
  = level_step (match t with O => iv | S t' => nth t' (path_from iv ds) 0%float end)
               (nth t ds 0%float) /\
  nth t (stockouts_from iv ds) false
  = stockout (match t with O => iv | S t' => nth t' (path_from iv ds) 0%float end)
             (nth t ds 0%float).
Proof.
  revert iv t. induction ds as [|d ds IH]; intros iv t H; simpl in H; [lia|].
  destruct t as [|t]; [split; reflexivity|].
  simpl. destruct (IH (level_step iv d) t ltac:(lia)) as [E1 E2].
  rewrite E1, E2. destruct t; split; reflexivity.
Qed.

Lemma nth_map_seq {A : Type} (f : nat -> A) n t d : (t < n)%nat ->
  nth t (map f (seq 0 n)) d = f t.
Proof.
  intros H. rewrite (nth_indep _ d (f O)) by (rewrite length_map, length_seq; exact H).
  rewrite (map_nth f (seq 0 n) O t). rewrite seq_nth by exact H. reflexivity.
Qed.

Lemma run_draws_nth gauss run t : (t < horizon)%nat ->
  nth t (run_draws gauss run) 0%float = demand_real gauss run t.
Proof.
  intros H. unfold run_draws, draws, demand_real.
  apply (nth_map_seq (fun i => Py.max 0%float (gauss (run * horizon + i)%nat))). exact H.
Qed.

Lemma run_draws_length gauss run : List.length (run_draws gauss run) = horizon.
Proof. apply draws_length. Qed.

(** Each cell of the simulation, as lines 89-97 compute it. *)
Lemma cell_rule gauss start run t : (t < horizon)%nat ->
  level gauss start run t
  = level_step (before gauss start run t) (demand_real gauss run t) /\
  nth t (run_stockouts gauss start run) false
  = stockout (before gauss start run t) (demand_real gauss run t).
Proof.
  intros H. unfold level, run_path, run_stockouts, before.
  destruct (path_from_nth start (run_draws gauss run) t ltac:(rewrite run_draws_length; exact H))
    as [E1 E2].
  rewrite E1, E2, run_draws_nth by exact H. split; reflexivity.
Qed.

Lemma Forall_nth_level l t : Forall is_level l -> (t < List.length l)%nat ->
  is_level (nth t l 0%float).
Proof.
  intros F H. rewrite Forall_forall in F. apply F. apply nth_In. exact H.
Qed.

Lemma run_path_levels gauss start run : finite start ->
  Forall is_level (run_path gauss start run).
Proof. intros F. apply path_from_levels; [exact F | apply draws_are_draws]. Qed.

Lemma level_is_level gauss start run t : finite start -> (t < horizon)%nat ->
  is_level (level gauss start run t).
Proof.
  intros F H. apply Forall_nth_level; [apply run_path_levels; exact F|].
  rewrite run_path_length. exact H.
Qed.

Lemma column_levels gauss start t n : finite start -> (t < horizon)%nat ->
  Forall is_level (column gauss start t n).
Proof.
  intros F H. unfold column. apply Forall_forall. intros x Hx.
  apply in_map_iff in Hx. destruct Hx as (r & <- & _). apply level_is_level; assumption.
Qed.

Lemma column_in gauss start t n run : (run < n)%nat ->
  In (level gauss start run t) (column gauss start t n).
Proof.
  intros H. unfold column. apply in_map_iff. exists run. split; [reflexivity|].
  apply in_seq. lia.
Qed.

Lemma level_chain gauss start run i j : finite start -> (i <= j < horizon)%nat ->
  F2Z (level gauss start run j) <= F2Z (level gauss start run i).
Proof.
  intros F H. unfold level.
  pose proof (path_from_first start (run_draws gauss run) F (draws_are_draws _ _ _)) as P.
  fold (run_path gauss start run) in P.
  pose proof (run_path_length gauss start run) as L.
  destruct (run_path gauss start run) as [|x l] eqn:E; [simpl in L; unfold horizon in *; lia|].
  destruct P as [_ C].
  destruct i as [|i], j as [|j]; simpl; try lia.
  - apply chain_head; [exact C | simpl in L; lia].
  - apply (chain_nth x); [exact C | simpl in L; lia].
Qed.

Lemma level_first gauss start run : finite start ->
  F2Z (level gauss start run 0) <= Z.max 0 (F2Z start).
Proof.
  intros F. unfold level.
  pose proof (path_from_first start (run_draws gauss run) F (draws_are_draws _ _ _)) as P.
  fold (run_path gauss start run) in P.
  pose proof (run_path_length gauss start run) as L.
  destruct (run_path gauss start run) as [|x l] eqn:E; [simpl in L; unfold horizon in *; lia|].
  destruct P as [P _]. exact P.
Qed.

Lemma column_below gauss start i j n : finite start -> (i <= j < horizon)%nat ->
  below (column gauss start j n) (column gauss start i n).
Proof.
  intros F H. unfold below, column.
  induction (seq 0 n) as [|r l IH]; simpl; constructor; [|exact IH].
  apply level_chain; assumption.
Qed.

(** Zero is absorbing. *)
Lemma zero_absorbing ds : Forall is_draw ds ->
  Forall (fun x => x = int_zero) (path_from int_zero ds) /\
  Forall (fun b => b = true) (stockouts_from int_zero ds) /\
  count_true (stockouts_from int_zero ds) = Z.of_nat (List.length ds).
Proof.
  induction 1 as [|d ds Dd Hd IH]; [repeat split; constructor|].
  destruct (level_step_zero d Dd) as [E1 E2].
  cbn [path_from stockouts_from count_true List.length]. rewrite E1, E2.
  destruct IH as (I1 & I2 & I3).
  split; [constructor; [reflexivity | exact I1]|].
  split; [constructor; [reflexivity | exact I2]|]. rewrite I3. lia.
Qed.

Lemma stockout_level iv d : stockout iv d = true -> level_step iv d = int_zero.
Proof. unfold stockout, level_step. cbv zeta. intros ->. reflexivity. Qed.

Lemma first_stockout ds : Forall is_draw ds -> forall iv t, (t < List.length ds)%nat ->
  (forall i, (i < t)%nat -> nth i (stockouts_from iv ds) false = false) ->
  nth t (stockouts_from iv ds) false = true ->
  count_true (stockouts_from iv ds) = Z.of_nat (List.length ds - t) /\
  forall i, (t <= i < List.length ds)%nat ->
    nth i (stockouts_from iv ds) false = true /\
    nth i (path_from iv ds) 0%float = int_zero.
Proof.
  induction 1 as [|d ds Dd Hd IH]; intros iv t Ht Hbefore Hat; [simpl in Ht; lia|].
  destruct t as [|t].
  - simpl in Hat. pose proof (stockout_level iv d Hat) as E.
    cbn [path_from stockouts_from count_true List.length]. rewrite E, Hat.
    destruct (zero_absorbing ds Hd) as (Z1 & Z2 & Z3).
    split; [rewrite Z3; lia|].
    intros i Hi. destruct i as [|i]; [split; reflexivity|].
    simpl. simpl in Hi. rewrite Forall_forall in Z1, Z2. split.
    + apply Z2. apply nth_In. rewrite stockouts_from_length. lia.
    + apply Z1. apply nth_In. rewrite path_from_length. lia.
  - pose proof (Hbefore O ltac:(lia)) as H0. simpl in H0.
    cbn [path_from stockouts_from count_true List.length]. rewrite H0.
    simpl in Ht.
    destruct (IH (level_step iv d) t ltac:(lia)) as [C A].
    + intros i Hi. apply (Hbefore (S i)). lia.
    + exact Hat.
    + split; [rewrite C; replace (S (List.length ds) - S t)%nat with (List.length ds - t)%nat by lia; lia|].
      intros i Hi. destruct i as [|i]; [lia|]. simpl. apply A. lia.
Qed.

Lemma level_zero_stays gauss start run i j : (i <= j < horizon)%nat ->
  level gauss start run i = int_zero -> level gauss start run j = int_zero.
Proof.
  intros H E. induction j as [|j IH].
  - assert (i = O) by lia. subst i. exact E.
  - destruct (Nat.eq_dec i (S j)) as [->|N]; [exact E|].
    specialize (IH ltac:(lia)).
    destruct (cell_rule gauss start run (S j) ltac:(lia)) as [C _].
    rewrite C. unfold before. rewrite IH.
    apply level_step_zero. apply max0_ord.
Qed.

(** ** The bands *)

Lemma fnonneg_ord x : fnonneg x = true -> 0 <= F2Z x.
Proof.
  unfold fnonneg, F2Z. pose proof INF_pos. pose proof (Prim2SF_valid x) as V.
  destruct (Prim2SF x) as [s|s| |s m e]; unfold sf_nonneg, ord; cbv zeta; intros Hs; try lia.
  - destruct s; [discriminate|lia].
  - destruct s; [discriminate|]. unfold valid_binary in V.
    pose proof (finite_ord_bounds _ _ V). lia.
Qed.

Lemma ord_fnonneg x : 0 <= F2Z x -> fnonneg x = true.
Proof.
  unfold fnonneg, F2Z. pose proof INF_pos. pose proof (Prim2SF_valid x) as V.
  destruct (Prim2SF x) as [s|s| |s m e]; unfold sf_nonneg, ord; cbv zeta; intros Hs; try reflexivity.
  - destruct s; [lia|reflexivity].
  - destruct s; [|reflexivity]. unfold valid_binary in V.
    pose proof (finite_ord_bounds _ _ V). lia.
Qed.

Lemma add_nan_r x y : fnan y = true -> fnan (x + y)%float = true.
Proof.
  unfold fnan. rewrite add_spec. intros H. apply fnan_inv in H. rewrite H.
  unfold SF64add, SFadd. destruct (Prim2SF x); reflexivity.
Qed.

Lemma float_of_int_inv z f : Py.float_of_int z = Ok f ->
  fnan f = false /\ - INF < F2Z f < INF /\ (0 <= z -> 0 <= F2Z f).
Proof.
  intros H. destruct (Z_le_gt_dec (Z.abs z) max_int_float) as [L|G].
  - destruct (float_of_int_ok z L) as (f' & E & N & O & B).
    rewrite E in H. apply Ok_inj in H. subst f'.
    split; [exact N|]. split; [exact B|]. intros Hz. rewrite O.
    replace (z <? 0) with false by (symmetry; apply Z.ltb_ge; lia).
    unfold sgn. apply round_units_nonneg; [|lia].
    apply Z.mul_nonneg_nonneg; [lia|]. pose proof (pow2_gt0 1074 ltac:(lia)). lia.
  - rewrite float_of_int_overflow in H by lia. discriminate.
Qed.

Lemma z_map_pos tr : fpos (dict_get PrimFloat.eqb z_map tr 1.65%float) = true.
Proof.
  unfold z_map. cbn [dict_get].
  destruct (PrimFloat.eqb 0.9 tr); [reflexivity|].
  destruct (PrimFloat.eqb 0.95 tr); [reflexivity|].
  destruct (PrimFloat.eqb 0.97 tr); [reflexivity|].
  destruct (PrimFloat.eqb 0.99 tr); reflexivity.
Qed.

Lemma math_sqrt_inv x r : Py.math_sqrt x = Ok r -> r = PrimFloat.sqrt x.
Proof.
  unfold Py.math_sqrt. destruct (PrimFloat.ltb x 0); [discriminate|].
  intros H. apply Ok_inj in H. auto.
Qed.

Lemma safety_stock_nonneg s ss :
  fle 0 (demand_std s) -> safety_stock s = Ok ss -> fnonneg ss = true.
Proof.
  intros Hstd H. unfold safety_stock, z_score in H.
  destruct (Py.round (service_target s) 2) as [tr|]; [|discriminate].
  cbv beta iota delta [bind] in H.
  destruct (Py.float_of_int (Z.max (lead_time s) 1)) as [l|] eqn:El; [|discriminate].
  cbv beta iota delta [bind] in H.
  destruct (Py.math_sqrt l) as [r|] eqn:Er; [|discriminate].
  cbv beta iota delta [bind] in H. apply Ok_inj in H. subst ss.
  apply math_sqrt_inv in Er. subst r.
  destruct (float_of_int_inv _ _ El) as (_ & _ & Pl).
  apply mul_nonneg; [apply mul_nonneg|].
  - apply fpos_fnonneg, z_map_pos.
  - apply leb0_fnonneg. exact Hstd.
  - apply sqrt_nonneg. apply ord_fnonneg. apply Pl. lia.
Qed.

Lemma starting_nonneg s ss start :
  0 <= demand s -> fle 0 (demand_std s) ->
  safety_stock s = Ok ss -> starting_inventory s ss = Ok start ->
  fnan start = false -> 0 <= F2Z start.
Proof.
  intros Hd Hstd Hss Hst N.
  pose proof (safety_stock_nonneg s ss Hstd Hss) as Pss.
  unfold starting_inventory in Hst.
  destruct (Py.float_of_int (demand s)) as [d|] eqn:Ed; [|discriminate].
  cbv beta iota delta [bind] in Hst. apply Ok_inj in Hst. subst start.
  destruct (float_of_int_inv _ _ Ed) as (Nd & _ & Pd). specialize (Pd Hd).
  destruct (fnan ss) eqn:Nss. { rewrite add_nan_r in N by exact Nss. discriminate. }
  destruct (add_ord d ss Nd Nss Pd (fnonneg_ord _ Pss)) as [_ O].
  rewrite O. pose proof INF_pos.
  pose proof (round_units_nonneg (F2Z d + F2Z ss) 1 ltac:(pose proof (fnonneg_ord _ Pss); lia) ltac:(lia)).
  lia.
Qed.

Lemma nth_avg sums t : (t < List.length sums)%nat ->
  nth t (map (fun x => (x / 300)%float) sums) 0%float = (nth t sums 0%float / 300)%float.
Proof.
  intros H.
  rewrite (nth_indep _ 0%float ((fun x => (x / 300)%float) 0%float))
    by (rewrite length_map; exact H).
  apply (map_nth (fun x => (x / 300)%float)).
Qed.

Section Bands.
Variable gauss : nat -> float.
Variable start : float.
Hypothesis Hfin : finite start.

Lemma band_values t : (t < horizon)%nat ->
  nth t (min_levels (runs_pure gauss start num_runs)) 0%float
    = fold_left min_upd (column gauss start t num_runs) infinity /\
  nth t (max_levels (runs_pure gauss start num_runs)) 0%float
    = fold_left max_upd (column gauss start t num_runs) neg_infinity /\
  nth t (map (fun x => (x / 300)%float) (sum_levels (runs_pure gauss start num_runs))) 0%float
    = (fold_left PrimFloat.add (column gauss start t num_runs) 0 / 300)%float.
Proof.
  intros H.
  split; [apply mins_col; exact H|]. split; [apply maxs_col; exact H|].
  rewrite nth_avg by (destruct (runs_pure_ok gauss start num_runs) as (L & _); rewrite L; exact H).
  rewrite sums_col by exact H. reflexivity.
Qed.

Lemma column_nonempty t : column gauss start t num_runs <> [].
Proof. unfold column, num_runs. simpl seq. discriminate. Qed.

Lemma lower_spec t : (t < horizon)%nat ->
  let lo := nth t (min_levels (runs_pure gauss start num_runs)) 0%float in
  is_level lo /\ In lo (column gauss start t num_runs) /\
  forall run, (run < num_runs)%nat -> F2Z lo <= F2Z (level gauss start run t).
Proof.
  intros H lo. destruct (band_values t H) as (E & _ & _). fold lo in E.
  pose proof (column_levels gauss start t num_runs Hfin H) as CL.
  destruct (fold_min_spec _ infinity eq_refl CL) as (N & U & A & At).
  rewrite <- E in N, U, A, At.
  assert (Hin : In lo (column gauss start t num_runs)).
  { destruct At as [Ei|I]; [|exact I]. exfalso.
    pose proof (column_in gauss start t num_runs O ltac:(unfold num_runs; lia)) as I0.
    pose proof (A _ I0) as A0. rewrite Ei in A0. rewrite F2Z_infinity in A0.
    destruct (level_is_level gauss start O t Hfin H) as [_ B]. lia. }
  split; [rewrite Forall_forall in CL; apply CL; exact Hin|].
  split; [exact Hin|]. intros run Hr. apply A. apply column_in. exact Hr.
Qed.

Lemma upper_spec t : (t < horizon)%nat ->
  let up := nth t (max_levels (runs_pure gauss start num_runs)) 0%float in
  is_level up /\ In up (column gauss start t num_runs) /\
  forall run, (run < num_runs)%nat -> F2Z (level gauss start run t) <= F2Z up.
Proof.
  intros H up. destruct (band_values t H) as (_ & E & _). fold up in E.
  pose proof (column_levels gauss start t num_runs Hfin H) as CL.
  destruct (fold_max_spec _ neg_infinity eq_refl CL) as (N & U & A & At).
  rewrite <- E in N, U, A, At.
  assert (Hin : In up (column gauss start t num_runs)).
  { destruct At as [Ei|I]; [|exact I]. exfalso.
    pose proof (column_in gauss start t num_runs O ltac:(unfold num_runs; lia)) as I0.
    pose proof (A _ I0) as A0. rewrite Ei in A0. rewrite F2Z_neg_infinity in A0.
    destruct (level_is_level gauss start O t Hfin H) as [_ B]. pose proof INF_pos. lia. }
  split; [rewrite Forall_forall in CL; apply CL; exact Hin|].
  split; [exact Hin|]. intros run Hr. apply A. apply column_in. exact Hr.
Qed.

Lemma avg_spec t : (t < horizon)%nat -> is_sum (nth t (map (fun x => (x / 300)%float) (sum_levels (runs_pure gauss start num_runs))) 0%float).
Proof.
  intros H. destruct (band_values t H) as (_ & _ & E). rewrite E.
  apply div300_sum. apply fold_sum_spec; [split; [reflexivity | rewrite F2Z_zero; lia]|].
  apply column_levels; assumption.
Qed.

Lemma bands_mono i j : (i <= j < horizon)%nat ->
  F2Z (nth j (min_levels (runs_pure gauss start num_runs)) 0%float) <= F2Z (nth i (min_levels (runs_pure gauss start num_runs)) 0%float) /\
  F2Z (nth j (max_levels (runs_pure gauss start num_runs)) 0%float) <= F2Z (nth i (max_levels (runs_pure gauss start num_runs)) 0%float) /\
  F2Z (nth j (map (fun x => (x / 300)%float) (sum_levels (runs_pure gauss start num_runs))) 0%float) <= F2Z (nth i (map (fun x => (x / 300)%float) (sum_levels (runs_pure gauss start num_runs))) 0%float).
Proof.
  intros H.
  destruct (band_values i ltac:(lia)) as (Ei1 & Ei2 & Ei3).
  destruct (band_values j ltac:(lia)) as (Ej1 & Ej2 & Ej3).
  pose proof (column_levels gauss start i num_runs Hfin ltac:(lia)) as Ci.
  pose proof (column_levels gauss start j num_runs Hfin ltac:(lia)) as Cj.
  pose proof (column_below gauss start i j num_runs Hfin H) as Bl.
  rewrite Ei1, Ei2, Ei3, Ej1, Ej2, Ej3.
  split; [apply fold_min_mono; auto; lia|].
  split; [apply fold_max_mono; auto; lia|].
  assert (Z0 : is_sum 0%float) by (split; [reflexivity | rewrite F2Z_zero; lia]).
  pose proof (fold_sum_spec _ 0%float Z0 Ci) as Si.
  pose proof (fold_sum_spec _ 0%float Z0 Cj) as Sj.
  destruct (div300_sum _ Si) as [_ Oi]. destruct (div300_sum _ Sj) as [_ Oj].
  rewrite Oi, Oj. apply div300_units_mono.
  - split; [destruct Sj; assumption|]. apply fold_sum_mono; auto. lia.
  - apply F2Z_range.
Qed.

End Bands.

Lemma run_fields s gauss resp :
  run_simulation s gauss = Ok resp ->
  exists ss start,
    safety_stock s = Ok ss /\ starting_inventory s ss = Ok start /\
    simulate gauss start = Ok (runs_pure gauss start num_runs) /\
    field resp "inventory_avg"
      = Some (VList (map (fun x => (x / 300)%float)
                         (sum_levels (runs_pure gauss start num_runs)))) /\
    field resp "inventory_lower"
      = Some (VList (min_levels (runs_pure gauss start num_runs))) /\
    field resp "inventory_upper"
      = Some (VList (max_levels (runs_pure gauss start num_runs))).
Proof.
  intros H. apply run_simulation_inv in H.
  destruct H as (tc & ed & e & ss & rp & fc & start & avg & p & r_tc & r_ed & r_sl
                 & r_e & r_ss & r_rp & r_p & H).
  destruct H as (_ & _ & _ & Hss & _ & _ & Hst & Hsim & -> & _ & _ & _ & _ & _ & _ & _ & _ & ->).
  exists ss, start. repeat (split; [first [assumption | reflexivity]|]). reflexivity.
Qed.

Lemma fle_of_ord x y : fnan x = false -> fnan y = false -> F2Z x <= F2Z y -> fle x y.
Proof. intros Nx Ny H. apply fle_ord; assumption. Qed.

(** C3, counterexample: when every run has the level 33.099999999999994
    in the first period, the computed mean 33.100000000000186 is above the
    maximum. *)
Lemma C3_counterexample :
  exists resp avg upper,
    run_simulation (ex_scenario 100 10) (gauss_const 99.9) = Ok resp /\
    field resp "inventory_avg" = Some (VList avg) /\
    field resp "inventory_upper" = Some (VList upper) /\
    PrimFloat.leb (nth 0 avg 0%float) (nth 0 upper 0%float) = false.
Proof.
  eexists. eexists. eexists. split; [vm_compute; reflexivity|].
  split; [reflexivity|]. split; reflexivity.
Qed.

(** C3: when the starting inventory is finite, for every period
    the lower band is the minimum and the upper band the maximum of the 300
    runs' levels (each is one of these levels and bounds them all), so
    lower <= upper; the average is the binary64 sum of the levels, added in
    the order of the runs, divided by 300. *)
Theorem C3_bands s gauss resp ss start :
  run_simulation s gauss = Ok resp ->
  safety_stock s = Ok ss -> starting_inventory s ss = Ok start ->
  finite start ->
  exists avg lower upper,
    field resp "inventory_avg" = Some (VList avg) /\
    field resp "inventory_lower" = Some (VList lower) /\
    field resp "inventory_upper" = Some (VList upper) /\
    forall t, (t < horizon)%nat ->
      let col := column gauss start t num_runs in
      nth t lower 0%float = fold_left min_upd col infinity /\
      nth t upper 0%float = fold_left max_upd col neg_infinity /\
      nth t avg 0%float = (fold_left PrimFloat.add col 0 / 300)%float /\
      In (nth t lower 0%float) col /\ In (nth t upper 0%float) col /\
      (forall run, (run < num_runs)%nat ->
         fle (nth t lower 0%float) (level gauss start run t) /\
         fle (level gauss start run t) (nth t upper 0%float)) /\
      fle (nth t lower 0%float) (nth t upper 0%float).
Proof.
  intros H Hss Hst Hfin.
  destruct (run_fields _ _ _ H) as (ss' & start' & Hss' & Hst' & _ & F1 & F2 & F3).
  rewrite Hss in Hss'. apply Ok_inj in Hss'. subst ss'.
  rewrite Hst in Hst'. apply Ok_inj in Hst'. subst start'.
  eexists. eexists. eexists. split; [exact F1|]. split; [exact F2|]. split; [exact F3|].
  intros t Ht col.
  destruct (band_values gauss start t Ht) as (E1 & E2 & E3).
  destruct (lower_spec gauss start Hfin t Ht) as ([Nl Bl] & Il & Al).
  destruct (upper_spec gauss start Hfin t Ht) as ([Nu Bu] & Iu & Au).
  split; [exact E1|]. split; [exact E2|]. split; [exact E3|].
  split; [exact Il|]. split; [exact Iu|]. split.
  - intros run Hr. destruct (level_is_level gauss start run t Hfin Ht) as [Nr Br].
    split; apply fle_of_ord; auto.
  - apply fle_of_ord; auto.
    pose proof (Al O ltac:(unfold num_runs; lia)). pose proof (Au O ltac:(unfold num_runs; lia)). lia.
Qed.

Lemma finite_133 : finite 133%float.
Proof. split; [reflexivity|]. split; vm_compute; reflexivity. Qed.

Lemma C3_witness :
  exists resp lower upper,
    run_simulation (ex_scenario 100 10) (gauss_const 99.9) = Ok resp /\
    field resp "inventory_lower" = Some (VList lower) /\
    field resp "inventory_upper" = Some (VList upper) /\
    fle (nth 0 lower 0%float) (nth 0 upper 0%float).
Proof.
  assert (E : exists resp, run_simulation (ex_scenario 100 10) (gauss_const 99.9) = Ok resp).
  { eexists. vm_compute. reflexivity. }
  destruct E as (resp & E). exists resp.
  assert (S1 : safety_stock (ex_scenario 100 10) = Ok 33%float) by (vm_compute; reflexivity).
  assert (S2 : starting_inventory (ex_scenario 100 10) 33 = Ok 133%float) by (vm_compute; reflexivity).
  destruct (C3_bands _ _ _ _ _ E S1 S2 finite_133) as (avg & lower & upper & F1 & F2 & F3 & W).
  exists lower, upper. split; [exact E|]. split; [exact F2|]. split; [exact F3|].
  apply (W O). unfold horizon. lia.
Defined.

Lemma in_ranges_ex std : fle 0 std -> in_ranges (ex_scenario 100 std).
Proof.
  intros H. unfold in_ranges. cbn [demand lead_time cost ordering_cost holding_cost demand_std ex_scenario].
  split; [lia|]. split; [lia|]. split; [reflexivity|]. split; [reflexivity|].
  split; [reflexivity | exact H].
Qed.

(** C4, counterexample: with [demand_std = 1e308] (inside the documented
    range) the safety stock overflows to +inf, a draw two standard deviations
    above the mean is +inf as well, and the recorded level inf - inf is NaN,
    which is not >= 0; the upper band stays at -inf. *)
Lemma C4_counterexample :
  in_ranges (ex_scenario 100 1e308) /\
  exists resp avg upper ss start,
    run_simulation (ex_scenario 100 1e308) gauss_overflow = Ok resp /\
    safety_stock (ex_scenario 100 1e308) = Ok ss /\
    starting_inventory (ex_scenario 100 1e308) ss = Ok start /\
    PrimFloat.leb 0 (level gauss_overflow start 0 0) = false /\
    field resp "inventory_avg" = Some (VList avg) /\
    field resp "inventory_upper" = Some (VList upper) /\
    PrimFloat.leb 0 (nth 0 avg 0%float) = false /\
    PrimFloat.leb 0 (nth 0 upper 0%float) = false.
Proof.
  split; [apply in_ranges_ex; reflexivity|].
  eexists. eexists. eexists. eexists. eexists.
  split; [vm_compute; reflexivity|].
  split; [vm_compute; reflexivity|].
  split; [vm_compute; reflexivity|].
  split; [vm_compute; reflexivity|].
  split; [reflexivity|]. split; [reflexivity|]. split; reflexivity.
Qed.

(** C4: when the starting inventory demand + safety_stock is
    finite, every recorded level is finite and >= 0, it is exactly 0 in
    every period with a stockout, and every element of the average, of the
    bands and of the kept paths is >= 0. *)
Theorem C4_levels_nonneg s gauss resp ss start :
  run_simulation s gauss = Ok resp ->
  safety_stock s = Ok ss -> starting_inventory s ss = Ok start ->
  finite start ->
  (forall run t, (t < horizon)%nat ->
     let post := (before gauss start run t - demand_real gauss run t)%float in
     level gauss start run t = (if PrimFloat.leb post 0 then int_zero else post) /\
     fle 0 (level gauss start run t) /\ finite (level gauss start run t)) /\
  (exists st, simulate gauss start = Ok st /\
              Forall (Forall (fle 0)) (inventory_paths st)) /\
  exists avg lower upper,
    field resp "inventory_avg" = Some (VList avg) /\
    field resp "inventory_lower" = Some (VList lower) /\
    field resp "inventory_upper" = Some (VList upper) /\
    forall t, (t < horizon)%nat ->
      fle 0 (nth t avg 0%float) /\ fle 0 (nth t lower 0%float) /\
      fle 0 (nth t upper 0%float).
Proof.
  intros H Hss Hst Hfin.
  destruct (run_fields _ _ _ H) as (ss' & start' & Hss' & Hst' & Hsim & F1 & F2 & F3).
  rewrite Hss in Hss'. apply Ok_inj in Hss'. subst ss'.
  rewrite Hst in Hst'. apply Ok_inj in Hst'. subst start'.
  assert (L0 : forall x, is_level x -> fle 0 x).
  { intros x [N B]. apply fle_of_ord; [reflexivity | exact N | rewrite F2Z_zero; lia]. }
  split; [|split].
  - intros run t Ht post.
    destruct (cell_rule gauss start run t Ht) as [C _].
    pose proof (level_is_level gauss start run t Hfin Ht) as L.
    split; [exact C|]. split; [apply L0; exact L | apply is_level_finite; exact L].
  - exists (runs_pure gauss start num_runs). split; [exact Hsim|].
    rewrite paths_kept. apply Forall_forall. intros p Hp.
    apply in_map_iff in Hp. destruct Hp as (r & <- & _).
    pose proof (run_path_levels gauss start r Hfin) as PL.
    apply Forall_forall. intros x Hx. rewrite Forall_forall in PL. apply L0, PL, Hx.
  - eexists. eexists. eexists. split; [exact F1|]. split; [exact F2|]. split; [exact F3|].
    intros t Ht.
    destruct (lower_spec gauss start Hfin t Ht) as (Ll & _ & _).
    destruct (upper_spec gauss start Hfin t Ht) as (Lu & _ & _).
    destruct (avg_spec gauss start Hfin t Ht) as [Na Ba].
    split; [apply fle_of_ord; [reflexivity | exact Na | rewrite F2Z_zero; exact Ba]|].
    split; apply L0; assumption.
Qed.

Lemma C4_witness :
  exists resp lower,
    run_simulation (ex_scenario 100 10) (gauss_const 99.9) = Ok resp /\
    field resp "inventory_lower" = Some (VList lower) /\
    fle 0 (nth 0 lower 0%float) /\
    fle 0 (level (gauss_const 99.9) 133 7 3).
Proof.
  assert (E : exists resp, run_simulation (ex_scenario 100 10) (gauss_const 99.9) = Ok resp).
  { eexists. vm_compute. reflexivity. }
  destruct E as (resp & E). exists resp.
  assert (S1 : safety_stock (ex_scenario 100 10) = Ok 33%float) by (vm_compute; reflexivity).
  assert (S2 : starting_inventory (ex_scenario 100 10) 33 = Ok 133%float) by (vm_compute; reflexivity).
  destruct (C4_levels_nonneg _ _ _ _ _ E S1 S2 finite_133)
    as (W1 & _ & avg & lower & upper & F1 & F2 & F3 & W).
  exists lower. split; [exact E|]. split; [exact F2|]. split.
  - apply (W O). unfold horizon. lia.
  - apply (W1 7%nat 3%nat). unfold horizon. lia.
Defined.

(** C9, counterexample: with [demand_std = 1e308] the first level is NaN,
    so it is not <= the starting inventory, and the averages are NaN, so the
    sequence of averages is not non-increasing. *)
Lemma C9_counterexample :
  in_ranges (ex_scenario 100 1e308) /\
  exists resp avg ss start,
    run_simulation (ex_scenario 100 1e308) gauss_overflow = Ok resp /\
    safety_stock (ex_scenario 100 1e308) = Ok ss /\
    starting_inventory (ex_scenario 100 1e308) ss = Ok start /\
    PrimFloat.leb (level gauss_overflow start 0 0) start = false /\
    PrimFloat.leb (level gauss_overflow start 0 1) (level gauss_overflow start 0 0) = false /\
    field resp "inventory_avg" = Some (VList avg) /\
    PrimFloat.leb (nth 1 avg 0%float) (nth 0 avg 0%float) = false.
Proof.
  split; [apply in_ranges_ex; reflexivity|].
  eexists. eexists. eexists. eexists.
  split; [vm_compute; reflexivity|].
  split; [vm_compute; reflexivity|].
  split; [vm_compute; reflexivity|].
  split; [vm_compute; reflexivity|].
  split; [vm_compute; reflexivity|].
  split; reflexivity.
Qed.

(** C9: for demand >= 0 and demand_std >= 0, when the starting
    inventory demand + safety_stock is finite, every trajectory is
    non-increasing and starts at or below the starting inventory, a run that
    reaches 0 stays at 0, and the average and both bands are non-increasing
    sequences. *)
Theorem C9_non_increasing s gauss resp ss start :
  run_simulation s gauss = Ok resp ->
  safety_stock s = Ok ss -> starting_inventory s ss = Ok start ->
  0 <= demand s -> fle 0 (demand_std s) -> finite start ->
  (forall run,
     fle (level gauss start run 0) start /\
     (forall t, (S t < horizon)%nat ->
        fle (level gauss start run (S t)) (level gauss start run t)) /\
     (forall t t', (t <= t' < horizon)%nat ->
        level gauss start run t = int_zero ->
        level gauss start run t' = int_zero)) /\
  exists avg lower upper,
    field resp "inventory_avg" = Some (VList avg) /\
    field resp "inventory_lower" = Some (VList lower) /\
    field resp "inventory_upper" = Some (VList upper) /\
    forall t, (S t < horizon)%nat ->
      fle (nth (S t) avg 0%float) (nth t avg 0%float) /\
      fle (nth (S t) lower 0%float) (nth t lower 0%float) /\
      fle (nth (S t) upper 0%float) (nth t upper 0%float).
Proof.
  intros H Hss Hst Hd Hstd Hfin.
  pose proof (starting_nonneg s ss start Hd Hstd Hss Hst (proj1 Hfin)) as P0.
  destruct (run_fields _ _ _ H) as (ss' & start' & Hss' & Hst' & Hsim & F1 & F2 & F3).
  rewrite Hss in Hss'. apply Ok_inj in Hss'. subst ss'.
  rewrite Hst in Hst'. apply Ok_inj in Hst'. subst start'.
  split.
  - intros run. split; [|split].
    + destruct (level_is_level gauss start run O Hfin ltac:(unfold horizon; lia)) as [N B].
      apply fle_of_ord; [exact N | exact (proj1 Hfin)|].
      pose proof (level_first gauss start run Hfin). lia.
    + intros t Ht.
      destruct (level_is_level gauss start run t Hfin ltac:(lia)) as [N1 _].
      destruct (level_is_level gauss start run (S t) Hfin Ht) as [N2 _].
      apply fle_of_ord; [exact N2 | exact N1|].
      apply level_chain; [exact Hfin | lia].
    + intros t t' Ht E. apply (level_zero_stays gauss start run t t' Ht E).
  - eexists. eexists. eexists. split; [exact F1|]. split; [exact F2|]. split; [exact F3|].
    intros t Ht.
    destruct (bands_mono gauss start Hfin t (S t) ltac:(lia)) as (M1 & M2 & M3).
    destruct (lower_spec gauss start Hfin t ltac:(lia)) as ([Nl _] & _ & _).
    destruct (lower_spec gauss start Hfin (S t) Ht) as ([Nl' _] & _ & _).
    destruct (upper_spec gauss start Hfin t ltac:(lia)) as ([Nu _] & _ & _).
    destruct (upper_spec gauss start Hfin (S t) Ht) as ([Nu' _] & _ & _).
    destruct (avg_spec gauss start Hfin t ltac:(lia)) as [Na _].
    destruct (avg_spec gauss start Hfin (S t) Ht) as [Na' _].
    split; [apply fle_of_ord; assumption|].
    split; apply fle_of_ord; assumption.
Qed.

Lemma C9_witness :
  exists resp avg,
    run_simulation (ex_scenario 100 100) gauss_359 = Ok resp /\
    field resp "inventory_avg" = Some (VList avg) /\
    fle (nth 1 avg 0%float) (nth 0 avg 0%float) /\
    fle (level gauss_359 430 29 1) (level gauss_359 430 29 0).
Proof.
  assert (E : exists resp, run_simulation (ex_scenario 100 100) gauss_359 = Ok resp).
  { eexists. vm_compute. reflexivity. }
  destruct E as (resp & E). exists resp.
  assert (S1 : safety_stock (ex_scenario 100 100) = Ok 330%float) by (vm_compute; reflexivity).
  assert (S2 : starting_inventory (ex_scenario 100 100) 330 = Ok 430%float) by (vm_compute; reflexivity).
  assert (Fn : finite 430%float) by (split; [reflexivity | split; vm_compute; reflexivity]).
  assert (Hd : 0 <= demand (ex_scenario 100 100)) by (simpl; lia).
  assert (Hs : fle 0 (demand_std (ex_scenario 100 100))) by reflexivity.
  destruct (C9_non_increasing _ _ _ _ _ E S1 S2 Hd Hs Fn)
    as (W1 & avg & lower & upper & F1 & F2 & F3 & W).
  exists avg. split; [exact E|]. split; [exact F1|]. split.
  - apply (W O). unfold horizon. lia.
  - destruct (W1 29%nat) as (_ & C & _). apply (C O). unfold horizon. lia.
Defined.

(** C10: the simulation counts one stockout event for every cell whose
    post-subtraction inventory is <= 0; at inventory 0 every draw, 0
    included, gives a stockout and leaves the inventory at 0; so a run whose
    first stockout is in period t has a stockout in every later period and
    contributes exactly 12 - t events. *)
Theorem C10_stockouts_after_depletion gauss start :
  (exists st, simulate gauss start = Ok st /\
              stockout_events st = sum_counts gauss start num_runs) /\
  (forall run, sum_counts gauss start (S run)
               = sum_counts gauss start run + count_true (run_stockouts gauss start run)) /\
  (forall run t, (t < horizon)%nat ->
     nth t (run_stockouts gauss start run) false
     = PrimFloat.leb (before gauss start run t - demand_real gauss run t)%float 0) /\
  (forall g, level_step int_zero (Py.max 0%float g) = int_zero /\
             stockout int_zero (Py.max 0%float g) = true) /\
  stockout int_zero 0%float = true /\
  (forall run t, (t < horizon)%nat ->
     (forall i, (i < t)%nat -> nth i (run_stockouts gauss start run) false = false) ->
     nth t (run_stockouts gauss start run) false = true ->
     count_true (run_stockouts gauss start run) = Z.of_nat (horizon - t) /\
     forall i, (t <= i < horizon)%nat ->
       nth i (run_stockouts gauss start run) false = true /\
       level gauss start run i = int_zero).
Proof.
  split; [|split; [|split; [|split; [|split]]]].
  - exists (runs_pure gauss start num_runs). split; [apply simulate_pure | apply events_sum].
  - intros run. reflexivity.
  - intros run t Ht. destruct (cell_rule gauss start run t Ht) as [_ C]. exact C.
  - intros g. apply level_step_zero. apply max0_ord.
  - reflexivity.
  - intros run t Ht Hb Ha.
    pose proof (first_stockout (run_draws gauss run) (draws_are_draws _ _ _) start t
                  ltac:(rewrite run_draws_length; exact Ht) Hb Ha) as [C A].
    rewrite run_draws_length in C, A. split; [exact C|]. exact A.
Qed.

Lemma C10_witness :
  count_true (run_stockouts gauss_359 430 29) = 11 /\
  level gauss_359 430 29 5 = int_zero.
Proof.
  destruct (C10_stockouts_after_depletion gauss_359 430) as (_ & _ & _ & _ & _ & W).
  destruct (W 29%nat 1%nat) as [C A].
  - unfold horizon. lia.
  - intros i Hi. assert (i = O) by lia. subst i. vm_compute. reflexivity.
  - vm_compute. reflexivity.
  - split; [exact C|]. apply (A 5%nat). unfold horizon. lia.
Defined.

(** ** The forecast *)

Lemma small_int_float n : (n <= 12)%nat -> Z.abs (Z.of_nat n) <= max_int_float.
Proof.
  intros H. assert (12 <= max_int_float) by (apply Z.leb_le; vm_compute; reflexivity). lia.
Qed.

Lemma forecast_loop s d : Py.float_of_int (demand s) = Ok d ->
  forall n a acc, (a + n <= 12)%nat ->
  exists l, for_in (seq a n) (forecast_step s) acc = Ok (acc ++ l) /\
            List.length l = n /\
            forall i, (i < n)%nat ->
              exists tf, Py.float_of_int (Z.of_nat (a + i)) = Ok tf /\
                         Py.round (d * (1 + growth s * tf))%float 2 = Ok (nth i l 0%float).
Proof.
  intros Hd. induction n as [|n IH]; intros a acc Hn.
  - exists []. split; [rewrite app_nil_r; reflexivity|]. split; [reflexivity|]. intros i Hi. lia.
  - destruct (float_of_int_ok (Z.of_nat a) (small_int_float a ltac:(lia))) as (tf & Etf & _).
    destruct (round_total (d * (1 + growth s * tf))%float 2) as (r & Er).
    destruct (IH (S a) (acc ++ [r]) ltac:(lia)) as (l & El & Ll & Pl).
    exists (r :: l). split; [|split].
    + cbn [seq for_in]. unfold forecast_step at 1. rewrite Etf.
      cbv beta iota delta [bind].
      change (Py.float_of_int 1) with (Ok 1%float). cbv beta iota.
      rewrite Hd. cbv beta iota. rewrite Er. cbv beta iota.
      rewrite El. rewrite <- app_assoc. reflexivity.
    + simpl. rewrite Ll. reflexivity.
    + intros [|i] Hi.
      * exists tf. rewrite Nat.add_0_r. split; [exact Etf | exact Er].
      * destruct (Pl i ltac:(lia)) as (tf' & E1 & E2). exists tf'.
        replace (a + S i)%nat with (S a + i)%nat by lia. split; [exact E1 | exact E2].
Qed.

Lemma forecast_spec s d : Py.float_of_int (demand s) = Ok d ->
  exists fc, forecast s = Ok fc /\ List.length fc = horizon /\
    forall t, (t < horizon)%nat ->
      exists tf, Py.float_of_int (Z.of_nat t) = Ok tf /\
                 Py.round (d * (1 + growth s * tf))%float 2 = Ok (nth t fc 0%float).
Proof.
  intros Hd. destruct (forecast_loop s d Hd horizon O [] ltac:(unfold horizon; lia)) as (l & E & L & P).
  exists l. split; [exact E|]. split; [exact L|]. exact P.
Qed.

Lemma growth_spec s : growth s = growth_rule (scenario_type s).
Proof.
  unfold growth, growth_rule.
  destruct (String.eqb_spec (Py.lower (scenario_type s)) "optimistic") as [E|E].
  - rewrite E. reflexivity.
  - reflexivity.
Qed.

Lemma total_cost_inv s tc : total_cost s = Ok tc -> exists d, Py.float_of_int (demand s) = Ok d.
Proof.
  unfold total_cost. destruct (Py.float_of_int (demand s)) as [d|]; [eauto|discriminate].
Qed.

Lemma field_forecast s gauss resp fc :
  run_simulation s gauss = Ok resp -> forecast s = Ok fc ->
  field resp "forecast" = Some (VList fc).
Proof.
  intros H Hf. apply run_simulation_inv in H.
  destruct H as (tc & ed & e & ss & rp & fc' & start & avg & p & r_tc & r_ed & r_sl
                 & r_e & r_ss & r_rp & r_p & H).
  destruct H as (_ & _ & _ & _ & _ & Hf' & _ & _ & _ & _ & _ & _ & _ & _ & _ & _ & _ & ->).
  rewrite Hf in Hf'. apply Ok_inj in Hf'. subst fc'. reflexivity.
Qed.

(** ** Rounding to the nearest *)

Lemma dhe_nearest p d : 0 < d -> 0 <= p ->
  2 * Z.abs (p - Py.div_half_even p d * d) <= d /\
  (2 * Z.abs (p - Py.div_half_even p d * d) = d -> Z.even (Py.div_half_even p d) = true) /\
  forall j, Z.abs (p - Py.div_half_even p d * d) <= Z.abs (p - j * d).
Proof.
  intros Hd Hp. unfold Py.div_half_even.
  pose proof (Z.div_mod p d ltac:(lia)) as D.
  pose proof (Z.mod_pos_bound p d Hd) as B.
  set (q := p / d) in *. set (r := p mod d) in *.
  assert (J : forall j, r <= Z.abs (p - j * d) \/ (d - r <= Z.abs (p - j * d) /\ q < j)).
  { intros j. destruct (Z_le_gt_dec j q); [left | right]; nia. }
  destruct (Z.compare_spec (2 * r) d) as [E|L|G].
  - destruct (Z.even q) eqn:Ev.
    + replace (p - q * d) with r by lia. rewrite Z.abs_eq by lia.
      split; [lia|]. split; [auto|]. intros j. destruct (J j); lia.
    + replace (p - (q + 1) * d) with (r - d) by lia. rewrite Z.abs_neq by lia.
      split; [lia|]. split.
      * intros _. rewrite Z.even_add, Ev. reflexivity.
      * intros j. destruct (J j); lia.
  - replace (p - q * d) with r by lia. rewrite Z.abs_eq by lia.
    split; [lia|]. split; [lia|]. intros j. destruct (J j); lia.
  - replace (p - (q + 1) * d) with (r - d) by lia. rewrite Z.abs_neq by lia.
    split; [lia|]. split; [lia|]. intros j. destruct (J j); lia.
Qed.

(** No value of 53 significant bits is nearer to [p / q] than
    [round_units p q]. *)
Lemma round_units_nearest p q w : 0 <= p -> 0 < q -> 0 <= w ->
  round_units w 1 = w ->
  Z.abs (round_units p q * q - p) <= Z.abs (w * q - p).
Proof.
  intros Hp Hq Hw Fw. unfold round_units.
  set (a := p / q). set (k := Z.max 0 (Zdigits2 a - prec)).
  assert (K0 : 0 <= k) by (unfold k; lia).
  pose proof (pow2_gt0 k K0) as Tk.
  set (D := q * 2 ^ k). assert (HD : 0 < D) by (unfold D; nia).
  destruct (dhe_nearest p D HD Hp) as (_ & _ & Near).
  set (n := Py.div_half_even p D) in *.
  replace (n * 2 ^ k * q - p) with (- (p - n * D)) by (unfold D; ring).
  rewrite Z.abs_opp.
  destruct (Z.eq_dec (w mod 2 ^ k) 0) as [M|M].
  - pose proof (Z.div_mod w (2 ^ k) ltac:(lia)) as E. rewrite M in E.
    specialize (Near (w / 2 ^ k)).
    replace (w * q - p) with (- (p - w / 2 ^ k * D)) by (unfold D; nia).
    rewrite Z.abs_opp. exact Near.
  - (* w is below the binade of p / q *)
    assert (Kp : 0 < k).
    { destruct (Z.eq_dec k 0) as [Z0|]; [|lia]. exfalso. apply M.
      rewrite Z0. apply Z.mod_1_r. }
    assert (Da : Zdigits2 a = k + 53) by (unfold k, prec in *; lia).
    assert (Ha : 0 <= a) by (apply Z.div_pos; lia).
    assert (Apos : 0 < a).
    { destruct (Z.eq_dec a 0) as [Z0|]; [|lia]. rewrite Z0 in Da.
      change (Zdigits2 0) with 0 in Da. lia. }
    destruct (digits_bounds a Apos) as [A1 _]. rewrite Da in A1.
    replace (k + 53 - 1) with (k + 52) in A1 by lia.
    assert (Wlt : w < 2 ^ (k + 52)).
    { destruct (Z_lt_le_dec w (2 ^ (k + 52))) as [L|G]; [exact L|]. exfalso. apply M.
      pose proof (digits_ge_pow w (k + 52) ltac:(lia) G) as Dw.
      pose proof (round_units_exact_div w Hw Fw) as X. cbv zeta in X.
      set (kw := Z.max 0 (Zdigits2 w - prec)) in X.
      assert (kw = k + (kw - k)) as Ek by lia.
      assert (Kk : 0 <= kw - k) by (unfold kw, prec; lia).
      rewrite <- X. rewrite Ek at 2. rewrite pow2_add by lia.
      replace (w / 2 ^ kw * (2 ^ k * 2 ^ (kw - k)))
        with (w / 2 ^ kw * 2 ^ (kw - k) * 2 ^ k) by ring.
      apply Z.mod_mul. lia. }
    rewrite pow2_add in A1, Wlt by lia.
    pose proof (Z.mul_div_le p q Hq) as P1. fold a in P1.
    specialize (Near (2 ^ 52)).
    assert (2 ^ 52 * D <= p) by (unfold D; nia).
    assert (w * q < 2 ^ 52 * D) by (unfold D; nia).
    lia.
Qed.

Lemma F2Z_abs_fix y : round_units (Z.abs (F2Z y)) 1 = Z.abs (F2Z y).
Proof.
  unfold F2Z. pose proof (Prim2SF_valid y) as V. pose proof INF_pos.
  destruct (Prim2SF y) as [s|s| |s m e]; unfold ord; cbv zeta.
  - apply round_units_0. lia.
  - destruct s; [rewrite Z.abs_opp|]; rewrite Z.abs_eq by lia; apply round_units_INF.
  - apply round_units_0. lia.
  - cbn [valid_binary] in V. pose proof (finite_ord_bounds _ _ V).
    destruct s; [rewrite Z.abs_opp|]; rewrite Z.abs_eq by lia; apply valid_fix; exact V.
Qed.

(** The float of [sgn s (round_units P Q)] units is nearest to
    [sgn s P / Q] among all floats. *)
Lemma nearest_signed s P Q y : 0 <= P -> 0 < Q ->
  Z.abs (sgn s (round_units P Q) * Q - sgn s P) <= Z.abs (F2Z y * Q - sgn s P).
Proof.
  intros HP HQ.
  pose proof (round_units_nearest P Q (Z.abs (F2Z y)) HP HQ (Z.abs_nonneg _) (F2Z_abs_fix y)) as A.
  pose proof (round_units_nearest P Q 0 HP HQ ltac:(lia) (round_units_0 1 ltac:(lia))) as B.
  pose proof (round_units_nonneg P Q HP HQ) as R0.
  set (R := round_units P Q) in *. unfold sgn. destruct s; nia.
Qed.

(** ** [round] on every finite float *)

Lemma round_dec_units_0 nd : round_dec_units nd 0 = 0.
Proof.
  unfold round_dec_units. pose proof (pow10_pos nd).
  change (0 * 10 ^ Z.of_nat nd) with 0.
  replace (Py.div_half_even 0 (2 ^ 1074)) with 0 by (symmetry; apply (dhe_exact 0); apply pow2_gt0; lia).
  change (0 * 2 ^ 1074) with 0. apply round_units_0. lia.
Qed.

Lemma round_signed x nd r : Py.round x nd = Ok r -> finite x ->
  exists s V, F2Z x = sgn s V /\ 0 <= V /\
              finite r /\ F2Z r = sgn s (round_dec_units nd V).
Proof.
  intros H [N B].
  pose proof (pow10_pos nd) as P10.
  assert (T : 0 < 2 ^ 1074) by (apply pow2_gt0; lia).
  pose proof INF_pos as IP.
  unfold Py.round in H.
  pose proof (Prim2SF_valid x) as V.
  assert (Fx : finite x) by (split; assumption).
  unfold fnan, F2Z in N, B. unfold F2Z at 1.
  destruct (Prim2SF x) as [s|s| |s m e] eqn:E; try discriminate.
  - apply Ok_inj in H. subst r. exists s, 0.
    split; [unfold ord, sgn; destruct s; reflexivity|]. split; [lia|].
    split; [exact Fx|]. rewrite round_dec_units_0. unfold F2Z. rewrite E.
    unfold ord, sgn. destruct s; reflexivity.
  - unfold ord in B. destruct s; lia.
  - cbn [valid_binary] in V. pose proof (finite_ord_bounds _ _ V) as FB.
    destruct (bounded_inv _ _ V) as (Be & _ & _).
    set (ox := Z.pos m * 2 ^ (e + 1074)) in *.
    exists s, ox. split; [reflexivity|]. split; [lia|].
    unfold round_dec_units. set (p10 := 10 ^ Z.of_nat nd) in *.
    destruct (Z.leb_spec 0 e) as [Le|Le].
    + apply Ok_inj in H. subst r. split; [exact Fx|].
      unfold F2Z. rewrite E. unfold ord. cbv zeta. fold ox. unfold sgn.
      assert (R : round_units (Py.div_half_even (ox * p10) (2 ^ 1074) * 2 ^ 1074) p10 = ox).
      { pose proof (pow2_gt0 e Le) as Te.
        assert (K : ox = (Z.pos m * 2 ^ e) * 2 ^ 1074)
          by (unfold ox; rewrite (pow2_add e 1074) by lia; ring).
        assert (D : Py.div_half_even (ox * p10) (2 ^ 1074) = Z.pos m * 2 ^ e * p10).
        { rewrite K.
          replace (Z.pos m * 2 ^ e * 2 ^ 1074 * p10)
            with ((Z.pos m * 2 ^ e * p10) * 2 ^ 1074) by ring.
          apply dhe_exact; lia. }
        rewrite D.
        replace (Z.pos m * 2 ^ e * p10 * 2 ^ 1074) with (ox * p10) by (rewrite K; ring).
        pose proof (round_units_scale ox 1 p10 ltac:(lia) ltac:(lia) P10) as S.
        rewrite Z.mul_1_l in S. rewrite S.
        apply valid_fix. exact V. }
      rewrite R. reflexivity.
    + cbv zeta in H. fold p10 in H.
      assert (Hn : Py.div_half_even (Z.pos m * p10) (2 ^ (- e))
                   = Py.div_half_even (ox * p10) (2 ^ 1074)).
      { pose proof (pow2_gt0 (e + 1074) ltac:(lia)) as Te.
        pose proof (pow2_gt0 (- e) ltac:(lia)) as Tn.
        rewrite <- (dhe_scale (Z.pos m * p10) (2 ^ (- e)) (2 ^ (e + 1074))) by lia.
        unfold ox. f_equal; [ring|]. rewrite <- pow2_add by lia. f_equal. lia. }
      rewrite Hn in H.
      set (n := Py.div_half_even (ox * p10) (2 ^ 1074)) in *.
      assert (N0 : 0 <= n) by (apply dhe_nonneg; nia).
      destruct (Z.eqb_spec n 0) as [En|Nn].
      * apply Ok_inj in H. subst r. rewrite En.
        rewrite Z.mul_0_l, round_units_0 by lia.
        unfold finite, fnan, F2Z. rewrite Prim2SF_SF2Prim by reflexivity.
        split; [split; [reflexivity | unfold ord; lia]|].
        unfold ord, sgn. destruct s; reflexivity.
      * pose proof (div_core_correct s n 0 p10 0 ltac:(lia) ltac:(lia) ltac:(lia)) as C.
        destruct (SFdiv_core_binary prec emax n 0 p10 0) as [[mz ez] lz].
        rewrite C in H. change (0 - 0 + 1074) with 1074 in H.
        set (v := round_units (n * 2 ^ 1074) p10) in *.
        assert (V0 : 0 <= v) by (apply round_units_nonneg; nia).
        assert (VI : v < INF).
        { destruct (Z_lt_le_dec v INF) as [L|G]; [exact L|]. exfalso.
          destruct (proj2 (encode_inf s v V0) G) as (s' & Es). rewrite Es in H. discriminate. }
        destruct (encode_SF2Prim s v V0 ltac:(apply round_units_idem; nia) VI) as (P & N' & O).
        assert (r = SF2Prim (encode s v)) as ->.
        { destruct (encode s v) eqn:Ee; try (apply Ok_inj in H; auto). discriminate. }
        split; [|exact O]. split; [exact N'|]. rewrite O. unfold sgn. destruct s; lia.
Qed.

(** [round(x, nd)], when it returns, is [x] rounded to [nd] decimals. *)
Lemma round_rounded x nd r : Py.round x nd = Ok r -> finite x -> rounded_to nd x r.
Proof.
  intros H Fx. destruct (round_signed x nd r H Fx) as (s & V & Ex & V0 & Fr & Er).
  pose proof (pow10_pos nd) as P10. set (p10 := 10 ^ Z.of_nat nd) in *.
  assert (T : 0 < 2 ^ 1074) by (apply pow2_gt0; lia).
  unfold round_dec_units in Er. fold p10 in Er.
  destruct (dhe_nearest (V * p10) (2 ^ 1074) T ltac:(nia)) as (A & Ev & _).
  set (n := Py.div_half_even (V * p10) (2 ^ 1074)) in *.
  assert (N0 : 0 <= n) by (apply dhe_nonneg; nia).
  exists (sgn s n). fold p10. rewrite Ex.
  assert (Es : sgn s V * p10 - sgn s n * 2 ^ 1074 = sgn s (V * p10 - n * 2 ^ 1074))
    by (unfold sgn; destruct s; ring).
  assert (Ea : Z.abs (sgn s (V * p10 - n * 2 ^ 1074)) = Z.abs (V * p10 - n * 2 ^ 1074))
    by (unfold sgn; destruct s; [apply Z.abs_opp | reflexivity]).
  rewrite Es, Ea. split; [exact A|]. split.
  - intros Tie. replace (Z.even (sgn s n)) with (Z.even n); [exact (Ev Tie)|].
    unfold sgn. destruct s; [symmetry; apply Z.even_opp | reflexivity].
  - split; [exact Fr|]. intros y _. rewrite Er.
    replace (sgn s n * 2 ^ 1074) with (sgn s (n * 2 ^ 1074)) by (unfold sgn; destruct s; ring).
    apply nearest_signed; nia.
Qed.

(** [round] returns an infinity or NaN as it is. *)
Lemma round_not_finite x nd r : Py.round x nd = Ok r -> ~ finite x -> r = x.
Proof.
  intros H NF. unfold Py.round in H. pose proof (Prim2SF_valid x) as V.
  destruct (Prim2SF x) as [s|s| |s m e] eqn:E; try (apply Ok_inj in H; auto).
  exfalso. apply NF. cbn [valid_binary] in V.
  pose proof (finite_ord_bounds _ _ V) as FB.
  unfold finite, fnan, F2Z. rewrite E. split; [reflexivity|].
  unfold ord. cbv zeta. destruct s; lia.
Qed.

(** C6: the forecast has exactly 12 values, forecast[t] is
    demand * (1 + growth * t) rounded to 2 decimals, and growth is +0.02 for
    the type optimistic, -0.02 for pessimistic (both compared in lower
    case) and 0 for every other type. Rounded to 2 decimals means: a whole
    number of hundredths is nearest to the product (the even one of two
    equally near) and forecast[t] is a float nearest to that decimal; a
    product that overflowed to an infinity is kept as it is. *)
Theorem C6_forecast s :
  growth s = growth_rule (scenario_type s) /\
  (forall d, Py.float_of_int (demand s) = Ok d ->
     exists fc, forecast s = Ok fc /\ List.length fc = 12%nat /\
       forall t, (t < 12)%nat ->
         exists tf, Py.float_of_int (Z.of_nat t) = Ok tf /\
           Py.round (d * (1 + growth_rule (scenario_type s) * tf))%float 2
           = Ok (nth t fc 0%float) /\
           (finite (d * (1 + growth_rule (scenario_type s) * tf))%float ->
            rounded_to 2 (d * (1 + growth_rule (scenario_type s) * tf))%float
                       (nth t fc 0%float)) /\
           (~ finite (d * (1 + growth_rule (scenario_type s) * tf))%float ->
            nth t fc 0%float = (d * (1 + growth_rule (scenario_type s) * tf))%float)) /\
  (forall gauss resp, run_simulation s gauss = Ok resp ->
     exists d fc, Py.float_of_int (demand s) = Ok d /\
       forecast s = Ok fc /\ field resp "forecast" = Some (VList fc)).
Proof.
  split; [apply growth_spec|]. split.
  - intros d Hd. destruct (forecast_spec s d Hd) as (fc & E & L & P).
    exists fc. split; [exact E|]. split; [exact L|].
    intros t Ht. rewrite <- growth_spec.
    destruct (P t Ht) as (tf & Et & R). exists tf.
    split; [exact Et|]. split; [exact R|]. split.
    + intros F. exact (round_rounded _ _ _ R F).
    + intros F. exact (round_not_finite _ _ _ R F).
  - intros gauss resp H. pose proof H as H'. apply run_simulation_inv in H'.
    destruct H' as (tc & ed & e & ss & rp & fc & start & avg & p & r_tc & r_ed & r_sl
                   & r_e & r_ss & r_rp & r_p & H').
    destruct H' as (Htc & _ & _ & _ & _ & Hf & _).
    destruct (total_cost_inv s tc Htc) as (d & Hd).
    exists d, fc. split; [exact Hd|]. split; [exact Hf|].
    apply (field_forecast s gauss resp fc H Hf).
Qed.

Lemma C6_witness :
  exists fc, forecast ex_optimistic = Ok fc /\
             nth 7 fc 0%float = 114%float /\
             PrimFloat.eqb (100 * (1 + 0.02 * 7))%float 114 = false /\
             rounded_to 2 (100 * (1 + 0.02 * 7))%float (nth 7 fc 0%float).
Proof.
  destruct (C6_forecast ex_optimistic) as (_ & W & _).
  destruct (W 100%float) as (fc & E & L & P); [vm_compute; reflexivity|].
  exists fc. split; [exact E|].
  destruct (P 7%nat ltac:(lia)) as (tf & Et & R & Rd & _).
  assert (tf = 7%float) as ->.
  { apply Ok_inj. rewrite <- Et. vm_compute. reflexivity. }
  change (growth_rule (scenario_type ex_optimistic)) with 0.02%float in R, Rd.
  split.
  - apply Ok_inj. rewrite <- R. vm_compute. reflexivity.
  - split; [vm_compute; reflexivity|]. apply Rd.
    split; [vm_compute; reflexivity|]. split; vm_compute; reflexivity.
Defined.

Lemma eqb_sym x y : PrimFloat.eqb x y = PrimFloat.eqb y x.
Proof.
  destruct (fnan x) eqn:Nx.
  - apply fnan_inv in Nx. rewrite !eqb_spec. unfold SFeqb. rewrite Nx.
    rewrite SFcompare_nan_l, SFcompare_nan_r. reflexivity.
  - destruct (fnan y) eqn:Ny.
    + apply fnan_inv in Ny. rewrite !eqb_spec. unfold SFeqb. rewrite Ny.
      rewrite SFcompare_nan_l, SFcompare_nan_r. reflexivity.
    + rewrite (eqb_ord x y Nx Ny), (eqb_ord y x Ny Nx). apply Z.eqb_sym.
Qed.

Lemma z_map_table tr : dict_get PrimFloat.eqb z_map tr 1.65%float = z_table tr.
Proof.
  unfold z_map, z_table. cbn [dict_get].
  rewrite (eqb_sym 0.9 tr), (eqb_sym 0.95 tr), (eqb_sym 0.97 tr), (eqb_sym 0.99 tr).
  reflexivity.
Qed.

(** ** The safety stock *)

Lemma eqb_true_inv x y : PrimFloat.eqb x y = true ->
  fnan x = false /\ fnan y = false /\ F2Z x = F2Z y.
Proof.
  intros H. destruct (fnan x) eqn:Nx.
  - apply fnan_inv in Nx. rewrite eqb_spec in H. unfold SFeqb in H.
    rewrite Nx, SFcompare_nan_l in H. discriminate.
  - destruct (fnan y) eqn:Ny.
    + apply fnan_inv in Ny. rewrite eqb_spec in H. unfold SFeqb in H.
      rewrite Ny, SFcompare_nan_r in H. discriminate.
    + rewrite (eqb_ord x y Nx Ny) in H. apply Z.eqb_eq in H. auto.
Qed.

Lemma sqrt_int_ok z l : 0 <= z -> Py.float_of_int z = Ok l ->
  Py.math_sqrt l = Ok (PrimFloat.sqrt l).
Proof.
  intros Hz H. destruct (float_of_int_inv z l H) as (N & _ & P).
  unfold Py.math_sqrt. rewrite (fnonneg_ltb0 l (ord_fnonneg l (P Hz))). reflexivity.
Qed.

Lemma safety_stock_spec s tr l :
  Py.round (service_target s) 2 = Ok tr ->
  Py.float_of_int (Z.max (lead_time s) 1) = Ok l ->
  safety_stock s = Ok (z_table tr * demand_std s * PrimFloat.sqrt l)%float.
Proof.
  intros Hr Hl. unfold safety_stock, z_score. rewrite Hr.
  cbv beta iota delta [bind]. rewrite Hl. cbv beta iota.
  rewrite (sqrt_int_ok (Z.max (lead_time s) 1) l ltac:(lia) Hl). cbv beta iota.
  rewrite z_map_table. reflexivity.
Qed.

Lemma safety_stock_inv s ss : safety_stock s = Ok ss ->
  exists l, Py.float_of_int (Z.max (lead_time s) 1) = Ok l.
Proof.
  unfold safety_stock. destruct (z_score s) as [z|]; [|discriminate].
  cbv beta iota delta [bind].
  destruct (Py.float_of_int (Z.max (lead_time s) 1)) as [l|]; [eauto|discriminate].
Qed.

(** C7: safety_stock = z * demand_std * sqrt(max(lead_time, 1)), where z is
    found in the table {0.90: 1.28, 0.95: 1.65, 0.97: 1.88, 0.99: 2.33} at
    service_target rounded to 2 decimals, with 1.65 for any other rounded
    value; a target that rounds to 0.95, such as 0.9499999, gives 1.65. *)
Theorem C7_safety_stock s :
  exists target_rounded,
    Py.round (service_target s) 2 = Ok target_rounded /\
    z_score s = Ok (z_table target_rounded) /\
    (PrimFloat.eqb target_rounded 0.95 = true -> z_score s = Ok 1.65%float) /\
    (forall l, Py.float_of_int (Z.max (lead_time s) 1) = Ok l ->
       safety_stock s
       = Ok (z_table target_rounded * demand_std s * PrimFloat.sqrt l)%float) /\
    (forall gauss resp, run_simulation s gauss = Ok resp ->
       exists l r,
         Py.float_of_int (Z.max (lead_time s) 1) = Ok l /\
         Py.round (z_table target_rounded * demand_std s * PrimFloat.sqrt l)%float 2
         = Ok r /\
         field resp "safety_stock" = Some (VFloat r)) /\
    Py.round 0.9499999%float 2 = Ok 0.95%float.
Proof.
  destruct (round_total (service_target s) 2) as (tr & Hr).
  assert (Hz : z_score s = Ok (z_table tr)).
  { unfold z_score. rewrite Hr. cbv beta iota delta [bind]. rewrite z_map_table. reflexivity. }
  exists tr. split; [exact Hr|]. split; [exact Hz|]. split; [|split; [|split]].
  - intros E. rewrite Hz. unfold z_table.
    destruct (PrimFloat.eqb tr 0.9) eqn:E9.
    + exfalso. destruct (eqb_true_inv _ _ E) as (_ & _ & O1).
      destruct (eqb_true_inv _ _ E9) as (_ & _ & O2).
      rewrite O1 in O2. vm_compute in O2. discriminate.
    + rewrite E. reflexivity.
  - intros l Hl. apply safety_stock_spec; assumption.
  - intros gauss resp H. apply run_simulation_inv in H.
    destruct H as (tc & ed & e & ss & rp & fc & start & avg & p & r_tc & r_ed & r_sl
                   & r_e & r_ss & r_rp & r_p & H).
    destruct H as (_ & _ & _ & Hss & _ & _ & _ & _ & _ & _ & _ & _ & _ & _ & Hr2 & _ & _ & ->).
    destruct (safety_stock_inv s ss Hss) as (l & Hl).
    rewrite (safety_stock_spec s tr l Hr Hl) in Hss. apply Ok_inj in Hss. subst ss.
    exists l, r_ss. split; [exact Hl|]. split; [exact Hr2 | reflexivity].
  - vm_compute. reflexivity.
Qed.

Lemma C7_witness :
  z_score ex_optimistic = Ok 1.65%float /\
  safety_stock ex_optimistic = Ok (1.65 * 10 * PrimFloat.sqrt 4)%float.
Proof.
  destruct (C7_safety_stock ex_optimistic) as (tr & Hr & Hz & H95 & Hss & _ & R).
  change (service_target ex_optimistic) with 0.9499999%float in Hr.
  rewrite R in Hr. apply Ok_inj in Hr. subst tr.
  split.
  - apply H95. vm_compute. reflexivity.
  - apply (Hss 4%float). vm_compute. reflexivity.
Defined.

(** ** Errors *)

Lemma float_of_nonneg z : 0 <= z <= max_int_float ->
  exists f, Py.float_of_int z = Ok f /\ fnonneg f = true.
Proof.
  intros Hz. destruct (float_of_int_ok z ltac:(lia)) as (f & E & _).
  exists f. split; [exact E|].
  destruct (float_of_int_inv z f E) as (_ & _ & P). apply ord_fnonneg, P. lia.
Qed.

Lemma float_of_int_bound z f : Py.float_of_int z = Ok f -> Z.abs z <= max_int_float.
Proof.
  intros H. destruct (Z_le_gt_dec (Z.abs z) max_int_float) as [L|G]; [exact L|].
  rewrite (float_of_int_overflow z ltac:(lia)) in H. discriminate.
Qed.

Lemma max_eps_pos h : flt 0 h -> fpos (Py.max h 0.0001%float) = true.
Proof.
  intros H. unfold Py.max. destruct (PrimFloat.ltb h 0.0001); [reflexivity|].
  apply ltb0_fpos. exact H.
Qed.

Lemma eoq_ok s : 0 <= 2 * demand s <= max_int_float ->
  flt 0 (ordering_cost s) -> flt 0 (holding_cost s) -> returns (eoq s).
Proof.
  intros Hd Ho Hh. unfold eoq, returns.
  destruct (float_of_nonneg (2 * demand s) Hd) as (d2 & E & P). rewrite E.
  cbv beta iota delta [bind]. unfold Py.float_div.
  pose proof (max_eps_pos (holding_cost s) Hh) as Pm.
  rewrite (fpos_eqb0 _ Pm). unfold Py.math_sqrt.
  rewrite fnonneg_ltb0; [eauto|].
  apply div_nonneg; [|exact Pm].
  apply mul_nonneg; [exact P|]. apply fpos_fnonneg, ltb0_fpos, Ho.
Qed.

Lemma safety_stock_ok s : 0 <= lead_time s <= max_int_float -> returns (safety_stock s).
Proof.
  intros Hl. destruct (round_total (service_target s) 2) as (tr & Hr).
  assert (M : 0 <= Z.max (lead_time s) 1 <= max_int_float).
  { assert (1 <= max_int_float) by (apply Z.leb_le; vm_compute; reflexivity). lia. }
  destruct (float_of_nonneg _ M) as (l & El & _).
  rewrite (safety_stock_spec s tr l Hr El). red. eauto.
Qed.

Lemma truediv_ok a b : 0 <= a <= max_int_float -> 1 <= b -> returns (Py.int_truediv a b).
Proof.
  intros Ha Hb.
  destruct (int_truediv_ok a b ltac:(lia) ltac:(lia)) as (f & E & _); [|red; eauto].
  pose proof round_max_int as R.
  assert (P : 0 <= 2 ^ 1074) by (apply Z.pow_nonneg; lia).
  assert (M : round_units (a * 2 ^ 1074) b <= round_units (max_int_float * 2 ^ 1074) 1).
  { apply round_units_mono; try lia; try nia. }
  lia.
Qed.

Lemma reorder_point_ok s ss : 0 <= demand s <= max_int_float ->
  0 <= lead_time s <= max_int_float -> returns (reorder_point s ss).
Proof.
  intros Hd Hl. unfold reorder_point.
  destruct (truediv_ok (demand s) (Z.max (lead_time s) 1) Hd ltac:(lia)) as (dd & E).
  rewrite E. cbv beta iota delta [bind].
  destruct (float_of_nonneg (lead_time s) Hl) as (l & El & _). rewrite El.
  cbv beta iota. red. eauto.
Qed.

Lemma run_simulation_ok s gauss :
  0 <= 2 * demand s <= max_int_float -> 0 <= lead_time s <= max_int_float ->
  flt 0 (ordering_cost s) -> flt 0 (holding_cost s) ->
  returns (run_simulation s gauss).
Proof.
  intros Hd Hl Ho Hh.
  assert (Hd1 : 0 <= demand s <= max_int_float) by lia.
  destruct (float_of_nonneg (demand s) Hd1) as (d & Ed & _).
  destruct (float_of_nonneg (lead_time s) Hl) as (l & El & _).
  destruct (eoq_ok s Hd Ho Hh) as (e & Ee).
  destruct (safety_stock_ok s Hl) as (ss & Ess).
  destruct (reorder_point_ok s ss Hd1 Hl) as (rp & Erp).
  destruct (forecast_spec s d Ed) as (fc & Efc & _).
  destruct (prob_facts _ (events_range gauss (d + ss)%float)) as (p & r_p & fk & Ep & Erp3 & _).
  destruct (round_total (d * cost s)%float 2) as (r_tc & Er1).
  destruct (round_total (l * 0.5)%float 2) as (r_ed & Er2).
  destruct (round_total (service_level s) 3) as (r_sl & Er3).
  destruct (round_total e 2) as (r_e & Er4).
  destruct (round_total ss 2) as (r_ss & Er5).
  destruct (round_total rp 2) as (r_rp & Er6).
  unfold run_simulation, returns, total_cost, expected_delay, starting_inventory.
  rewrite Ed, El, Ee, Ess. cbv beta iota delta [bind].
  rewrite Erp, Efc. cbv beta iota.
  rewrite simulate_pure. cbv beta iota.
  rewrite avg_levels_spec. cbv beta iota.
  rewrite Ep. cbv beta iota.
  rewrite Er1, Er2, Er3, Er4, Er5, Er6, Erp3. cbv beta iota.
  eexists. reflexivity.
Qed.

(** C8, counterexample: demand = 2^1024 is inside the documented ranges,
    and the run raises OverflowError when demand is converted to a float. *)
Lemma C8_counterexample :
  in_ranges (ex_scenario (2 ^ 1024) 10) /\
  forall gauss, run_simulation (ex_scenario (2 ^ 1024) 10) gauss = Raise OverflowError.
Proof.
  split.
  - unfold in_ranges. cbn [demand lead_time cost ordering_cost holding_cost demand_std ex_scenario].
    split; [apply Z.pow_nonneg; lia|]. split; [lia|]. repeat split; reflexivity.
  - intros gauss. unfold run_simulation, total_cost.
    rewrite float_of_int_overflow; [reflexivity|].
    cbn [demand ex_scenario]. apply Z.ltb_lt. vm_compute. reflexivity.
Qed.

(** C8: within the documented ranges the run returns a response
    exactly when 2 * demand and lead_time can be converted to a float, that
    is when both are at most 2^1024 - 2^970 - 1; it raises otherwise. *)
Theorem C8_returns_in_ranges s gauss :
  in_ranges s ->
  (returns (run_simulation s gauss)
   <-> 2 * demand s <= max_int_float /\ lead_time s <= max_int_float).
Proof.
  intros (Hd & Hl & Hc & Ho & Hh & Hs). split.
  - intros (resp & H). apply run_simulation_inv in H.
    destruct H as (tc & ed & e & ss & rp & fc & start & avg & p & r_tc & r_ed & r_sl
                   & r_e & r_ss & r_rp & r_p & H).
    destruct H as (_ & Hed & He & _).
    split.
    + unfold eoq in He.
      destruct (Py.float_of_int (2 * demand s)) as [d2|] eqn:E; [|discriminate].
      apply float_of_int_bound in E. lia.
    + unfold expected_delay in Hed.
      destruct (Py.float_of_int (lead_time s)) as [l|] eqn:E; [|discriminate].
      apply float_of_int_bound in E. lia.
  - intros [B1 B2]. apply run_simulation_ok; try assumption; lia.
Qed.

Lemma C8_witness : returns (run_simulation (ex_scenario 100 10) (gauss_const 99.9)).
Proof.
  apply (C8_returns_in_ranges (ex_scenario 100 10) (gauss_const 99.9)).
  - apply in_ranges_ex. reflexivity.
  - cbn [demand lead_time ex_scenario].
    split; apply Z.leb_le; vm_compute; reflexivity.
Defined.

(** * Further properties *)

(** ** The exceptions of the run *)

Lemma float_of_int_raise z e : Py.float_of_int z = Raise e -> e = OverflowError.
Proof.
  unfold Py.float_of_int.
  destruct (binary_normalize prec emax z 0 false); intros H; try discriminate.
  injection H. auto.
Qed.

Lemma int_truediv_signed a b : 0 < b ->
  round_units (Z.abs a * 2 ^ 1074) b < INF ->
  exists f, Py.int_truediv a b = Ok f /\ fnan f = false /\
            F2Z f = sgn (a <? 0) (round_units (Z.abs a * 2 ^ 1074) b).
Proof.
  intros Hb Hv. unfold Py.int_truediv.
  destruct (Z.eqb_spec b 0); try lia.
  replace (b <? 0) with false by (symmetry; apply Z.ltb_ge; lia).
  rewrite xorb_false_r.
  destruct (Z.eqb_spec a 0) as [->|Na].
  - exists 0%float. split; [reflexivity|]. split; [reflexivity|].
    simpl Z.abs. rewrite Z.mul_0_l, round_units_0 by lia. reflexivity.
  - rewrite (Z.abs_eq b) by lia.
    pose proof (div_core_correct (a <? 0) (Z.abs a) 0 b 0 ltac:(lia) ltac:(lia) ltac:(lia)) as C.
    destruct (SFdiv_core_binary prec emax (Z.abs a) 0 b 0) as [[mz ez] lz].
    rewrite C. change (0 - 0 + 1074) with 1074.
    set (v := round_units (Z.abs a * 2 ^ 1074) b) in *.
    assert (V0 : 0 <= v) by (apply round_units_nonneg; lia).
    destruct (encode_SF2Prim (a <? 0) v V0 ltac:(apply round_units_idem; lia) Hv) as (P & N & O).
    exists (SF2Prim (encode (a <? 0) v)). split.
    + destruct (encode (a <? 0) v) eqn:E; try reflexivity.
      exfalso. assert (INF <= v) by (apply (encode_inf (a <? 0) v V0); eauto). lia.
    + split; [exact N | exact O].
Qed.

Lemma truediv_fits a b : Z.abs a <= max_int_float -> 1 <= b ->
  returns (Py.int_truediv a b).
Proof.
  intros Ha Hb.
  destruct (int_truediv_signed a b ltac:(lia)) as (f & E & _); [|red; eauto].
  pose proof round_max_int as R.
  assert (P : 0 <= 2 ^ 1074) by (apply Z.pow_nonneg; lia).
  assert (M : round_units (Z.abs a * 2 ^ 1074) b <= round_units (max_int_float * 2 ^ 1074) 1).
  { apply round_units_mono; try lia; try nia. }
  lia.
Qed.

Lemma max_eps_nonzero h : PrimFloat.eqb (Py.max h 0.0001%float) 0 = false.
Proof.
  unfold Py.max. destruct (PrimFloat.ltb h 0.0001) eqn:L; [reflexivity|].
  destruct (PrimFloat.eqb h 0) eqn:E; [|reflexivity].
  destruct (eqb_true_inv _ _ E) as (N & _ & O).
  rewrite (ltb_ord h 0.0001%float N eq_refl), O in L.
  vm_compute in L. discriminate.
Qed.

Lemma for_in_raise {S : Type} (P : exn -> Prop) (body : nat -> S -> result S) :
  (forall x st e, body x st = Raise e -> P e) ->
  forall xs st e, for_in xs body st = Raise e -> P e.
Proof.
  intros Hb. induction xs as [|x xs IH]; intros st e H; [discriminate|].
  cbn [for_in] in H. destruct (body x st) as [st'|e'] eqn:E.
  - cbv beta iota delta [bind] in H. apply (IH st' e H).
  - cbv beta iota delta [bind] in H. injection H as <-. apply (Hb x st e' E).
Qed.

Lemma forecast_raise s e : forecast s = Raise e -> e = OverflowError.
Proof.
  revert e. unfold forecast. apply (for_in_raise (fun e => e = OverflowError)). intros t fc e.
  unfold forecast_step.
  destruct (Py.float_of_int (Z.of_nat t)) as [tf|e1] eqn:E1;
    [|intros H; injection H as <-; apply (float_of_int_raise _ _ E1)].
  cbv beta iota delta [bind]. change (Py.float_of_int 1) with (Ok 1%float). cbv beta iota.
  destruct (Py.float_of_int (demand s)) as [d|e2] eqn:E2;
    [|intros H; injection H as <-; apply (float_of_int_raise _ _ E2)].
  cbv beta iota.
  destruct (round_total (d * (1 + growth s * tf))%float 2) as (r & ->). discriminate.
Qed.

Lemma float_of_int_fits z : Z.abs z <= max_int_float -> returns (Py.float_of_int z).
Proof. intros H. destruct (float_of_int_ok z H) as (f & E & _). red. eauto. Qed.

Lemma eoq_sqrt s d2 : Py.float_of_int (2 * demand s) = Ok d2 ->
  eoq s = Py.math_sqrt (eoq_radicand s d2).
Proof.
  intros E. unfold eoq. rewrite E. cbv beta iota delta [bind].
  unfold Py.float_div. rewrite max_eps_nonzero. reflexivity.
Qed.

Lemma safety_stock_fits s : Z.abs (lead_time s) <= max_int_float -> returns (safety_stock s).
Proof.
  intros Hl. destruct (round_total (service_target s) 2) as (tr & Hr).
  assert (M : Z.abs (Z.max (lead_time s) 1) <= max_int_float).
  { assert (1 <= max_int_float) by (apply Z.leb_le; vm_compute; reflexivity). lia. }
  destruct (float_of_int_fits _ M) as (l & El).
  rewrite (safety_stock_spec s tr l Hr El). red. eauto.
Qed.

Lemma reorder_point_fits s ss : Z.abs (demand s) <= max_int_float ->
  Z.abs (lead_time s) <= max_int_float -> returns (reorder_point s ss).
Proof.
  intros Hd Hl. unfold reorder_point.
  destruct (truediv_fits (demand s) (Z.max (lead_time s) 1) Hd ltac:(lia)) as (dd & E).
  rewrite E. cbv beta iota delta [bind].
  destruct (float_of_int_fits (lead_time s) Hl) as (l & El). rewrite El.
  cbv beta iota. red. eauto.
Qed.

(** Once the EOQ is computed nothing can fail. *)
Lemma run_after_eoq s gauss e : ints_fit s -> eoq s = Ok e ->
  returns (run_simulation s gauss).
Proof.
  intros [Hd Hl] Ee.
  assert (Hd1 : Z.abs (demand s) <= max_int_float) by lia.
  destruct (float_of_int_fits (demand s) Hd1) as (d & Ed).
  destruct (float_of_int_fits (lead_time s) Hl) as (l & El).
  destruct (safety_stock_fits s Hl) as (ss & Ess).
  destruct (reorder_point_fits s ss Hd1 Hl) as (rp & Erp).
  destruct (forecast_spec s d Ed) as (fc & Efc & _).
  destruct (prob_facts _ (events_range gauss (d + ss)%float)) as (p & r_p & fk & Ep & Erp3 & _).
  destruct (round_total (d * cost s)%float 2) as (r_tc & Er1).
  destruct (round_total (l * 0.5)%float 2) as (r_ed & Er2).
  destruct (round_total (service_level s) 3) as (r_sl & Er3).
  destruct (round_total e 2) as (r_e & Er4).
  destruct (round_total ss 2) as (r_ss & Er5).
  destruct (round_total rp 2) as (r_rp & Er6).
  unfold run_simulation, returns, total_cost, expected_delay, starting_inventory.
  rewrite Ed, El, Ee, Ess. cbv beta iota delta [bind].
  rewrite Erp, Efc. cbv beta iota.
  rewrite simulate_pure. cbv beta iota.
  rewrite avg_levels_spec. cbv beta iota.
  rewrite Ep. cbv beta iota.
  rewrite Er1, Er2, Er3, Er4, Er5, Er6, Erp3. cbv beta iota.
  eexists. reflexivity.
Qed.

(** An exception of the EOQ is the exception of the run. *)
Lemma run_eoq_raise s gauss e : ints_fit s -> eoq s = Raise e ->
  run_simulation s gauss = Raise e.
Proof.
  intros [Hd Hl] Ee.
  assert (Hd1 : Z.abs (demand s) <= max_int_float) by lia.
  destruct (float_of_int_fits (demand s) Hd1) as (d & Ed).
  destruct (float_of_int_fits (lead_time s) Hl) as (l & El).
  unfold run_simulation, total_cost, expected_delay.
  rewrite Ed, El, Ee. reflexivity.
Qed.

Lemma run_overflow s gauss : ~ ints_fit s ->
  run_simulation s gauss = Raise OverflowError.
Proof.
  intros H. unfold run_simulation, total_cost, expected_delay.
  destruct (Py.float_of_int (demand s)) as [d|e1] eqn:Ed;
    [|rewrite (float_of_int_raise _ _ Ed); reflexivity].
  cbv beta iota delta [bind].
  destruct (Py.float_of_int (lead_time s)) as [l|e2] eqn:El;
    [|rewrite (float_of_int_raise _ _ El); reflexivity].
  cbv beta iota.
  apply float_of_int_bound in El.
  assert (G : max_int_float < Z.abs (2 * demand s)).
  { unfold ints_fit in H. lia. }
  unfold eoq. rewrite (float_of_int_overflow _ G). reflexivity.
Qed.

(** The three outcomes of the run. *)
Lemma run_cases s gauss :
  (~ ints_fit s /\ run_simulation s gauss = Raise OverflowError) \/
  (ints_fit s /\
   exists d2, Py.float_of_int (2 * demand s) = Ok d2 /\
     ((PrimFloat.ltb (eoq_radicand s d2) 0 = true /\
       run_simulation s gauss = Raise ValueError) \/
      (PrimFloat.ltb (eoq_radicand s d2) 0 = false /\
       returns (run_simulation s gauss)))).
Proof.
  assert (D : ints_fit s \/ ~ ints_fit s).
  { unfold ints_fit.
    destruct (Z_le_gt_dec (Z.abs (2 * demand s)) max_int_float);
      destruct (Z_le_gt_dec (Z.abs (lead_time s)) max_int_float); [left; lia | right; lia ..]. }
  destruct D as [F|F]; [right | left; split; [exact F | apply run_overflow; exact F]].
  split; [exact F|].
  destruct (float_of_int_fits _ (proj1 F)) as (d2 & E2). exists d2. split; [exact E2|].
  pose proof (eoq_sqrt s d2 E2) as Q. unfold Py.math_sqrt in Q.
  destruct (PrimFloat.ltb (eoq_radicand s d2) 0) eqn:L.
  - left. split; [reflexivity|]. apply run_eoq_raise; assumption.
  - right. split; [reflexivity|]. apply (run_after_eoq s gauss _ F Q).
Qed.

Lemma negative_cost_raises gauss :
  run_simulation ex_negative_cost gauss = Raise ValueError.
Proof. vm_compute. reflexivity. Qed.

(** X1: whatever the request and the draws, the run never raises
    ZeroDivisionError or IndexError: the only exceptions it can raise are
    OverflowError and ValueError. *)
Theorem X1_exceptions s gauss e :
  run_simulation s gauss = Raise e -> e = OverflowError \/ e = ValueError.
Proof.
  intros H.
  destruct (run_cases s gauss) as [[_ R]|(_ & d2 & _ & [[_ R]|[_ (resp & R)]])];
    rewrite R in H; try discriminate; injection H as <-; auto.
Qed.

Lemma X1_witness :
  run_simulation ex_negative_cost (gauss_const 0) = Raise ValueError /\
  (ValueError = OverflowError \/ ValueError = ValueError).
Proof.
  split; [apply negative_cost_raises|].
  apply (X1_exceptions ex_negative_cost (gauss_const 0) ValueError).
  apply negative_cost_raises.
Defined.

(** X2: the run raises OverflowError exactly when 2 * demand or lead_time is
    too large in absolute value to be converted to a float, that is above
    2^1024 - 2^970 - 1. *)
Theorem X2_overflow s gauss :
  run_simulation s gauss = Raise OverflowError
  <-> max_int_float < Z.abs (2 * demand s) \/ max_int_float < Z.abs (lead_time s).
Proof.
  split.
  - intros H.
    destruct (run_cases s gauss) as [[F _]|(_ & d2 & _ & [[_ R]|[_ (resp & R)]])];
      [|rewrite R in H; discriminate ..].
    unfold ints_fit in F. lia.
  - intros H. apply run_overflow. unfold ints_fit. lia.
Qed.

Lemma X2_witness :
  run_simulation (ex_scenario (2 ^ 1024) 10) (gauss_const 0) = Raise OverflowError.
Proof.
  apply (X2_overflow (ex_scenario (2 ^ 1024) 10) (gauss_const 0)).
  left. cbn [demand ex_scenario]. apply Z.ltb_lt. vm_compute. reflexivity.
Defined.

(** X3: when both integers fit, the run raises ValueError exactly when the
    quotient under the square root of the EOQ,
    2 * demand * ordering_cost / max(holding_cost, 0.0001), is negative, and
    it returns a response exactly when that quotient is not negative. *)
Theorem X3_value_error s gauss d2 :
  ints_fit s -> Py.float_of_int (2 * demand s) = Ok d2 ->
  (run_simulation s gauss = Raise ValueError
   <-> PrimFloat.ltb (eoq_radicand s d2) 0 = true) /\
  (returns (run_simulation s gauss)
   <-> PrimFloat.ltb (eoq_radicand s d2) 0 = false).
Proof.
  intros F E.
  destruct (run_cases s gauss) as [[NF _]|(_ & d2' & E' & C)]; [contradiction|].
  rewrite E in E'. apply Ok_inj in E'. subst d2'.
  destruct C as [[L R]|[L (resp & R)]]; rewrite L, R; split; split; intros H;
    try reflexivity; try discriminate.
  - destruct H as (resp & H). discriminate.
  - exists resp. reflexivity.
Qed.

Lemma X3_witness :
  run_simulation ex_negative_cost (gauss_const 0) = Raise ValueError.
Proof.
  apply (X3_value_error ex_negative_cost (gauss_const 0) 200%float).
  - unfold ints_fit. cbn [demand lead_time ex_negative_cost].
    split; apply Z.leb_le; vm_compute; reflexivity.
  - vm_compute. reflexivity.
  - vm_compute. reflexivity.
Defined.

(** ** The service level and the shape of the response *)

Lemma service_level_rule s : service_level s = service_rule (scenario_type s).
Proof.
  unfold service_level, service_rule, service_map. cbn [dict_get].
  rewrite (String.eqb_sym "optimistic"), (String.eqb_sym "pessimistic"),
    (String.eqb_sym "base").
  destruct (String.eqb (Py.lower (scenario_type s)) "optimistic"); [reflexivity|].
  destruct (String.eqb (Py.lower (scenario_type s)) "base") eqn:B.
  - apply String.eqb_eq in B. rewrite B. reflexivity.
  - reflexivity.
Qed.

Lemma service_rule_round ty : Py.round (service_rule ty) 3 = Ok (service_rule ty).
Proof.
  unfold service_rule.
  destruct (String.eqb (Py.lower ty) "optimistic"); [vm_compute; reflexivity|].
  destruct (String.eqb (Py.lower ty) "pessimistic"); vm_compute; reflexivity.
Qed.

(** X4: the service level of the response is 0.98 for the type optimistic,
    0.9 for pessimistic and 0.95 for base and for every unrecognized type,
    the type being compared in lower case; rounding to 3 decimals leaves
    these values unchanged. *)
Theorem X4_service_level s gauss resp :
  run_simulation s gauss = Ok resp ->
  field resp "service_level" = Some (VFloat (service_rule (scenario_type s))).
Proof.
  intros H. apply run_simulation_inv in H.
  destruct H as (tc & ed & e & ss & rp & fc & start & avg & p & r_tc & r_ed & r_sl
                 & r_e & r_ss & r_rp & r_p & H).
  destruct H as (_ & _ & _ & _ & _ & _ & _ & _ & _ & _ & _ & _ & Hr & _ & _ & _ & _ & ->).
  rewrite service_level_rule, service_rule_round in Hr. apply Ok_inj in Hr. subst r_sl.
  reflexivity.
Qed.

Lemma X4_witness :
  exists resp, run_simulation ex_optimistic (gauss_const 99.9) = Ok resp /\
               field resp "service_level" = Some (VFloat 0.98).
Proof.
  assert (E : exists resp, run_simulation ex_optimistic (gauss_const 99.9) = Ok resp).
  { eexists. vm_compute. reflexivity. }
  destruct E as (resp & E). exists resp. split; [exact E|].
  apply (X4_service_level ex_optimistic (gauss_const 99.9) resp E).
Defined.

(** X5: the average and both bands of the response have exactly 12
    entries, one per period. *)
Theorem X5_band_lengths s gauss resp :
  run_simulation s gauss = Ok resp ->
  exists avg lower upper,
    field resp "inventory_avg" = Some (VList avg) /\
    field resp "inventory_lower" = Some (VList lower) /\
    field resp "inventory_upper" = Some (VList upper) /\
    List.length avg = 12%nat /\ List.length lower = 12%nat /\
    List.length upper = 12%nat.
Proof.
  intros H. destruct (run_fields _ _ _ H) as (ss & start & _ & _ & _ & F1 & F2 & F3).
  destruct (runs_pure_ok gauss start num_runs) as (L1 & L2 & L3).
  eexists. eexists. eexists. split; [exact F1|]. split; [exact F2|]. split; [exact F3|].
  rewrite length_map. split; [exact L1|]. split; [exact L2 | exact L3].
Qed.

Lemma X5_witness :
  exists resp avg,
    run_simulation (ex_scenario 100 10) (gauss_const 99.9) = Ok resp /\
    field resp "inventory_avg" = Some (VList avg) /\ List.length avg = 12%nat.
Proof.
  assert (E : exists resp, run_simulation (ex_scenario 100 10) (gauss_const 99.9) = Ok resp).
  { eexists. vm_compute. reflexivity. }
  destruct E as (resp & E). exists resp.
  destruct (X5_band_lengths _ _ _ E) as (avg & lower & upper & F1 & _ & _ & L & _).
  exists avg. split; [exact E|]. split; [exact F1 | exact L].
Defined.

(** ** The draws that the run reads *)

Lemma draws_agree g g' c n : (forall i, (i < n)%nat -> g (c + i)%nat = g' (c + i)%nat) ->
  draws g c n = draws g' c n.
Proof.
  intros H. unfold draws. apply map_ext_in. intros i Hi.
  apply in_seq in Hi. rewrite H by lia. reflexivity.
Qed.

Lemma runs_pure_agree g g' start n : agree_upto (n * horizon) g g' ->
  runs_pure g start n = runs_pure g' start n.
Proof.
  induction n as [|n IH]; intros H; [reflexivity|].
  cbn [runs_pure]. rewrite <- IH by (intros k Hk; apply H; lia).
  unfold run_pure. rewrite runs_pure_calls.
  rewrite (draws_agree g g' (n * horizon) horizon); [reflexivity|].
  intros i Hi. apply H. lia.
Qed.

(** X6: the run reads exactly the first 3600 draws of the random source:
    two sources that agree on them give the same outcome. *)
Theorem X6_first_draws s g g' :
  agree_upto 3600 g g' -> run_simulation s g = run_simulation s g'.
Proof.
  intros H. unfold run_simulation.
  destruct (total_cost s) as [tc|]; cbv beta iota delta [bind]; [|reflexivity].
  destruct (expected_delay s) as [ed|]; cbv beta iota; [|reflexivity].
  destruct (eoq s) as [e|]; cbv beta iota; [|reflexivity].
  destruct (safety_stock s) as [ss|]; cbv beta iota; [|reflexivity].
  destruct (reorder_point s ss) as [rp|]; cbv beta iota; [|reflexivity].
  destruct (forecast s) as [fc|]; cbv beta iota; [|reflexivity].
  destruct (starting_inventory s ss) as [start|]; cbv beta iota; [|reflexivity].
  rewrite !simulate_pure.
  rewrite (runs_pure_agree g g' start num_runs H). reflexivity.
Qed.

Lemma X6_witness :
  run_simulation (ex_scenario 100 10) gauss_late
  = run_simulation (ex_scenario 100 10) (gauss_const 99.9).
Proof.
  apply (X6_first_draws (ex_scenario 100 10) gauss_late (gauss_const 99.9)).
  intros k Hk. unfold gauss_late, gauss_const.
  destruct (Nat.ltb_spec k 3600); [reflexivity | lia].
Defined.

(** ** A starting inventory that is not positive *)

Lemma level_step_nonpos iv d : finite iv -> F2Z iv <= 0 -> is_draw d ->
  level_step iv d = int_zero /\ stockout iv d = true.
Proof.
  intros [N B] L [Nd Bd].
  destruct (sub_ord iv d N Nd B Bd) as (Ns & Us & _).
  assert (E : PrimFloat.leb (iv - d) 0 = true).
  { rewrite (leb_ord (iv - d) 0 Ns fnan_zero), F2Z_zero. apply Z.leb_le. lia. }
  unfold level_step, stockout. cbv zeta. rewrite E. split; reflexivity.
Qed.

Lemma path_nonpos iv ds : finite iv -> F2Z iv <= 0 -> Forall is_draw ds ->
  Forall (fun x => x = int_zero) (path_from iv ds) /\
  count_true (stockouts_from iv ds) = Z.of_nat (List.length ds).
Proof.
  intros F L H. destruct H as [|d ds Hd Hds]; [split; [constructor | reflexivity]|].
  destruct (level_step_nonpos iv d F L Hd) as [E1 E2].
  cbn [path_from stockouts_from count_true List.length]. rewrite E1, E2.
  destruct (zero_absorbing ds Hds) as (P & _ & C).
  split; [constructor; [reflexivity | exact P]|]. rewrite C. lia.
Qed.

Lemma level_nonpos gauss start run t : finite start -> F2Z start <= 0 ->
  (t < horizon)%nat -> level gauss start run t = int_zero.
Proof.
  intros F L Ht.
  destruct (path_nonpos start (run_draws gauss run) F L (draws_are_draws _ _ _)) as [P _].
  unfold level. fold (run_path gauss start run) in P.
  rewrite Forall_forall in P. apply P. apply nth_In. rewrite run_path_length. exact Ht.
Qed.

Lemma sum_counts_nonpos gauss start n : finite start -> F2Z start <= 0 ->
  sum_counts gauss start n = Z.of_nat n * Z.of_nat horizon.
Proof.
  intros F L. induction n as [|n IH]; [reflexivity|].
  cbn [sum_counts]. rewrite IH.
  destruct (path_nonpos start (run_draws gauss n) F L (draws_are_draws _ _ _)) as [_ C].
  unfold run_stockouts. rewrite C, run_draws_length. lia.
Qed.

Lemma fold_add_zeros l : Forall (fun x => x = int_zero) l ->
  fold_left PrimFloat.add l 0%float = 0%float.
Proof.
  induction 1 as [|x l Hx Hl IH]; [reflexivity|].
  cbn [fold_left]. rewrite Hx. exact IH.
Qed.

Lemma column_zeros gauss start t n :
  (forall run, level gauss start run t = int_zero) ->
  Forall (fun x => x = int_zero) (column gauss start t n).
Proof.
  intros H. unfold column. apply Forall_forall. intros x Hx.
  apply in_map_iff in Hx. destruct Hx as (r & <- & _). apply H.
Qed.

Lemma column_elem gauss start t n x : In x (column gauss start t n) ->
  exists run, (run < n)%nat /\ x = level gauss start run t.
Proof.
  unfold column. intros H. apply in_map_iff in H. destruct H as (r & <- & Hr).
  apply in_seq in Hr. exists r. split; [lia | reflexivity].
Qed.

(** X7: when the starting inventory demand + safety_stock is finite and not
    positive (for instance demand = 0 and demand_std = 0), every period of
    every run is a stockout whatever the draws: the response has
    stockout_probability 1.0, risk_level "high", and the average and both
    bands are 0 in every period. *)
Theorem X7_empty_start s gauss resp ss start :
  run_simulation s gauss = Ok resp ->
  safety_stock s = Ok ss -> starting_inventory s ss = Ok start ->
  finite start -> fle start 0 ->
  field resp "stockout_probability" = Some (VFloat 1) /\
  field resp "risk_level" = Some (VStr "high") /\
  exists avg lower upper,
    field resp "inventory_avg" = Some (VList avg) /\
    field resp "inventory_lower" = Some (VList lower) /\
    field resp "inventory_upper" = Some (VList upper) /\
    forall t, (t < horizon)%nat ->
      nth t avg 0%float = 0%float /\ nth t lower 0%float = 0%float /\
      nth t upper 0%float = 0%float.
Proof.
  intros H Hss Hst Hfin Hle.
  assert (L : F2Z start <= 0).
  { destruct (leb_true_inv _ _ Hle) as (_ & _ & L). rewrite F2Z_zero in L. exact L. }
  apply run_simulation_inv in H.
  destruct H as (tc & ed & e & ss' & rp & fc & start' & avg & p & r_tc & r_ed & r_sl
                 & r_e & r_ss & r_rp & r_p & H).
  destruct H as (_ & _ & _ & Hss' & _ & _ & Hst' & _ & -> & Hp & _ & _ & _ & _ & _ & _ & Hr & ->).
  rewrite Hss in Hss'. apply Ok_inj in Hss'. subst ss'.
  rewrite Hst in Hst'. apply Ok_inj in Hst'. subst start'.
  rewrite events_sum, (sum_counts_nonpos gauss start num_runs Hfin L) in Hp.
  assert (Ep : p = 1%float).
  { apply Ok_inj. rewrite <- Hp. vm_compute. reflexivity. }
  subst p.
  assert (Er : r_p = 1%float).
  { apply Ok_inj. rewrite <- Hr. vm_compute. reflexivity. }
  subst r_p.
  split; [reflexivity|]. split; [reflexivity|].
  eexists. eexists. eexists. split; [reflexivity|]. split; [reflexivity|].
  split; [reflexivity|].
  intros t Ht. destruct (band_values gauss start t Ht) as (E1 & E2 & E3).
  pose proof (column_zeros gauss start t num_runs
                (fun run => level_nonpos gauss start run t Hfin L Ht)) as Z.
  split; [|split].
  - rewrite E3, (fold_add_zeros _ Z). vm_compute. reflexivity.
  - destruct (lower_spec gauss start Hfin t Ht) as (_ & I & _).
    rewrite Forall_forall in Z. apply (Z _ I).
  - destruct (upper_spec gauss start Hfin t Ht) as (_ & I & _).
    rewrite Forall_forall in Z. apply (Z _ I).
Qed.

Lemma finite_zero : finite 0%float.
Proof. split; [reflexivity|]. split; vm_compute; reflexivity. Qed.

Lemma X7_witness :
  exists resp,
    run_simulation (ex_scenario 0 0) (gauss_const 99.9) = Ok resp /\
    field resp "stockout_probability" = Some (VFloat 1) /\
    field resp "risk_level" = Some (VStr "high").
Proof.
  assert (E : exists resp, run_simulation (ex_scenario 0 0) (gauss_const 99.9) = Ok resp).
  { eexists. vm_compute. reflexivity. }
  destruct E as (resp & E). exists resp. split; [exact E|].
  assert (S1 : safety_stock (ex_scenario 0 0) = Ok 0%float) by (vm_compute; reflexivity).
  assert (S2 : starting_inventory (ex_scenario 0 0) 0 = Ok 0%float) by (vm_compute; reflexivity).
  destruct (X7_empty_start _ _ _ _ _ E S1 S2 finite_zero eq_refl) as (P & R & _).
  split; assumption.
Defined.

(** ** Stockouts and the lower band *)

Lemma before_finite gauss start run t : finite start -> (t < horizon)%nat ->
  finite (before gauss start run t).
Proof.
  intros F Ht. destruct t as [|t]; [exact F|].
  apply is_level_finite. apply level_is_level; [exact F | lia].
Qed.

Lemma demand_real_draw gauss run t : is_draw (demand_real gauss run t).
Proof. unfold demand_real. apply max0_ord. Qed.

Lemma cell_no_stockout gauss start run t : finite start -> (t < horizon)%nat ->
  nth t (run_stockouts gauss start run) false = false ->
  0 < F2Z (level gauss start run t).
Proof.
  intros F Ht H. destruct (cell_rule gauss start run t Ht) as [C1 C2].
  rewrite C2 in H. rewrite C1.
  destruct (before_finite gauss start run t F Ht) as [N B].
  destruct (demand_real_draw gauss run t) as [Nd Bd].
  destruct (sub_ord _ _ N Nd B Bd) as (Ns & _ & _).
  unfold stockout in H. unfold level_step. cbv zeta. rewrite H.
  rewrite (leb_ord _ 0 Ns fnan_zero), F2Z_zero in H. apply Z.leb_gt in H. exact H.
Qed.

Lemma cell_stockout gauss start run t : (t < horizon)%nat ->
  nth t (run_stockouts gauss start run) false = true ->
  level gauss start run t = int_zero.
Proof.
  intros Ht H. destruct (cell_rule gauss start run t Ht) as [C1 C2].
  rewrite C2 in H. rewrite C1. apply stockout_level. exact H.
Qed.

Lemma count_true_zero bs : count_true bs = 0 ->
  forall i, nth i bs false = false.
Proof.
  induction bs as [|b bs IH]; intros H i; [destruct i; reflexivity|].
  cbn [count_true] in H. pose proof (count_true_bounds bs) as B.
  destruct b; [lia|]. destruct i as [|i]; [reflexivity|]. apply IH. lia.
Qed.

Lemma count_true_pos bs i : nth i bs false = true -> 0 < count_true bs.
Proof.
  revert i. induction bs as [|b bs IH]; intros i H; [destruct i; discriminate|].
  cbn [count_true]. pose proof (count_true_bounds bs) as B.
  destruct i as [|i]; [cbn in H; subst b; lia|].
  specialize (IH i H). destruct b; lia.
Qed.

Lemma sum_counts_zero gauss start n : sum_counts gauss start n = 0 ->
  forall run, (run < n)%nat -> count_true (run_stockouts gauss start run) = 0.
Proof.
  induction n as [|n IH]; intros H run Hr; [lia|].
  cbn [sum_counts] in H.
  pose proof (sum_counts_bounds gauss start n) as B1.
  pose proof (count_true_bounds (run_stockouts gauss start n)) as B2.
  destruct (Nat.eq_dec run n) as [->|Ne]; [lia|]. apply IH; lia.
Qed.

Lemma sum_counts_pos gauss start n run : (run < n)%nat ->
  0 < count_true (run_stockouts gauss start run) -> 0 < sum_counts gauss start n.
Proof.
  induction n as [|n IH]; intros Hr H; [lia|].
  cbn [sum_counts].
  pose proof (sum_counts_bounds gauss start n) as B1.
  pose proof (count_true_bounds (run_stockouts gauss start n)) as B2.
  destruct (Nat.eq_dec run n) as [->|Ne]; [lia|].
  specialize (IH ltac:(lia) H). lia.
Qed.

Lemma count_true_witness bs : count_true bs <> 0 ->
  exists t, (t < List.length bs)%nat /\ nth t bs false = true.
Proof.
  induction bs as [|b bs IH]; intros C; [cbn in C; lia|].
  destruct b.
  - exists O. split; [cbn; lia | reflexivity].
  - cbn [count_true] in C. destruct (IH ltac:(lia)) as (t & Ht & Hs).
    exists (S t). split; [cbn; lia | exact Hs].
Qed.

Lemma sum_counts_witness gauss start n : 0 < sum_counts gauss start n ->
  exists run t, (run < n)%nat /\ (t < horizon)%nat /\
    nth t (run_stockouts gauss start run) false = true.
Proof.
  induction n as [|n IH]; cbn [sum_counts]; intros Hn; [lia|].
  destruct (Z.eq_dec (count_true (run_stockouts gauss start n)) 0) as [C0|C1].
  - destruct (IH ltac:(lia)) as (run & t & Hr & Ht & Hs).
    exists run, t. split; [lia|]. split; assumption.
  - destruct (count_true_witness _ C1) as (t & Ht & Hs).
    rewrite run_stockouts_length in Ht.
    exists n, t. split; [lia|]. split; assumption.
Qed.

Lemma F2Z_int_zero : F2Z int_zero = 0.
Proof. reflexivity. Qed.

(** The lower band of the last period is positive exactly when no period
    of no run is a stockout. *)
Lemma last_lower_events gauss start : finite start ->
  let lo := nth 11 (min_levels (runs_pure gauss start num_runs)) 0%float in
  (flt 0 lo <-> sum_counts gauss start num_runs = 0) /\
  (lo = int_zero <-> 0 < sum_counts gauss start num_runs).
Proof.
  intros F. cbv zeta.
  assert (H11 : (11 < horizon)%nat) by (unfold horizon; lia).
  destruct (lower_spec gauss start F 11%nat H11) as ([Nl Bl] & I & A).
  remember (nth 11 (min_levels (runs_pure gauss start num_runs)) 0%float) as lo eqn:Elo.
  clear Elo.
  destruct (column_elem _ _ _ _ _ I) as (r0 & Hr0 & E0).
  pose proof (sum_counts_bounds gauss start num_runs) as SB.
  assert (P1 : sum_counts gauss start num_runs = 0 -> 0 < F2Z lo).
  { intros Z. rewrite E0. apply cell_no_stockout; [exact F | exact H11|].
    apply count_true_zero. apply (sum_counts_zero gauss start num_runs Z r0 Hr0). }
  assert (P2 : 0 < F2Z lo -> sum_counts gauss start num_runs = 0).
  { intros Hp. destruct (Z.eq_dec (sum_counts gauss start num_runs) 0) as [Z|NZ]; [exact Z|].
    exfalso.
    destruct (sum_counts_witness gauss start num_runs ltac:(lia)) as (run & t & Hr & Ht & Hs).
    pose proof (cell_stockout gauss start run t Ht Hs) as Z0.
    assert (Ht11 : (t <= 11 < horizon)%nat) by (unfold horizon in *; lia).
    pose proof (level_zero_stays gauss start run t 11 Ht11 Z0) as Z11.
    pose proof (A run Hr) as Al. rewrite Z11, F2Z_int_zero in Al. lia. }
  assert (P3 : lo = int_zero \/ 0 < F2Z lo).
  { rewrite E0.
    destruct (nth 11 (run_stockouts gauss start r0) false) eqn:S11.
    - left. apply cell_stockout; [exact H11 | exact S11].
    - right. apply cell_no_stockout; [exact F | exact H11 | exact S11]. }
  split.
  - split.
    + intros Hlt. apply P2. destruct (ltb_true_inv _ _ Hlt) as (_ & _ & L).
      rewrite F2Z_zero in L. exact L.
    + intros Z. unfold flt. rewrite (ltb_ord 0 lo fnan_zero Nl), F2Z_zero.
      apply Z.ltb_lt. apply P1. exact Z.
  - split.
    + intros E. destruct (Z.eq_dec (sum_counts gauss start num_runs) 0) as [Z|NZ]; [|lia].
      apply P1 in Z. rewrite E, F2Z_int_zero in Z. lia.
    + intros Hp. destruct P3 as [E|Q]; [exact E|]. apply P2 in Q. lia.
Qed.

(** X8: when the starting inventory is finite, the lower band of the last
    period is positive exactly when no stockout event was counted, and it is
    0 exactly when at least one was; when it is positive the response has
    stockout_probability 0.0 and risk_level "low". *)
Theorem X8_last_lower_band s gauss resp ss start :
  run_simulation s gauss = Ok resp ->
  safety_stock s = Ok ss -> starting_inventory s ss = Ok start ->
  finite start ->
  exists lower,
    field resp "inventory_lower" = Some (VList lower) /\
    (flt 0 (nth 11 lower 0%float) <-> sum_counts gauss start num_runs = 0) /\
    (nth 11 lower 0%float = 0%float <-> 0 < sum_counts gauss start num_runs) /\
    (flt 0 (nth 11 lower 0%float) ->
       field resp "stockout_probability" = Some (VFloat 0) /\
       field resp "risk_level" = Some (VStr "low")).
Proof.
  intros H Hss Hst Hfin.
  apply run_simulation_inv in H.
  destruct H as (tc & ed & e & ss' & rp & fc & start' & avg & p & r_tc & r_ed & r_sl
                 & r_e & r_ss & r_rp & r_p & H).
  destruct H as (_ & _ & _ & Hss' & _ & _ & Hst' & _ & -> & Hp & _ & _ & _ & _ & _ & _ & Hr & ->).
  rewrite Hss in Hss'. apply Ok_inj in Hss'. subst ss'.
  rewrite Hst in Hst'. apply Ok_inj in Hst'. subst start'.
  destruct (last_lower_events gauss start Hfin) as [L1 L2].
  eexists. split; [reflexivity|]. split; [exact L1|]. split; [exact L2|].
  intros Hpos. apply L1 in Hpos.
  rewrite events_sum, Hpos in Hp.
  assert (Ep : p = 0%float).
  { apply Ok_inj. rewrite <- Hp. vm_compute. reflexivity. }
  subst p.
  assert (Er : r_p = 0%float).
  { apply Ok_inj. rewrite <- Hr. vm_compute. reflexivity. }
  subst r_p. split; reflexivity.
Qed.

Lemma X8_witness :
  exists resp lower,
    run_simulation (ex_scenario 100 100) gauss_359 = Ok resp /\
    field resp "inventory_lower" = Some (VList lower) /\
    nth 11 lower 0%float = 0%float.
Proof.
  assert (E : exists resp, run_simulation (ex_scenario 100 100) gauss_359 = Ok resp).
  { eexists. vm_compute. reflexivity. }
  destruct E as (resp & E). exists resp.
  assert (S1 : safety_stock (ex_scenario 100 100) = Ok 330%float) by (vm_compute; reflexivity).
  assert (S2 : starting_inventory (ex_scenario 100 100) 330 = Ok 430%float) by (vm_compute; reflexivity).
  assert (Fn : finite 430%float) by (split; [reflexivity | split; vm_compute; reflexivity]).
  destruct (X8_last_lower_band _ _ _ _ _ E S1 S2 Fn) as (lower & F & _ & W & _).
  exists lower. split; [exact E|]. split; [exact F|].
  apply W. vm_compute. reflexivity.
Defined.

(** ** The label and the returned probability *)

Lemma label_table : forallb label_check (seq 0 3601) = true.
Proof. vm_compute. reflexivity. Qed.

Lemma label_check_at k : 0 <= k <= 3600 -> label_check (Z.to_nat k) = true.
Proof.
  intros H. pose proof label_table as T. rewrite forallb_forall in T.
  apply T. apply in_seq. lia.
Qed.

Lemma label_bounds k p r_p : 0 <= k <= 3600 ->
  stockout_probability k = Ok p -> Py.round p 3 = Ok r_p ->
  (risk_level p = "low" \/ risk_level p = "medium" \/ risk_level p = "high") /\
  (risk_level p = "low" -> fle r_p 0.1) /\
  (risk_level p = "medium" -> fle 0.1 r_p /\ fle r_p 0.3) /\
  (risk_level p = "high" -> fle 0.3 r_p).
Proof.
  intros B Hp Hr.
  destruct (prob_facts k B) as (p' & r' & fk & E1 & _ & _ & _ & _ & _ & _ & _ & G1 & G2).
  rewrite Hp in E1. apply Ok_inj in E1. subst p'.
  pose proof (label_check_at k B) as C. unfold label_check in C.
  rewrite Z2Nat.id in C by lia. rewrite Hp, Hr in C.
  unfold risk_level. rewrite G1, G2.
  destruct (Z.ltb_spec k 360) as [L1|L1].
  - replace (Nat.ltb (Z.to_nat k) 360) with true in C by (symmetry; apply Nat.ltb_lt; lia).
    split; [auto|]. split; [intros _; exact C|]. split; intros D; discriminate.
  - replace (Nat.ltb (Z.to_nat k) 360) with false in C by (symmetry; apply Nat.ltb_ge; lia).
    destruct (Z.ltb_spec k 1080) as [L2|L2].
    + replace (Nat.ltb (Z.to_nat k) 1080) with true in C by (symmetry; apply Nat.ltb_lt; lia).
      apply andb_prop in C. split; [auto|]. split; [intros D; discriminate|].
      split; [intros _; exact C | intros D; discriminate].
    + replace (Nat.ltb (Z.to_nat k) 1080) with false in C by (symmetry; apply Nat.ltb_ge; lia).
      split; [auto|]. split; [intros D; discriminate|].
      split; [intros D; discriminate | intros _; exact C].
Qed.

(** X9: the label agrees with the thresholds on the returned (rounded)
    probability up to the boundary: "low" implies returned <= 0.1, "medium"
    implies 0.1 <= returned <= 0.3, and "high" implies returned >= 0.3. *)
Theorem X9_label_bounds s gauss resp :
  run_simulation s gauss = Ok resp ->
  exists r_p label,
    field resp "stockout_probability" = Some (VFloat r_p) /\
    field resp "risk_level" = Some (VStr label) /\
    (label = "low" \/ label = "medium" \/ label = "high") /\
    (label = "low" -> fle r_p 0.1) /\
    (label = "medium" -> fle 0.1 r_p /\ fle r_p 0.3) /\
    (label = "high" -> fle 0.3 r_p).
Proof.
  intros H. apply run_simulation_inv in H.
  destruct H as (tc & ed & e & ss & rp & fc & start & avg & p & r_tc & r_ed & r_sl
                 & r_e & r_ss & r_rp & r_p & H).
  destruct H as (_ & _ & _ & _ & _ & _ & _ & _ & _ & Hp & _ & _ & _ & _ & _ & _ & Hr & ->).
  exists r_p, (risk_level p). split; [reflexivity|]. split; [reflexivity|].
  exact (label_bounds _ p r_p (events_range gauss start) Hp Hr).
Qed.

Lemma risk_359 resp :
  run_simulation (ex_scenario 100 100) gauss_359 = Ok resp ->
  field resp "risk_level" = Some (VStr "low").
Proof.
  intros E.
  assert (R : exists resp', run_simulation (ex_scenario 100 100) gauss_359 = Ok resp' /\
                field resp' "risk_level" = Some (VStr "low")).
  { eexists. split; [vm_compute; reflexivity | reflexivity]. }
  destruct R as (resp' & R1 & R2). rewrite E in R1. apply Ok_inj in R1. subst resp'.
  exact R2.
Qed.

Lemma X9_witness :
  exists resp r_p,
    run_simulation (ex_scenario 100 100) gauss_359 = Ok resp /\
    field resp "stockout_probability" = Some (VFloat r_p) /\
    fle r_p 0.1.
Proof.
  assert (E : exists resp, run_simulation (ex_scenario 100 100) gauss_359 = Ok resp).
  { eexists. vm_compute. reflexivity. }
  destruct E as (resp & E). exists resp.
  destruct (X9_label_bounds _ _ _ E) as (r_p & label & F1 & F2 & _ & W & _).
  exists r_p. split; [exact E|]. split; [exact F1|].
  apply W. rewrite (risk_359 resp E) in F2. injection F2 as <-. reflexivity.
Defined.

(** X10: for demand >= 0 and demand_std >= 0, when the starting inventory
    demand + safety_stock is finite, no level of any run and no value of the
    lower or of the upper band exceeds the starting inventory. *)
Theorem X10_bands_below_start s gauss resp ss start :
  run_simulation s gauss = Ok resp ->
  safety_stock s = Ok ss -> starting_inventory s ss = Ok start ->
  0 <= demand s -> fle 0 (demand_std s) -> finite start ->
  (forall run t, (t < horizon)%nat -> fle (level gauss start run t) start) /\
  exists lower upper,
    field resp "inventory_lower" = Some (VList lower) /\
    field resp "inventory_upper" = Some (VList upper) /\
    forall t, (t < horizon)%nat ->
      fle (nth t lower 0%float) start /\ fle (nth t upper 0%float) start.
Proof.
  intros H Hss Hst Hd Hstd Hfin.
  pose proof (starting_nonneg s ss start Hd Hstd Hss Hst (proj1 Hfin)) as P0.
  destruct (run_fields _ _ _ H) as (ss' & start' & Hss' & Hst' & _ & _ & F2 & F3).
  rewrite Hss in Hss'. apply Ok_inj in Hss'. subst ss'.
  rewrite Hst in Hst'. apply Ok_inj in Hst'. subst start'.
  assert (L : forall run t, (t < horizon)%nat -> fle (level gauss start run t) start).
  { intros run t Ht.
    destruct (level_is_level gauss start run t Hfin Ht) as [N _].
    apply fle_of_ord; [exact N | exact (proj1 Hfin)|].
    pose proof (level_chain gauss start run 0 t Hfin ltac:(lia)).
    pose proof (level_first gauss start run Hfin). lia. }
  split; [exact L|].
  eexists. eexists. split; [exact F2|]. split; [exact F3|].
  intros t Ht.
  destruct (lower_spec gauss start Hfin t Ht) as (_ & Il & _).
  destruct (upper_spec gauss start Hfin t Ht) as (_ & Iu & _).
  destruct (column_elem _ _ _ _ _ Il) as (r1 & _ & ->).
  destruct (column_elem _ _ _ _ _ Iu) as (r2 & _ & ->).
  split; apply L; exact Ht.
Qed.

Lemma X10_witness :
  exists resp upper,
    run_simulation (ex_scenario 100 10) (gauss_const 99.9) = Ok resp /\
    field resp "inventory_upper" = Some (VList upper) /\
    fle (nth 0 upper 0%float) 133.
Proof.
  assert (E : exists resp, run_simulation (ex_scenario 100 10) (gauss_const 99.9) = Ok resp).
  { eexists. vm_compute. reflexivity. }
  destruct E as (resp & E). exists resp.
  assert (S1 : safety_stock (ex_scenario 100 10) = Ok 33%float) by (vm_compute; reflexivity).
  assert (S2 : starting_inventory (ex_scenario 100 10) 33 = Ok 133%float) by (vm_compute; reflexivity).
  assert (Hd : 0 <= demand (ex_scenario 100 10)) by (cbn; lia).
  assert (Hs : fle 0 (demand_std (ex_scenario 100 10))) by reflexivity.
  destruct (X10_bands_below_start _ _ _ _ _ E S1 S2 Hd Hs finite_133)
    as (_ & lower & upper & F1 & F2 & W).
  exists upper. split; [exact E|]. split; [exact F2|].
  apply (W O). unfold horizon. lia.
Defined.

(** ** Multiplication *)

(** An exact mantissa below the smallest exponent. *)
Lemma bra_low s m k : 0 <= m -> 0 < k ->
  binary_round_aux prec emax s m (-1074 - k) loc_Exact
  = encode s (round_units m (2 ^ k)).
Proof.
  intros Hm Hk.
  pose proof (pow2_gt0 k ltac:(lia)) as T.
  pose proof (bra_correct s m (2 ^ k) (-1074) Hm T ltac:(lia)
                ltac:(rewrite fexp_eq; lia)) as E.
  change (-1074 + 1074) with 0 in E. rewrite Z.pow_0_r, Z.mul_1_r in E.
  rewrite <- E. clear E.
  unfold binary_round_aux, shr_fexp.
  change (shr_record_of_loc m loc_Exact) with (Build_shr_record m false false).
  rewrite <- rec_of_exact.
  change (shr_record_of_loc (m / 2 ^ k) (loc_of (m mod 2 ^ k) (2 ^ k)))
    with (rec_of m (2 ^ k)).
  assert (C : fexp prec emax (Zdigits2 m + (-1074 - k))
              = fexp prec emax (Zdigits2 (m / 2 ^ k) + -1074)).
  { rewrite !fexp_eq.
    pose proof (digits_nonneg m) as D0.
    destruct (Z_lt_le_dec k (Zdigits2 m)) as [L|L].
    - assert (0 < m). { destruct (Z.eq_dec m 0) as [->|]; [simpl in L; lia | lia]. }
      destruct (trunc_digits m k ltac:(lia) ltac:(lia)) as [_ D]. rewrite D. lia.
    - assert (m / 2 ^ k = 0) as ->.
      { apply Z.div_small. split; [lia|].
        destruct (Z.eq_dec m 0) as [->|]; [lia|].
        destruct (digits_bounds m ltac:(lia)) as [_ B].
        pose proof (pow2_le (Zdigits2 m) k ltac:(lia)). lia. }
      simpl Zdigits2. lia. }
  set (c := fexp prec emax (Zdigits2 (m / 2 ^ k) + -1074)) in *.
  rewrite C.
  assert (Hc : -1074 <= c) by (unfold c; rewrite fexp_eq; lia).
  rewrite (shr_rec m 1) by lia.
  rewrite (shr_rec m (2 ^ k)) by lia.
  replace (-1074 - k + (c - (-1074 - k))) with c by lia.
  replace (-1074 + (c - -1074)) with c by lia.
  replace (1 * 2 ^ (c - (-1074 - k))) with (2 ^ k * 2 ^ (c - -1074)).
  - reflexivity.
  - rewrite <- pow2_add by lia. rewrite Z.mul_1_l. f_equal. lia.
Qed.

(** The product of two finite floats, in units. *)
Lemma SFmul_finite sx mx ex sy my ey :
  bounded prec emax mx ex = true -> bounded prec emax my ey = true ->
  let r := SFmul prec emax (S754_finite sx mx ex) (S754_finite sy my ey) in
  let v := round_units ((Z.pos mx * 2 ^ (ex + 1074)) * (Z.pos my * 2 ^ (ey + 1074)))
                       (2 ^ 1074) in
  r = encode (xorb sx sy) v /\ valid_binary r = true /\ sf_nan r = false /\
  ord r = sgn (xorb sx sy) (Z.min v INF).
Proof.
  intros Bx By r v.
  destruct (bounded_inv _ _ Bx) as (Ex & Dx & Nx).
  destruct (bounded_inv _ _ By) as (Ey & Dy & Ny).
  assert (V0 : 0 <= v).
  { apply round_units_nonneg; [|apply pow2_gt0; lia].
    pose proof (pow2_gt0 (ex + 1074) ltac:(lia)). pose proof (pow2_gt0 (ey + 1074) ltac:(lia)). nia. }
  assert (Vi : round_units v 1 = v).
  { apply round_units_idem; [|apply pow2_gt0; lia].
    pose proof (pow2_gt0 (ex + 1074) ltac:(lia)). pose proof (pow2_gt0 (ey + 1074) ltac:(lia)). nia. }
  assert (R : r = encode (xorb sx sy) v).
  { unfold r, SFmul.
    change (Z.pos (mx * my)) with (Z.pos mx * Z.pos my).
    destruct (Z_le_gt_dec (-1074) (ex + ey)) as [L|G].
    - pose proof (bra_correct (xorb sx sy) (Z.pos mx * Z.pos my) 1 (ex + ey)
                    ltac:(lia) ltac:(lia) L) as B.
      rewrite Z.div_1_r, Z.mod_1_r in B. change (loc_of 0 1) with loc_Exact in B.
      rewrite B.
      + f_equal. unfold v.
        rewrite <- (round_units_scale (Z.pos mx * Z.pos my * 2 ^ (ex + ey + 1074)) 1 (2 ^ 1074))
          by (try apply pow2_gt0; try lia;
              pose proof (pow2_gt0 (ex + ey + 1074) ltac:(lia)); nia).
        f_equal; try lia.
        rewrite <- Z.mul_assoc, <- (pow2_add (ex + ey + 1074) 1074) by lia.
        replace (ex + ey + 1074 + 1074) with ((ex + 1074) + (ey + 1074)) by lia.
        rewrite (pow2_add (ex + 1074) (ey + 1074)) by lia. ring.
      + rewrite fexp_eq.
        assert (D : 53 <= Zdigits2 (Z.pos mx * Z.pos my)).
        { assert (Zdigits2 (Z.pos mx) = 53 \/ Zdigits2 (Z.pos my) = 53) as [D53|D53].
          { destruct (Z.eq_dec ex (-1074)); [right; apply Ny; lia | left; apply Nx; lia]. }
          - destruct (digits_bounds (Z.pos mx) ltac:(lia)) as [B1 _]. rewrite D53 in B1.
            pose proof (digits_ge_pow (Z.pos mx * Z.pos my) 52 ltac:(lia) ltac:(nia)). lia.
          - destruct (digits_bounds (Z.pos my) ltac:(lia)) as [B1 _]. rewrite D53 in B1.
            pose proof (digits_ge_pow (Z.pos mx * Z.pos my) 52 ltac:(lia) ltac:(nia)). lia. }
        lia.
    - replace (ex + ey) with (-1074 - (-1074 - (ex + ey))) by lia.
      rewrite bra_low by lia. f_equal. unfold v.
      set (k := -1074 - (ex + ey)).
      rewrite <- (round_units_scale (Z.pos mx * Z.pos my) (2 ^ k) (2 ^ (1074 - k)))
        by (try apply pow2_gt0; lia).
      f_equal.
      + replace (1074 - k) with ((ex + 1074) + (ey + 1074)) by (unfold k; lia).
        rewrite pow2_add by lia. ring.
      + rewrite <- pow2_add by lia. f_equal. lia. }
  split; [exact R|]. rewrite R.
  split; [apply encode_valid; exact V0|].
  split; [apply encode_nan|].
  rewrite (encode_ord _ _ V0 Vi). unfold sgn. reflexivity.
Qed.

Lemma SFmul_ord x y :
  valid_binary x = true -> valid_binary y = true ->
  sf_nan x = false -> sf_nan y = false ->
  0 <= ord x < INF -> 0 <= ord y < INF ->
  sf_nan (SFmul prec emax x y) = false /\
  ord (SFmul prec emax x y) = Z.min INF (round_units (ord x * ord y) (2 ^ 1074)).
Proof.
  intros Vx Vy Nx Ny Ox Oy. pose proof INF_pos as IP.
  assert (T : 0 < 2 ^ 1074) by (apply pow2_gt0; lia).
  destruct x as [sx|sx| |sx mx ex]; try discriminate;
    destruct y as [sy|sy| |sy my ey]; try discriminate;
    try (unfold ord in Ox; destruct sx; lia);
    try (unfold ord in Oy; destruct sy; lia).
  - split; [reflexivity|]. simpl. rewrite round_units_0 by lia. lia.
  - split; [reflexivity|]. cbn [SFmul]. unfold ord at 1 2.
    rewrite Z.mul_0_l, round_units_0 by lia. lia.
  - split; [reflexivity|]. cbn [SFmul]. unfold ord at 1 3.
    rewrite Z.mul_0_r, round_units_0 by lia. lia.
  - cbn [valid_binary] in Vx, Vy.
    pose proof (finite_ord_bounds _ _ Vx) as Bx. pose proof (finite_ord_bounds _ _ Vy) as By.
    assert (sx = false) as -> by (destruct sx; [unfold ord in Ox; cbv zeta in Ox; lia | reflexivity]).
    assert (sy = false) as -> by (destruct sy; [unfold ord in Oy; cbv zeta in Oy; lia | reflexivity]).
    destruct (SFmul_finite false mx ex false my ey Vx Vy) as (_ & _ & N & O).
    split; [exact N|]. rewrite O. unfold ord, sgn. cbn [xorb]. cbv zeta. lia.
Qed.

Lemma mul_ord x y :
  fnan x = false -> fnan y = false -> 0 <= F2Z x < INF -> 0 <= F2Z y < INF ->
  fnan (x * y)%float = false /\
  F2Z (x * y)%float = Z.min INF (round_units (F2Z x * F2Z y) (2 ^ 1074)).
Proof.
  intros. unfold fnan, F2Z. rewrite mul_spec.
  apply SFmul_ord; auto using Prim2SF_valid.
Qed.

(** A valid float of [v >= 0] units is a fixed point of the rounding. *)
Lemma F2Z_fix x : 0 <= F2Z x -> round_units (F2Z x) 1 = F2Z x.
Proof.
  unfold F2Z. pose proof (Prim2SF_valid x) as V.
  destruct (Prim2SF x) as [s|s| |s m e]; unfold ord; cbv zeta; intros H.
  - apply round_units_0. lia.
  - destruct s; [pose proof INF_pos; lia | apply round_units_INF].
  - apply round_units_0. lia.
  - cbn [valid_binary] in V. pose proof (finite_ord_bounds _ _ V).
    destruct s; [lia|]. apply valid_fix. exact V.
Qed.

Lemma mul_one_ord x : fnan x = false -> 0 <= F2Z x < INF ->
  fnan (x * 1)%float = false /\ F2Z (x * 1)%float = F2Z x.
Proof.
  intros N B.
  assert (T : 0 < 2 ^ 1074) by (apply pow2_gt0; lia).
  destruct (mul_ord x 1 N eq_refl B) as [N1 O1].
  { change (F2Z 1) with (2 ^ 1074). unfold INF. split; [lia|].
    apply Z.pow_lt_mono_r; lia. }
  split; [exact N1|]. rewrite O1.
  assert (E : round_units (F2Z x * F2Z 1) (2 ^ 1074) = F2Z x).
  { change (F2Z 1) with (2 ^ 1074).
    pose proof (round_units_scale (F2Z x) 1 (2 ^ 1074) ltac:(lia) ltac:(lia) T) as S.
    rewrite Z.mul_1_l in S. rewrite S. apply F2Z_fix. lia. }
  rewrite E. lia.
Qed.

(** ** [round] on floats that are not negative *)

Lemma round_ord x nd r : Py.round x nd = Ok r ->
  fnan x = false -> 0 <= F2Z x < INF ->
  fnan r = false /\ F2Z r = round_dec_units nd (F2Z x) /\ F2Z r < INF.
Proof.
  intros H N B. unfold round_dec_units.
  pose proof (pow10_pos nd) as P10. set (p10 := 10 ^ Z.of_nat nd) in *.
  assert (T : 0 < 2 ^ 1074) by (apply pow2_gt0; lia).
  pose proof INF_pos as IP.
  unfold Py.round in H. fold p10 in H.
  pose proof (Prim2SF_valid x) as V. unfold fnan, F2Z in N, B.
  change (F2Z x) with (ord (Prim2SF x)).
  destruct (Prim2SF x) as [s|s| |s m e] eqn:E; try discriminate.
  - apply Ok_inj in H. subst r. unfold fnan, F2Z. rewrite E.
    split; [reflexivity|]. unfold ord. rewrite Z.mul_0_l.
    rewrite ?Z.mul_0_l, round_units_0 by lia. lia.
  - unfold ord in B. destruct s; lia.
  - cbn [valid_binary] in V. pose proof (finite_ord_bounds _ _ V) as FB.
    destruct (bounded_inv _ _ V) as (Be & _ & _).
    assert (s = false) as -> by (destruct s; [unfold ord in B; cbv zeta in B; lia | reflexivity]).
    unfold ord in B |- *. cbv zeta in B.
    destruct (Z.leb_spec 0 e) as [Le|Le].
    + apply Ok_inj in H. subst r. unfold fnan, F2Z. rewrite E.
      split; [reflexivity|]. unfold ord. cbv zeta.
      split; [|lia].
      pose proof (pow2_gt0 e Le) as Te.
      set (ox := Z.pos m * 2 ^ (e + 1074)) in *.
      assert (K : ox = (Z.pos m * 2 ^ e) * 2 ^ 1074)
        by (unfold ox; rewrite (pow2_add e 1074) by lia; ring).
      assert (D : Py.div_half_even (ox * p10) (2 ^ 1074) = Z.pos m * 2 ^ e * p10).
      { rewrite K.
        replace (Z.pos m * 2 ^ e * 2 ^ 1074 * p10)
          with ((Z.pos m * 2 ^ e * p10) * 2 ^ 1074) by ring.
        apply dhe_exact; lia. }
      rewrite D.
      replace (Z.pos m * 2 ^ e * p10 * 2 ^ 1074) with (ox * p10) by (rewrite K; ring).
      pose proof (round_units_scale ox 1 p10 ltac:(lia) ltac:(lia) P10) as S.
      rewrite Z.mul_1_l in S. rewrite S.
      symmetry. apply valid_fix. exact V.
    + cbv zeta in H.
      assert (Hn : Py.div_half_even (Z.pos m * p10) (2 ^ (- e))
                   = Py.div_half_even (Z.pos m * 2 ^ (e + 1074) * p10) (2 ^ 1074)).
      { pose proof (pow2_gt0 (e + 1074) ltac:(lia)) as Te.
        pose proof (pow2_gt0 (- e) ltac:(lia)) as Tn.
        rewrite <- (dhe_scale (Z.pos m * p10) (2 ^ (- e)) (2 ^ (e + 1074))) by lia.
        f_equal; [ring|]. rewrite <- pow2_add by lia. f_equal. lia. }
      rewrite Hn in H.
      set (n := Py.div_half_even (Z.pos m * 2 ^ (e + 1074) * p10) (2 ^ 1074)) in *.
      assert (N0 : 0 <= n) by (apply dhe_nonneg; nia).
      destruct (Z.eqb_spec n 0) as [En|Nn].
      * apply Ok_inj in H. subst r. rewrite En.
        rewrite Z.mul_0_l, round_units_0 by lia.
        unfold fnan, F2Z. rewrite Prim2SF_SF2Prim by reflexivity.
        split; [reflexivity|]. split; [reflexivity | unfold ord; lia].
      * pose proof (div_core_correct false n 0 p10 0 ltac:(lia) ltac:(lia) ltac:(lia)) as C.
        destruct (SFdiv_core_binary prec emax n 0 p10 0) as [[mz ez] lz].
        rewrite C in H. change (0 - 0 + 1074) with 1074 in H.
        set (v := round_units (n * 2 ^ 1074) p10) in *.
        assert (V0 : 0 <= v) by (apply round_units_nonneg; nia).
        assert (VI : v < INF).
        { destruct (Z_lt_le_dec v INF) as [L|G]; [exact L|]. exfalso.
          destruct (proj2 (encode_inf false v V0) G) as (s' & Es). rewrite Es in H. discriminate. }
        destruct (encode_SF2Prim false v V0 ltac:(apply round_units_idem; nia) VI) as (P & N' & O).
        assert (r = SF2Prim (encode false v)) as ->.
        { destruct (encode false v) eqn:Ee; try (apply Ok_inj in H; auto). discriminate. }
        split; [exact N'|]. rewrite O. unfold sgn. split; [reflexivity | exact VI].
Qed.

Lemma round_inf x nd : F2Z x = INF -> fnan x = false -> Py.round x nd = Ok x.
Proof.
  intros O N. unfold Py.round. unfold F2Z, fnan in *.
  pose proof (Prim2SF_valid x) as V. pose proof INF_pos.
  destruct (Prim2SF x) as [s|s| |s m e]; try reflexivity.
  cbn [valid_binary] in V. pose proof (finite_ord_bounds _ _ V).
  unfold ord in O. cbv zeta in O. destruct s; lia.
Qed.

Lemma round_dec_units_mono nd u v : 0 <= u <= v ->
  round_dec_units nd u <= round_dec_units nd v.
Proof.
  intros H. unfold round_dec_units.
  pose proof (pow10_pos nd) as P10. set (p10 := 10 ^ Z.of_nat nd) in *.
  assert (T : 0 < 2 ^ 1074) by (apply pow2_gt0; lia).
  assert (D : Py.div_half_even (u * p10) (2 ^ 1074) <= Py.div_half_even (v * p10) (2 ^ 1074)).
  { apply dhe_mono; try lia; nia. }
  assert (D0 : 0 <= Py.div_half_even (u * p10) (2 ^ 1074)) by (apply dhe_nonneg; nia).
  apply round_units_mono; try lia; nia.
Qed.

(** [round] is monotone on the floats that are not negative. *)
Lemma round_mono x y nd rx ry :
  fnan x = false -> fnan y = false -> 0 <= F2Z x <= F2Z y ->
  Py.round x nd = Ok rx -> Py.round y nd = Ok ry ->
  fnan rx = false /\ fnan ry = false /\ 0 <= F2Z rx <= F2Z ry.
Proof.
  intros Nx Ny B Hx Hy. pose proof (F2Z_range y) as Ry. pose proof INF_pos.
  destruct (Z.eq_dec (F2Z y) INF) as [Ey|Ney].
  - rewrite (round_inf y nd Ey Ny) in Hy. apply Ok_inj in Hy. subst ry.
    destruct (Z.eq_dec (F2Z x) INF) as [Ex|Nex].
    + rewrite (round_inf x nd Ex Nx) in Hx. apply Ok_inj in Hx. subst rx.
      split; [exact Nx|]. split; [exact Ny|]. lia.
    + destruct (round_ord x nd rx Hx Nx ltac:(lia)) as (N1 & O1 & L1).
      split; [exact N1|]. split; [exact Ny|]. rewrite O1. split; [|lia].
      unfold round_dec_units. pose proof (pow10_pos nd).
      apply round_units_nonneg; [|lia].
      assert (0 <= Py.div_half_even (F2Z x * 10 ^ Z.of_nat nd) (2 ^ 1074)).
      { apply dhe_nonneg; [apply pow2_gt0; lia | nia]. }
      pose proof (pow2_gt0 1074 ltac:(lia)). nia.
  - destruct (round_ord x nd rx Hx Nx ltac:(lia)) as (N1 & O1 & L1).
    destruct (round_ord y nd ry Hy Ny ltac:(lia)) as (N2 & O2 & L2).
    split; [exact N1|]. split; [exact N2|]. rewrite O1, O2. split.
    + unfold round_dec_units. pose proof (pow10_pos nd).
      apply round_units_nonneg; [|lia].
      assert (0 <= Py.div_half_even (F2Z x * 10 ^ Z.of_nat nd) (2 ^ 1074)).
      { apply dhe_nonneg; [apply pow2_gt0; lia | nia]. }
      pose proof (pow2_gt0 1074 ltac:(lia)). nia.
    + apply round_dec_units_mono. lia.
Qed.

(** ** The trend of the forecast *)

Lemma factor_eq g t tf : Py.float_of_int (Z.of_nat t) = Ok tf ->
  (1 + g * tf)%float = factor g t.
Proof. intros E. unfold factor. rewrite E. reflexivity. Qed.

Lemma factor_first g : g = 0.02%float \/ g = (-0.02)%float \/ g = 0%float ->
  factor g 0 = 1%float.
Proof. intros [-> | [-> | ->]]; vm_compute; reflexivity. Qed.

Lemma factor_flat t : (t < 12)%nat -> factor 0 t = 1%float.
Proof.
  intros H. do 12 (destruct t as [|t]; [vm_compute; reflexivity|]). lia.
Qed.

Lemma factor_number g t : g = 0.02%float \/ g = (-0.02)%float \/ g = 0%float ->
  (t < 12)%nat -> nonneg_number (factor g t).
Proof.
  intros [-> | [-> | ->]] H; unfold nonneg_number;
    do 12 (destruct t as [|t];
           [split; [reflexivity|]; split; [apply Z.leb_le | apply Z.ltb_lt];
            vm_compute; reflexivity|]); lia.
Qed.

Lemma factor_up t : (S t < 12)%nat ->
  F2Z (factor 0.02 t) <= F2Z (factor 0.02 (S t)).
Proof.
  intros H.
  do 11 (destruct t as [|t]; [apply Z.leb_le; vm_compute; reflexivity|]). lia.
Qed.

Lemma factor_down t : (S t < 12)%nat ->
  F2Z (factor (-0.02) (S t)) <= F2Z (factor (-0.02) t).
Proof.
  intros H.
  do 11 (destruct t as [|t]; [apply Z.leb_le; vm_compute; reflexivity|]). lia.
Qed.

Lemma mul_mono d c1 c2 : nonneg_number d -> nonneg_number c1 -> nonneg_number c2 ->
  F2Z c1 <= F2Z c2 ->
  fnan (d * c1)%float = false /\ fnan (d * c2)%float = false /\
  0 <= F2Z (d * c1)%float <= F2Z (d * c2)%float.
Proof.
  intros [Nd Bd] [N1 B1] [N2 B2] L.
  destruct (mul_ord d c1 Nd N1 Bd B1) as [M1 O1].
  destruct (mul_ord d c2 Nd N2 Bd B2) as [M2 O2].
  assert (T : 0 < 2 ^ 1074) by (apply pow2_gt0; lia).
  pose proof INF_pos.
  split; [exact M1|]. split; [exact M2|]. rewrite O1, O2.
  assert (R0 : 0 <= round_units (F2Z d * F2Z c1) (2 ^ 1074)) by (apply round_units_nonneg; nia).
  assert (R : round_units (F2Z d * F2Z c1) (2 ^ 1074) <= round_units (F2Z d * F2Z c2) (2 ^ 1074)).
  { apply round_units_mono; try lia; nia. }
  lia.
Qed.

Lemma float_of_nonneg_number z d : 0 <= z -> Py.float_of_int z = Ok d -> nonneg_number d.
Proof.
  intros Hz E. destruct (float_of_int_inv z d E) as (N & B & P).
  split; [exact N|]. specialize (P Hz). lia.
Qed.

(** The float of an integer is a whole number of times 2^1074 units. *)
Lemma round_units_int z : 0 <= z ->
  exists K, 0 <= K /\ round_units (z * 2 ^ 1074) 1 = K * 2 ^ 1074.
Proof.
  intros Hz. unfold round_units. rewrite Z.div_1_r, Z.mul_1_l.
  assert (T : 0 < 2 ^ 1074) by (apply pow2_gt0; lia).
  set (k := Z.max 0 (Zdigits2 (z * 2 ^ 1074) - prec)).
  assert (Hk : 0 <= k) by (unfold k; lia).
  pose proof (pow2_gt0 k Hk) as Tk.
  destruct (Z_le_gt_dec k 1074) as [L|G].
  - exists z. split; [exact Hz|].
    replace (z * 2 ^ 1074) with ((z * 2 ^ (1074 - k)) * 2 ^ k) at 1
      by (rewrite <- Z.mul_assoc, <- pow2_add by lia; do 2 f_equal; lia).
    rewrite dhe_exact by lia.
    rewrite <- Z.mul_assoc, <- pow2_add by lia. do 2 f_equal. lia.
  - exists (Py.div_half_even (z * 2 ^ 1074) (2 ^ k) * 2 ^ (k - 1074)). split.
    + pose proof (dhe_nonneg (z * 2 ^ 1074) (2 ^ k) Tk ltac:(nia)).
      pose proof (pow2_gt0 (k - 1074) ltac:(lia)). nia.
    + rewrite <- Z.mul_assoc, <- pow2_add by lia. do 2 f_equal. lia.
Qed.

Lemma round_whole x nd r K : fnan x = false -> 0 <= K -> F2Z x = K * 2 ^ 1074 ->
  F2Z x < INF -> Py.round x nd = Ok r ->
  fnan r = false /\ F2Z r = F2Z x.
Proof.
  intros N HK E L H.
  assert (T : 0 < 2 ^ 1074) by (apply pow2_gt0; lia).
  destruct (round_ord x nd r H N ltac:(nia)) as (Nr & Or & _).
  split; [exact Nr|]. rewrite Or. unfold round_dec_units.
  pose proof (pow10_pos nd) as P10. set (p10 := 10 ^ Z.of_nat nd) in *.
  rewrite E.
  replace (K * 2 ^ 1074 * p10) with ((K * p10) * 2 ^ 1074) by ring.
  rewrite dhe_exact by lia.
  replace (K * p10 * 2 ^ 1074) with ((K * 2 ^ 1074) * p10) by ring.
  pose proof (round_units_scale (K * 2 ^ 1074) 1 p10 ltac:(nia) ltac:(lia) P10) as S.
  rewrite Z.mul_1_l in S. rewrite S. rewrite <- E. apply F2Z_fix. nia.
Qed.

Lemma float_of_int_whole z d : 0 <= z -> Py.float_of_int z = Ok d ->
  exists K, 0 <= K /\ F2Z d = K * 2 ^ 1074.
Proof.
  intros Hz E. pose proof (float_of_int_bound z d E) as B.
  destruct (float_of_int_ok z B) as (d' & E' & _ & O & _).
  rewrite E in E'. apply Ok_inj in E'. subst d'.
  replace (z <? 0) with false in O by (symmetry; apply Z.ltb_ge; lia).
  rewrite Z.abs_eq in O by lia. unfold sgn in O. rewrite O.
  apply round_units_int. exact Hz.
Qed.

Lemma growth_values s :
  growth s = 0.02%float \/ growth s = (-0.02)%float \/ growth s = 0%float.
Proof.
  rewrite growth_spec. unfold growth_rule.
  destruct (String.eqb _ "optimistic"); [auto|].
  destruct (String.eqb _ "pessimistic"); auto.
Qed.

Lemma growth_optimistic s : Py.lower (scenario_type s) = "optimistic" ->
  growth s = 0.02%float.
Proof. intros E. rewrite growth_spec. unfold growth_rule. rewrite E. reflexivity. Qed.

Lemma growth_pessimistic s : Py.lower (scenario_type s) = "pessimistic" ->
  growth s = (-0.02)%float.
Proof. intros E. rewrite growth_spec. unfold growth_rule. rewrite E. reflexivity. Qed.

Lemma growth_other s : Py.lower (scenario_type s) <> "optimistic" ->
  Py.lower (scenario_type s) <> "pessimistic" -> growth s = 0%float.
Proof.
  intros E1 E2. rewrite growth_spec. unfold growth_rule.
  apply String.eqb_neq in E1, E2. rewrite E1, E2. reflexivity.
Qed.

Lemma forecast_cell s d fc : forecast s = Ok fc -> Py.float_of_int (demand s) = Ok d ->
  forall t, (t < 12)%nat ->
    Py.round (d * factor (growth s) t)%float 2 = Ok (nth t fc 0%float).
Proof.
  intros Hf Hd t Ht. destruct (forecast_spec s d Hd) as (fc' & E & _ & P).
  rewrite Hf in E. apply Ok_inj in E. subst fc'.
  destruct (P t Ht) as (tf & Et & R). rewrite (factor_eq _ _ _ Et) in R. exact R.
Qed.

Lemma forecast_inv s gauss resp : run_simulation s gauss = Ok resp ->
  exists d fc, Py.float_of_int (demand s) = Ok d /\ forecast s = Ok fc /\
               field resp "forecast" = Some (VList fc).
Proof.
  intros H. pose proof H as H'. apply run_simulation_inv in H'.
  destruct H' as (tc & ed & e & ss & rp & fc & start & avg & p & r_tc & r_ed & r_sl
                 & r_e & r_ss & r_rp & r_p & H').
  destruct H' as (Htc & _ & _ & _ & _ & Hf & _).
  destruct (total_cost_inv s tc Htc) as (d & Hd).
  exists d, fc. split; [exact Hd|]. split; [exact Hf|].
  apply (field_forecast s gauss resp fc H Hf).
Qed.

Lemma forecast_step_le s d fc g t1 t2 : 0 <= demand s ->
  forecast s = Ok fc -> Py.float_of_int (demand s) = Ok d ->
  growth s = g -> g = 0.02%float \/ g = (-0.02)%float \/ g = 0%float ->
  (t1 < 12)%nat -> (t2 < 12)%nat -> F2Z (factor g t1) <= F2Z (factor g t2) ->
  fle (nth t1 fc 0%float) (nth t2 fc 0%float).
Proof.
  intros Hz Hf Hd Hg Vg H1 H2 L.
  pose proof (forecast_cell s d fc Hf Hd t1 H1) as R1.
  pose proof (forecast_cell s d fc Hf Hd t2 H2) as R2.
  rewrite Hg in R1, R2.
  pose proof (float_of_nonneg_number _ _ Hz Hd) as Nd.
  destruct (mul_mono d _ _ Nd (factor_number g t1 Vg H1) (factor_number g t2 Vg H2) L)
    as (M1 & M2 & B).
  destruct (round_mono _ _ 2 _ _ M1 M2 B R1 R2) as (N1 & N2 & Br).
  apply fle_of_ord; [exact N1 | exact N2 | lia].
Qed.

(** X11: for demand >= 0 the forecast never decreases from one period to
    the next when the type is optimistic, and never increases when it is
    pessimistic (the type being compared in lower case). *)
Theorem X11_forecast_trend s gauss resp :
  run_simulation s gauss = Ok resp -> 0 <= demand s ->
  exists fc,
    field resp "forecast" = Some (VList fc) /\
    forall t, (S t < 12)%nat ->
      (Py.lower (scenario_type s) = "optimistic" ->
         fle (nth t fc 0%float) (nth (S t) fc 0%float)) /\
      (Py.lower (scenario_type s) = "pessimistic" ->
         fle (nth (S t) fc 0%float) (nth t fc 0%float)).
Proof.
  intros H Hz. destruct (forecast_inv s gauss resp H) as (d & fc & Hd & Hf & F).
  exists fc. split; [exact F|]. intros t Ht. split; intros E.
  - apply (forecast_step_le s d fc 0.02%float t (S t) Hz Hf Hd (growth_optimistic s E));
      [auto | lia | lia | apply factor_up; exact Ht].
  - apply (forecast_step_le s d fc (-0.02)%float (S t) t Hz Hf Hd (growth_pessimistic s E));
      [auto | lia | lia | apply factor_down; exact Ht].
Qed.

Lemma X11_witness :
  exists resp fc,
    run_simulation ex_optimistic (gauss_const 99.9) = Ok resp /\
    field resp "forecast" = Some (VList fc) /\
    fle (nth 3 fc 0%float) (nth 4 fc 0%float).
Proof.
  assert (E : exists resp, run_simulation ex_optimistic (gauss_const 99.9) = Ok resp).
  { eexists. vm_compute. reflexivity. }
  destruct E as (resp & E). exists resp.
  assert (Hz : 0 <= demand ex_optimistic) by (cbn; lia).
  destruct (X11_forecast_trend _ _ _ E Hz) as (fc & F & W).
  exists fc. split; [exact E|]. split; [exact F|].
  destruct (W 3%nat ltac:(lia)) as [W1 _]. apply W1. reflexivity.
Defined.

Lemma float_of_int_units z d : 0 <= z -> Py.float_of_int z = Ok d ->
  F2Z d = round_units (z * 2 ^ 1074) 1.
Proof.
  intros Hz E. pose proof (float_of_int_bound z d E) as B.
  destruct (float_of_int_ok z B) as (d' & E' & _ & O & _).
  rewrite E in E'. apply Ok_inj in E'. subst d'.
  replace (z <? 0) with false in O by (symmetry; apply Z.ltb_ge; lia).
  rewrite Z.abs_eq in O by lia. exact O.
Qed.

(** X12: for demand >= 0 the first value of the forecast equals
    float(demand) for every scenario type, and for a type that is neither
    optimistic nor pessimistic all 12 values do: rounding to 2 decimals
    changes nothing. float(demand) is demand rounded to 53 significant
    bits, so for demand <= 2^53 these values are exactly demand. *)
Theorem X12_forecast_flat s gauss resp :
  run_simulation s gauss = Ok resp -> 0 <= demand s ->
  exists d fc,
    Py.float_of_int (demand s) = Ok d /\
    field resp "forecast" = Some (VList fc) /\
    F2Z d = round_units (demand s * 2 ^ 1074) 1 /\
    PrimFloat.eqb (nth 0 fc 0%float) d = true /\
    (demand s <= 2 ^ 53 -> float_is (nth 0 fc 0%float) (demand s)) /\
    (Py.lower (scenario_type s) <> "optimistic" ->
     Py.lower (scenario_type s) <> "pessimistic" ->
     forall t, (t < 12)%nat ->
       PrimFloat.eqb (nth t fc 0%float) d = true /\
       (demand s <= 2 ^ 53 -> float_is (nth t fc 0%float) (demand s))).
Proof.
  intros H Hz. destruct (forecast_inv s gauss resp H) as (d & fc & Hd & Hf & F).
  exists d, fc. split; [exact Hd|]. split; [exact F|].
  destruct (float_of_nonneg_number _ _ Hz Hd) as [Nd Bd].
  destruct (float_of_int_whole _ _ Hz Hd) as (K & HK & EK).
  pose proof (float_of_int_units _ _ Hz Hd) as U.
  split; [exact U|].
  assert (Flat : forall t, (t < 12)%nat -> factor (growth s) t = 1%float ->
                 PrimFloat.eqb (nth t fc 0%float) d = true /\
                 (demand s <= 2 ^ 53 -> float_is (nth t fc 0%float) (demand s))).
  { intros t Ht E1. pose proof (forecast_cell s d fc Hf Hd t Ht) as R.
    rewrite E1 in R.
    destruct (mul_one_ord d Nd Bd) as [N1 O1].
    destruct (round_whole _ 2 _ K N1 HK ltac:(rewrite O1; exact EK) ltac:(lia) R) as [Nr Or].
    split.
    - rewrite (eqb_ord _ _ Nr Nd), Or, O1. apply Z.eqb_refl.
    - intros Le. split; [exact Nr|]. rewrite Or, O1, U.
      apply round_units_fix; lia. }
  assert (First : factor (growth s) 0 = 1%float) by (apply factor_first; apply growth_values).
  split; [apply (Flat 0%nat ltac:(lia) First)|].
  split; [apply (Flat 0%nat ltac:(lia) First)|].
  intros E1 E2 t Ht. apply Flat; [exact Ht|].
  rewrite (growth_other s E1 E2). apply factor_flat. exact Ht.
Qed.

Lemma X12_witness :
  exists resp fc,
    run_simulation (ex_scenario 100 10) (gauss_const 99.9) = Ok resp /\
    field resp "forecast" = Some (VList fc) /\
    PrimFloat.eqb (nth 7 fc 0%float) 100 = true /\
    float_is (nth 7 fc 0%float) 100.
Proof.
  assert (E : exists resp, run_simulation (ex_scenario 100 10) (gauss_const 99.9) = Ok resp).
  { eexists. vm_compute. reflexivity. }
  destruct E as (resp & E). exists resp.
  assert (Hz : 0 <= demand (ex_scenario 100 10)) by (cbn; lia).
  destruct (X12_forecast_flat _ _ _ E Hz) as (d & fc & Hd & F & _ & _ & _ & W).
  exists fc. split; [exact E|]. split; [exact F|].
  assert (d = 100%float) as <-.
  { apply Ok_inj. rewrite <- Hd. vm_compute. reflexivity. }
  destruct (W ltac:(discriminate) ltac:(discriminate) 7%nat ltac:(lia)) as [W1 W2].
  split; [exact W1|]. apply W2. cbn. lia.
Defined.

(** ** The guard on the lead time *)

(** A valid finite float is the float of its units. *)
Lemma encode_finite s m e : bounded prec emax m e = true ->
  encode s (Z.pos m * 2 ^ (e + 1074)) = S754_finite s m e.
Proof.
  intros B. destruct (bounded_inv _ _ B) as (Be & D & Dn).
  pose proof (finite_ord_bounds _ _ B) as FB. unfold INF in FB.
  pose proof (pow2_gt0 (e + 1074) ltac:(lia)) as T.
  unfold encode.
  destruct (Z.eqb_spec (Z.pos m * 2 ^ (e + 1074)) 0) as [E0|_]; [lia|].
  destruct (Z.leb_spec (2 ^ 2098) (Z.pos m * 2 ^ (e + 1074))) as [L|_]; [lia|].
  cbv zeta. rewrite digits_shift by lia.
  assert (K : Z.max 0 (Zdigits2 (Z.pos m) + (e + 1074) - prec) = e + 1074).
  { unfold prec. pose proof (digits_pos (Z.pos m) ltac:(lia)).
    destruct (Z.eq_dec e (-1074)) as [->|Ne]; [lia|]. rewrite Dn by lia. lia. }
  rewrite K. rewrite Z.div_mul by lia. f_equal. unfold emin, emax, prec. lia.
Qed.

Lemma SFmul_one x : valid_binary x = true ->
  SFmul prec emax x (Prim2SF 1) = x.
Proof.
  intros V. change (Prim2SF 1) with (S754_finite false 4503599627370496 (-52)).
  destruct x as [s|s| |s m e];
    try (cbn [SFmul]; rewrite ?xorb_false_r; reflexivity).
  cbn [valid_binary] in V.
  assert (B1 : bounded prec emax 4503599627370496 (-52) = true) by reflexivity.
  destruct (SFmul_finite s m e false 4503599627370496 (-52) V B1) as (R & _).
  rewrite R. rewrite xorb_false_r.
  pose proof (finite_ord_bounds _ _ V) as FB.
  assert (T : 0 < 2 ^ 1074) by (apply pow2_gt0; lia).
  change (Z.pos 4503599627370496 * 2 ^ (-52 + 1074)) with (2 ^ 1074).
  pose proof (round_units_scale (Z.pos m * 2 ^ (e + 1074)) 1 (2 ^ 1074)
                ltac:(lia) ltac:(lia) T) as S.
  rewrite Z.mul_1_l in S. rewrite S. rewrite (valid_fix m e V).
  apply encode_finite. exact V.
Qed.

Lemma mul_one x : (x * 1)%float = x.
Proof.
  apply Prim2SF_inj. rewrite mul_spec. apply SFmul_one. apply Prim2SF_valid.
Qed.

Lemma float_of_max_lead s : lead_time s <= 1 ->
  Py.float_of_int (Z.max (lead_time s) 1) = Ok 1%float.
Proof. intros H. rewrite Z.max_r by lia. reflexivity. Qed.

Lemma safety_stock_short s tr : lead_time s <= 1 ->
  Py.round (service_target s) 2 = Ok tr ->
  safety_stock s = Ok (z_table tr * demand_std s)%float.
Proof.
  intros H Hr. rewrite (safety_stock_spec s tr 1%float Hr (float_of_max_lead s H)).
  change (PrimFloat.sqrt 1) with 1%float. rewrite mul_one. reflexivity.
Qed.

(** X13: for lead_time <= 1 (0 and negative values included) the guard
    max(lead_time, 1) makes the safety stock exactly z * demand_std, and the
    response carries that product rounded to 2 decimals. *)
Theorem X13_short_lead_time s : lead_time s <= 1 ->
  exists target_rounded,
    Py.round (service_target s) 2 = Ok target_rounded /\
    safety_stock s = Ok (z_table target_rounded * demand_std s)%float /\
    forall gauss resp, run_simulation s gauss = Ok resp ->
      exists r, Py.round (z_table target_rounded * demand_std s)%float 2 = Ok r /\
                field resp "safety_stock" = Some (VFloat r).
Proof.
  intros H. destruct (round_total (service_target s) 2) as (tr & Hr).
  pose proof (safety_stock_short s tr H Hr) as Ess.
  exists tr. split; [exact Hr|]. split; [exact Ess|].
  intros gauss resp R. apply run_simulation_inv in R.
  destruct R as (tc & ed & e & ss & rp & fc & start & avg & p & r_tc & r_ed & r_sl
                 & r_e & r_ss & r_rp & r_p & R).
  destruct R as (_ & _ & _ & Hss & _ & _ & _ & _ & _ & _ & _ & _ & _ & _ & Hr2 & _ & _ & ->).
  rewrite Ess in Hss. apply Ok_inj in Hss. subst ss.
  exists r_ss. split; [exact Hr2 | reflexivity].
Qed.

Lemma X13_witness : safety_stock ex_no_lead = Ok (1.65 * 10)%float.
Proof.
  destruct (X13_short_lead_time ex_no_lead) as (tr & Hr & Hss & _).
  - cbn. lia.
  - assert (tr = 0.95%float) as ->.
    { apply Ok_inj. rewrite <- Hr. vm_compute. reflexivity. }
    exact Hss.
Defined.

(** ** The signs of the scalars *)

Lemma SFadd_nonneg x y :
  sf_nonneg x = true -> sf_nonneg y = true -> sf_nonneg (SFadd prec emax x y) = true.
Proof.
  destruct x as [sx|sx| |sx mx ex]; destruct y as [sy|sy| |sy my ey]; simpl;
    intros Hx Hy; try reflexivity;
    try (destruct sx; try discriminate); try (destruct sy; try discriminate);
    try reflexivity.
  set (ez := Z.min ex ey).
  destruct (shl_align mx ex ez) as [m1 e1]. destruct (shl_align my ey ez) as [m2 e2].
  cbn [fst cond_Zopp]. change (Z.pos m1 + Z.pos m2) with (Z.pos (m1 + m2)).
  cbn [binary_normalize]. unfold binary_round.
  destruct (shl_align (m1 + m2) ez _) as [mz ez'].
  apply signed_false_nonneg. apply bra_signed. lia.
Qed.

Lemma add_nonneg x y : fnonneg x = true -> fnonneg y = true -> fnonneg (x + y)%float = true.
Proof. unfold fnonneg. rewrite add_spec. apply SFadd_nonneg. Qed.

Lemma encode_nonneg v : sf_nonneg (encode false v) = true.
Proof.
  unfold encode. destruct (v =? 0); [reflexivity|].
  destruct (2 ^ 2098 <=? v); reflexivity.
Qed.

Lemma round_nonneg x nd r : Py.round x nd = Ok r -> fnonneg x = true -> fnonneg r = true.
Proof.
  unfold Py.round, fnonneg. intros H P.
  pose proof (pow10_pos nd) as P10. set (p10 := 10 ^ Z.of_nat nd) in *.
  destruct (Prim2SF x) as [s|s| |s m e] eqn:E;
    try (apply Ok_inj in H; subst r; rewrite E; exact P).
  assert (s = false) as -> by (destruct s; [discriminate | reflexivity]).
  destruct (Z.leb_spec 0 e) as [Le|Le]; [apply Ok_inj in H; subst r; rewrite E; exact P|].
  cbv zeta in H.
  set (n := Py.div_half_even (Z.pos m * p10) (2 ^ (- e))) in *.
  destruct (Z.eqb_spec n 0) as [En|Nn].
  - apply Ok_inj in H. subst r. rewrite Prim2SF_SF2Prim by reflexivity. reflexivity.
  - assert (N0 : 0 <= n).
    { apply dhe_nonneg; [apply pow2_gt0; lia | lia]. }
    pose proof (div_core_correct false n 0 p10 0 ltac:(lia) ltac:(lia) ltac:(lia)) as C.
    destruct (SFdiv_core_binary prec emax n 0 p10 0) as [[mz ez] lz].
    rewrite C in H. change (0 - 0 + 1074) with 1074 in H.
    set (v := round_units (n * 2 ^ 1074) p10) in *.
    assert (V0 : 0 <= v).
    { apply round_units_nonneg; [|lia]. pose proof (pow2_gt0 1074 ltac:(lia)). nia. }
    assert (r = SF2Prim (encode false v)) as ->.
    { destruct (encode false v) eqn:Ee; try (apply Ok_inj in H; auto). discriminate. }
    rewrite Prim2SF_SF2Prim by (apply encode_valid; exact V0).
    apply encode_nonneg.
Qed.

Lemma not_negative_round x nd r : Py.round x nd = Ok r -> fnonneg x = true ->
  not_negative r.
Proof. intros H P. apply fnonneg_ltb0. apply (round_nonneg x nd r H P). Qed.

Lemma float_nonneg z f : 0 <= z -> Py.float_of_int z = Ok f -> fnonneg f = true.
Proof.
  intros Hz E. destruct (float_of_int_inv z f E) as (_ & _ & P).
  apply ord_fnonneg. apply P. exact Hz.
Qed.

Lemma truediv_nonneg a b f : 0 <= a -> 0 < b -> Py.int_truediv a b = Ok f ->
  fnonneg f = true.
Proof.
  intros Ha Hb. unfold Py.int_truediv, fnonneg.
  destruct (Z.eqb_spec b 0); try lia.
  replace (a <? 0) with false by (symmetry; apply Z.ltb_ge; lia).
  replace (b <? 0) with false by (symmetry; apply Z.ltb_ge; lia).
  cbn [xorb].
  destruct (Z.eqb_spec a 0) as [->|Na].
  - intros H. apply Ok_inj in H. subst f. reflexivity.
  - rewrite !Z.abs_eq by lia.
    pose proof (div_core_correct false a 0 b 0 ltac:(lia) ltac:(lia) ltac:(lia)) as C.
    destruct (SFdiv_core_binary prec emax a 0 b 0) as [[mz ez] lz].
    rewrite C. change (0 - 0 + 1074) with 1074.
    set (v := round_units (a * 2 ^ 1074) b).
    assert (V0 : 0 <= v).
    { apply round_units_nonneg; [|lia]. pose proof (pow2_gt0 1074 ltac:(lia)). nia. }
    intros H.
    assert (f = SF2Prim (encode false v)) as ->.
    { destruct (encode false v) eqn:Ee; try (apply Ok_inj in H; auto). discriminate. }
    rewrite Prim2SF_SF2Prim by (apply encode_valid; exact V0).
    apply encode_nonneg.
Qed.

Lemma total_cost_nonneg s tc : 0 <= demand s -> fle 0 (cost s) ->
  total_cost s = Ok tc -> fnonneg tc = true.
Proof.
  intros Hd Hc. unfold total_cost.
  destruct (Py.float_of_int (demand s)) as [d|] eqn:E; [|discriminate].
  cbv beta iota delta [bind]. intros H. apply Ok_inj in H. subst tc.
  apply mul_nonneg; [apply (float_nonneg _ _ Hd E) | apply leb0_fnonneg; exact Hc].
Qed.

Lemma expected_delay_nonneg s ed : 0 <= lead_time s ->
  expected_delay s = Ok ed -> fnonneg ed = true.
Proof.
  intros Hl. unfold expected_delay.
  destruct (Py.float_of_int (lead_time s)) as [l|] eqn:E; [|discriminate].
  cbv beta iota delta [bind]. intros H. apply Ok_inj in H. subst ed.
  apply mul_nonneg; [apply (float_nonneg _ _ Hl E) | reflexivity].
Qed.

Lemma eoq_nonneg s e : 0 <= demand s -> flt 0 (ordering_cost s) ->
  flt 0 (holding_cost s) -> eoq s = Ok e -> fnonneg e = true.
Proof.
  intros Hd Ho Hh H.
  destruct (Py.float_of_int (2 * demand s)) as [d2|] eqn:E;
    [|unfold eoq in H; rewrite E in H; discriminate].
  rewrite (eoq_sqrt s d2 E) in H. apply math_sqrt_inv in H. subst e.
  apply sqrt_nonneg. unfold eoq_radicand.
  apply div_nonneg; [|apply max_eps_pos; exact Hh].
  apply mul_nonneg; [apply (float_nonneg (2 * demand s) d2); [lia | exact E]|].
  apply fpos_fnonneg, ltb0_fpos, Ho.
Qed.

Lemma reorder_point_nonneg s ss rp : 0 <= demand s -> 0 <= lead_time s ->
  fnonneg ss = true -> reorder_point s ss = Ok rp -> fnonneg rp = true.
Proof.
  intros Hd Hl Hss. unfold reorder_point.
  destruct (Py.int_truediv (demand s) (Z.max (lead_time s) 1)) as [dd|] eqn:E1; [|discriminate].
  cbv beta iota delta [bind].
  destruct (Py.float_of_int (lead_time s)) as [l|] eqn:E2; [|discriminate].
  cbv beta iota. intros H. apply Ok_inj in H. subst rp.
  apply add_nonneg; [|exact Hss].
  apply mul_nonneg; [apply (truediv_nonneg (demand s) (Z.max (lead_time s) 1)); [lia | lia | exact E1]|].
  apply (float_nonneg _ _ Hl E2).
Qed.

Lemma service_rule_nonneg ty : fnonneg (service_rule ty) = true.
Proof.
  unfold service_rule.
  destruct (String.eqb _ "optimistic"); [reflexivity|].
  destruct (String.eqb _ "pessimistic"); reflexivity.
Qed.

(** X14: for a request within the documented ranges, no scalar of the
    response is negative: total_cost, expected_delay, service_level, eoq,
    safety_stock, reorder_point and stockout_probability are all present
    and none of them compares below 0. *)
Theorem X14_scalars_not_negative s gauss resp :
  in_ranges s -> run_simulation s gauss = Ok resp ->
  forall k, In k scalar_keys ->
    exists v, field resp k = Some (VFloat v) /\ not_negative v.
Proof.
  intros (Hd & Hl & Hc & Ho & Hh & Hs) H. apply run_simulation_inv in H.
  destruct H as (tc & ed & e & ss & rp & fc & start & avg & p & r_tc & r_ed & r_sl
                 & r_e & r_ss & r_rp & r_p & H).
  destruct H as (Htc & Hed & He & Hss & Hrp & _ & _ & _ & _ & Hp & R1 & R2 & R3 & R4 & R5 & R6 & R7 & ->).
  pose proof (total_cost_nonneg s tc Hd Hc Htc) as P1.
  pose proof (expected_delay_nonneg s ed Hl Hed) as P2.
  pose proof (service_rule_nonneg (scenario_type s)) as P3.
  rewrite <- service_level_rule in P3.
  pose proof (eoq_nonneg s e Hd Ho Hh He) as P4.
  pose proof (safety_stock_nonneg s ss Hs Hss) as P5.
  pose proof (reorder_point_nonneg s ss rp Hd Hl P5 Hrp) as P6.
  assert (P7 : not_negative r_p).
  { pose proof (events_range gauss start) as B.
    destruct (prob_facts _ B) as (p' & r' & fk & E1 & E2 & _ & _ & _ & _ & L & _).
    rewrite Hp in E1. apply Ok_inj in E1. subst p'.
    rewrite R7 in E2. apply Ok_inj in E2. subst r'.
    apply fnonneg_ltb0, leb0_fnonneg, L. }
  intros k Hk. cbn [scalar_keys In] in Hk.
  destruct Hk as [<-|[<-|[<-|[<-|[<-|[<-|[<-|[]]]]]]]].
  - exists r_tc. split; [reflexivity | apply (not_negative_round _ _ _ R1 P1)].
  - exists r_ed. split; [reflexivity | apply (not_negative_round _ _ _ R2 P2)].
  - exists r_sl. split; [reflexivity | apply (not_negative_round _ _ _ R3 P3)].
  - exists r_e. split; [reflexivity | apply (not_negative_round _ _ _ R4 P4)].
  - exists r_ss. split; [reflexivity | apply (not_negative_round _ _ _ R5 P5)].
  - exists r_rp. split; [reflexivity | apply (not_negative_round _ _ _ R6 P6)].
  - exists r_p. split; [reflexivity | exact P7].
Qed.

Lemma X14_witness :
  exists resp v,
    run_simulation (ex_scenario 100 10) (gauss_const 99.9) = Ok resp /\
    field resp "reorder_point" = Some (VFloat v) /\ not_negative v.
Proof.
  assert (E : exists resp, run_simulation (ex_scenario 100 10) (gauss_const 99.9) = Ok resp).
  { eexists. vm_compute. reflexivity. }
  destruct E as (resp & E). exists resp.
  destruct (X14_scalars_not_negative (ex_scenario 100 10) (gauss_const 99.9) resp
              (in_ranges_ex 10 eq_refl) E "reorder_point") as (v & F & N).
  - cbn. auto 10.
  - exists v. split; [exact E|]. split; [exact F | exact N].
Defined.

(** ** The case of the scenario type *)

Lemma lower_ascii_idem c : Py.lower_ascii (Py.lower_ascii c) = Py.lower_ascii c.
Proof. destruct c as [[] [] [] [] [] [] [] []]; reflexivity. Qed.

Lemma lower_idem s : Py.lower (Py.lower s) = Py.lower s.
Proof.
  induction s as [|c s IH]; [reflexivity|].
  cbn [Py.lower]. rewrite lower_ascii_idem, IH. reflexivity.
Qed.

Lemma for_in_ext {S : Type} (body body' : nat -> S -> result S) :
  (forall x st, body x st = body' x st) ->
  forall xs st, for_in xs body st = for_in xs body' st.
Proof.
  intros H. induction xs as [|x xs IH]; intros st; [reflexivity|].
  cbn [for_in]. rewrite H. destruct (body' x st) as [st'|e]; [apply IH | reflexivity].
Qed.

Lemma forecast_type s ty : Py.lower ty = Py.lower (scenario_type s) ->
  forecast (with_type s ty) = forecast s.
Proof.
  intros E. unfold forecast. apply for_in_ext. intros t fc.
  unfold forecast_step, growth. cbn [scenario_type demand with_type]. rewrite E.
  reflexivity.
Qed.

Lemma service_level_type s ty : Py.lower ty = Py.lower (scenario_type s) ->
  service_level (with_type s ty) = service_level s.
Proof.
  intros E. unfold service_level. cbn [scenario_type with_type]. rewrite E. reflexivity.
Qed.

(** X15: the scenario type matters only through its lower-case form:
    replacing it by any string with the same lower-case form, in particular
    by its lower-case form itself, does not change the outcome of the run. *)
Theorem X15_type_case s gauss :
  (forall ty, Py.lower ty = Py.lower (scenario_type s) ->
     run_simulation (with_type s ty) gauss = run_simulation s gauss) /\
  run_simulation (with_type s (Py.lower (scenario_type s))) gauss
  = run_simulation s gauss.
Proof.
  assert (G : forall ty, Py.lower ty = Py.lower (scenario_type s) ->
              run_simulation (with_type s ty) gauss = run_simulation s gauss).
  { intros ty E. unfold run_simulation.
    rewrite (forecast_type s ty E), (service_level_type s ty E).
    reflexivity. }
  split; [exact G|]. apply G. apply lower_idem.
Qed.

Lemma X15_witness :
  run_simulation (with_type ex_optimistic "OPTIMISTIC") (gauss_const 99.9)
  = run_simulation ex_optimistic (gauss_const 99.9).
Proof.
  destruct (X15_type_case ex_optimistic (gauss_const 99.9)) as [W _].
  apply W. reflexivity.
Defined.

(** ** A lead time of 0 *)

(** The product of a positive finite float and a float that is not
    negative is a number that is not negative. *)
Lemma SFmul_pos_l mx ex y : bounded prec emax mx ex = true ->
  valid_binary y = true -> sf_nan y = false -> 0 <= ord y ->
  sf_nan (SFmul prec emax (S754_finite false mx ex) y) = false /\
  0 <= ord (SFmul prec emax (S754_finite false mx ex) y).
Proof.
  intros Bx Vy Ny Oy. pose proof INF_pos as IP.
  destruct y as [sy|sy| |sy my ey]; try discriminate.
  - split; [reflexivity|]. cbn. lia.
  - destruct sy; [unfold ord in Oy; lia|]. split; [reflexivity|]. cbn [SFmul xorb ord]. lia.
  - cbn [valid_binary] in Vy. pose proof (finite_ord_bounds _ _ Vy).
    destruct sy; [unfold ord in Oy; cbv zeta in Oy; lia|].
    destruct (SFmul_finite false mx ex false my ey Bx Vy) as (_ & _ & N & O).
    split; [exact N|]. rewrite O. cbn [xorb]. unfold sgn.
    assert (T : 0 < 2 ^ 1074) by (apply pow2_gt0; lia).
    pose proof (finite_ord_bounds _ _ Bx).
    assert (0 <= round_units (Z.pos mx * 2 ^ (ex + 1074) * (Z.pos my * 2 ^ (ey + 1074))) (2 ^ 1074))
      by (apply round_units_nonneg; nia).
    lia.
Qed.

Lemma mul_pos_l x y : fnan x = false -> 0 < F2Z x < INF ->
  fnan y = false -> 0 <= F2Z y ->
  fnan (x * y)%float = false /\ 0 <= F2Z (x * y)%float.
Proof.
  intros Nx Bx Ny Oy. unfold fnan, F2Z in *. rewrite mul_spec.
  pose proof (Prim2SF_valid x) as Vx. pose proof (Prim2SF_valid y) as Vy.
  destruct (Prim2SF x) as [sx|sx| |sx mx ex]; try discriminate.
  - unfold ord in Bx. lia.
  - unfold ord in Bx. destruct sx; lia.
  - cbn [valid_binary] in Vx. pose proof (finite_ord_bounds _ _ Vx).
    destruct sx; [unfold ord in Bx; cbv zeta in Bx; lia|].
    apply SFmul_pos_l; assumption.
Qed.

Lemma z_table_pos tr : fnan (z_table tr) = false /\ 0 < F2Z (z_table tr) < INF.
Proof.
  unfold z_table.
  destruct (PrimFloat.eqb tr 0.9); [|destruct (PrimFloat.eqb tr 0.95);
    [|destruct (PrimFloat.eqb tr 0.97); [|destruct (PrimFloat.eqb tr 0.99)]]];
  (split; [reflexivity|]; split; apply Z.ltb_lt; vm_compute; reflexivity).
Qed.

Lemma round_same x y nd rx ry :
  fnan x = false -> fnan y = false -> 0 <= F2Z x -> F2Z x = F2Z y ->
  Py.round x nd = Ok rx -> Py.round y nd = Ok ry ->
  PrimFloat.eqb rx ry = true.
Proof.
  intros Nx Ny P E Hx Hy.
  destruct (round_mono x y nd rx ry Nx Ny ltac:(lia) Hx Hy) as (N1 & N2 & B1).
  destruct (round_mono y x nd ry rx Ny Nx ltac:(lia) Hy Hx) as (_ & _ & B2).
  rewrite (eqb_ord _ _ N1 N2). apply Z.eqb_eq. lia.
Qed.

(** X16: with lead_time = 0, demand >= 0 and demand_std >= 0, the guarded
    daily demand is multiplied by 0, so the reorder point of the response
    equals its safety stock. *)
Theorem X16_zero_lead_time s gauss resp :
  run_simulation s gauss = Ok resp ->
  lead_time s = 0 -> 0 <= demand s -> fle 0 (demand_std s) ->
  exists r_ss r_rp,
    field resp "safety_stock" = Some (VFloat r_ss) /\
    field resp "reorder_point" = Some (VFloat r_rp) /\
    PrimFloat.eqb r_rp r_ss = true.
Proof.
  intros H Hl Hd Hs. apply run_simulation_inv in H.
  destruct H as (tc & ed & e & ss & rp & fc & start & avg & p & r_tc & r_ed & r_sl
                 & r_e & r_ss & r_rp & r_p & H).
  destruct H as (_ & _ & _ & Hss & Hrp & _ & _ & _ & _ & _ & _ & _ & _ & _ & R5 & R6 & _ & ->).
  exists r_ss, r_rp. split; [reflexivity|]. split; [reflexivity|].
  destruct (round_total (service_target s) 2) as (tr & Hr).
  rewrite (safety_stock_short s tr ltac:(lia) Hr) in Hss. apply Ok_inj in Hss.
  destruct (leb_true_inv _ _ Hs) as (_ & Nstd & Ostd). rewrite F2Z_zero in Ostd.
  destruct (z_table_pos tr) as [Nz Bz].
  destruct (mul_pos_l _ _ Nz Bz Nstd Ostd) as [Nss Oss]. rewrite Hss in Nss, Oss.
  unfold reorder_point in Hrp. rewrite Hl in Hrp.
  change (Z.max 0 1) with 1 in Hrp. change (Py.float_of_int 0) with (Ok 0%float) in Hrp.
  destruct (Py.int_truediv (demand s) 1) as [dd|] eqn:Edd; [|discriminate].
  cbv beta iota delta [bind] in Hrp. apply Ok_inj in Hrp.
  assert (Ndd : fnan dd = false /\ 0 <= F2Z dd < INF).
  { pose proof INF_pos.
    destruct (Z_lt_le_dec (round_units (Z.abs (demand s) * 2 ^ 1074) 1) INF) as [L|G].
    - destruct (int_truediv_signed (demand s) 1 ltac:(lia) L) as (f & E & N & O).
      rewrite Edd in E. apply Ok_inj in E. subst f. split; [exact N|]. rewrite O.
      replace (demand s <? 0) with false by (symmetry; apply Z.ltb_ge; lia).
      unfold sgn. split; [|exact L].
      apply round_units_nonneg; [|lia]. pose proof (pow2_gt0 1074 ltac:(lia)). lia.
    - exfalso. revert Edd. unfold Py.int_truediv. cbn [Z.eqb].
      replace (demand s <? 0) with false by (symmetry; apply Z.ltb_ge; lia).
      cbn [Z.ltb Z.compare xorb].
      destruct (Z.eqb_spec (demand s) 0) as [E0|N0].
      { rewrite E0 in G. change (Z.abs 0 * 2 ^ 1074) with 0 in G.
        rewrite round_units_0 in G by lia. lia. }
      pose proof (div_core_correct false (Z.abs (demand s)) 0 1 0 ltac:(lia) ltac:(lia) ltac:(lia)) as C.
      change (Z.abs 1) with 1.
      destruct (SFdiv_core_binary prec emax (Z.abs (demand s)) 0 1 0) as [[mz ez] lz].
      rewrite C. change (0 - 0 + 1074) with 1074.
      assert (V0 : 0 <= round_units (Z.abs (demand s) * 2 ^ 1074) 1).
      { apply round_units_nonneg; [|lia]. pose proof (pow2_gt0 1074 ltac:(lia)). lia. }
      destruct (proj2 (encode_inf false _ V0) G) as (s' & ->). discriminate. }
  destruct Ndd as [Ndd Bdd].
  destruct (mul_ord dd 0 Ndd fnan_zero Bdd ltac:(rewrite F2Z_zero; pose proof INF_pos; lia))
    as [Nm Om].
  rewrite F2Z_zero, Z.mul_0_r, round_units_0 in Om by (apply pow2_gt0; lia).
  rewrite Z.min_r in Om by (pose proof INF_pos; lia).
  destruct (add_ord _ ss Nm Nss ltac:(lia) Oss) as [Na Oa].
  rewrite Om, Z.add_0_l, (F2Z_fix ss Oss) in Oa.
  rewrite Z.min_r in Oa by (apply F2Z_range).
  rewrite Hrp in Na, Oa.
  apply (round_same rp ss 2 r_rp r_ss Na Nss ltac:(lia) Oa R6 R5).
Qed.

Lemma X16_witness :
  exists resp r_ss r_rp,
    run_simulation ex_no_lead (gauss_const 99.9) = Ok resp /\
    field resp "safety_stock" = Some (VFloat r_ss) /\
    field resp "reorder_point" = Some (VFloat r_rp) /\
    PrimFloat.eqb r_rp r_ss = true.
Proof.
  assert (E : exists resp, run_simulation ex_no_lead (gauss_const 99.9) = Ok resp).
  { eexists. vm_compute. reflexivity. }
  destruct E as (resp & E). exists resp.
  destruct (X16_zero_lead_time ex_no_lead (gauss_const 99.9) resp E eq_refl
              ltac:(cbn; lia) eq_refl) as (r_ss & r_rp & F1 & F2 & Q).
  exists r_ss, r_rp. split; [exact E|]. split; [exact F1|]. split; [exact F2 | exact Q].
Defined.

(** ** Draws that are not positive *)

Lemma sub_zero x : fnan x = false -> 0 < F2Z x -> (x - 0)%float = x.
Proof.
  intros N P. apply Prim2SF_inj. rewrite sub_spec.
  change (Prim2SF 0) with (S754_zero false).
  unfold fnan, F2Z in *. pose proof INF_pos.
  destruct (Prim2SF x) as [s|s| |s m e]; try discriminate; try reflexivity;
    unfold ord in P; lia.
Qed.

Lemma level_step_keep start : finite start -> 0 < F2Z start ->
  level_step start 0 = start /\ stockout start 0 = false.
Proof.
  intros [N B] P. unfold level_step, stockout. cbv zeta.
  rewrite (sub_zero start N P).
  assert (E : PrimFloat.leb start 0 = false).
  { rewrite (leb_ord start 0 N fnan_zero), F2Z_zero. apply Z.leb_gt. exact P. }
  rewrite E. split; reflexivity.
Qed.

Lemma path_keep start n : finite start -> 0 < F2Z start ->
  path_from start (repeat 0%float n) = repeat start n /\
  count_true (stockouts_from start (repeat 0%float n)) = 0.
Proof.
  intros F P. destruct (level_step_keep start F P) as [E1 E2].
  induction n as [|n [IH1 IH2]]; [split; reflexivity|].
  cbn [repeat path_from stockouts_from count_true]. rewrite E1, E2, IH1, IH2.
  split; reflexivity.
Qed.

Lemma draws_zero gauss c n : (forall i, (i < n)%nat -> PrimFloat.ltb 0 (gauss (c + i)%nat) = false) ->
  draws gauss c n = repeat 0%float n.
Proof.
  intros H. unfold draws.
  assert (G : forall a m, (forall i, (a <= i < a + m)%nat -> PrimFloat.ltb 0 (gauss (c + i)%nat) = false) ->
              map (fun i => Py.max 0%float (gauss (c + i)%nat)) (seq a m) = repeat 0%float m).
  { intros a m. revert a. induction m as [|m IH]; intros a Hm; [reflexivity|].
    cbn [seq map repeat]. unfold Py.max at 1. rewrite (Hm a) by lia.
    rewrite IH; [reflexivity|]. intros i Hi. apply Hm. lia. }
  apply G. intros i Hi. apply H. lia.
Qed.

Lemma run_keep gauss start run : no_positive_draw gauss -> (run < num_runs)%nat ->
  finite start -> 0 < F2Z start ->
  run_path gauss start run = repeat start horizon /\
  count_true (run_stockouts gauss start run) = 0.
Proof.
  intros H Hr F P. unfold run_path, run_stockouts, run_draws.
  rewrite (draws_zero gauss (run * horizon) horizon).
  - apply path_keep; assumption.
  - intros i Hi. apply H. unfold num_runs, horizon in *. lia.
Qed.

Lemma level_keep gauss start run t : no_positive_draw gauss -> (run < num_runs)%nat ->
  (t < horizon)%nat -> finite start -> 0 < F2Z start ->
  level gauss start run t = start.
Proof.
  intros H Hr Ht F P. unfold level.
  destruct (run_keep gauss start run H Hr F P) as [E _]. rewrite E.
  apply nth_repeat_lt. exact Ht.
Qed.

Lemma sum_counts_keep gauss start n : no_positive_draw gauss -> (n <= num_runs)%nat ->
  finite start -> 0 < F2Z start -> sum_counts gauss start n = 0.
Proof.
  intros H Hn F P. induction n as [|n IH]; [reflexivity|].
  cbn [sum_counts]. rewrite IH by lia.
  destruct (run_keep gauss start n H ltac:(lia) F P) as [_ C]. rewrite C. reflexivity.
Qed.

(** X17: draws that are not positive are floored to a demand of 0: when no
    draw is positive and the starting inventory is finite and positive,
    every level of every run and both bands stay at the starting inventory,
    and the response has stockout_probability 0.0 and risk_level "low". *)
Theorem X17_no_positive_draw s gauss resp ss start :
  run_simulation s gauss = Ok resp ->
  safety_stock s = Ok ss -> starting_inventory s ss = Ok start ->
  finite start -> flt 0 start -> no_positive_draw gauss ->
  (forall run t, (run < num_runs)%nat -> (t < horizon)%nat ->
     level gauss start run t = start) /\
  field resp "stockout_probability" = Some (VFloat 0) /\
  field resp "risk_level" = Some (VStr "low") /\
  exists lower upper,
    field resp "inventory_lower" = Some (VList lower) /\
    field resp "inventory_upper" = Some (VList upper) /\
    forall t, (t < horizon)%nat ->
      nth t lower 0%float = start /\ nth t upper 0%float = start.
Proof.
  intros H Hss Hst Hfin Hpos Hg.
  assert (P : 0 < F2Z start).
  { destruct (ltb_true_inv _ _ Hpos) as (_ & _ & L). rewrite F2Z_zero in L. exact L. }
  apply run_simulation_inv in H.
  destruct H as (tc & ed & e & ss' & rp & fc & start' & avg & p & r_tc & r_ed & r_sl
                 & r_e & r_ss & r_rp & r_p & H).
  destruct H as (_ & _ & _ & Hss' & _ & _ & Hst' & _ & -> & Hp & _ & _ & _ & _ & _ & _ & Hr & ->).
  rewrite Hss in Hss'. apply Ok_inj in Hss'. subst ss'.
  rewrite Hst in Hst'. apply Ok_inj in Hst'. subst start'.
  rewrite events_sum, (sum_counts_keep gauss start num_runs Hg (le_n _) Hfin P) in Hp.
  assert (Ep : p = 0%float).
  { apply Ok_inj. rewrite <- Hp. vm_compute. reflexivity. }
  subst p.
  assert (Er : r_p = 0%float).
  { apply Ok_inj. rewrite <- Hr. vm_compute. reflexivity. }
  subst r_p.
  split; [intros run t Hr' Ht; apply level_keep; assumption|].
  split; [reflexivity|]. split; [reflexivity|].
  eexists. eexists. split; [reflexivity|]. split; [reflexivity|].
  intros t Ht.
  destruct (lower_spec gauss start Hfin t Ht) as (_ & Il & _).
  destruct (upper_spec gauss start Hfin t Ht) as (_ & Iu & _).
  destruct (column_elem _ _ _ _ _ Il) as (r1 & Hr1 & E1).
  destruct (column_elem _ _ _ _ _ Iu) as (r2 & Hr2 & E2).
  rewrite E1, E2. split; apply level_keep; assumption.
Qed.

Lemma X17_witness :
  exists resp,
    run_simulation (ex_scenario 100 10) (gauss_const (-5)) = Ok resp /\
    field resp "stockout_probability" = Some (VFloat 0) /\
    field resp "risk_level" = Some (VStr "low").
Proof.
  assert (E : exists resp, run_simulation (ex_scenario 100 10) (gauss_const (-5)) = Ok resp).
  { eexists. vm_compute. reflexivity. }
  destruct E as (resp & E). exists resp. split; [exact E|].
  assert (S1 : safety_stock (ex_scenario 100 10) = Ok 33%float) by (vm_compute; reflexivity).
  assert (S2 : starting_inventory (ex_scenario 100 10) 33 = Ok 133%float) by (vm_compute; reflexivity).
  assert (G : no_positive_draw (gauss_const (-5))) by (intros k _; reflexivity).
  destruct (X17_no_positive_draw _ _ _ _ _ E S1 S2 finite_133 eq_refl G) as (_ & P & R & _).
  split; assumption.
Defined.

(** ** The square root of a positive float *)

Lemma sqrt_lt_pow q k : 0 <= q -> 0 <= k -> q * q < 2 ^ (2 * k) -> q < 2 ^ k.
Proof.
  intros Hq Hk H. replace (2 * k) with (k + k) in H by lia.
  rewrite pow2_add in H by lia. pose proof (pow2_gt0 k Hk). nia.
Qed.

Lemma sqrt_ge_pow q k : 0 <= q -> 0 <= k -> 2 ^ (2 * k) < (q + 1) * (q + 1) -> 2 ^ k <= q.
Proof.
  intros Hq Hk H. replace (2 * k) with (k + k) in H by lia.
  rewrite pow2_add in H by lia. pose proof (pow2_gt0 k Hk). nia.
Qed.

Lemma shift_match a s : 0 <= s ->
  match s with Z.pos _ => Z.shiftl a s | 0 => a | Z.neg _ => 0 end = a * 2 ^ s.
Proof.
  intros H. destruct s as [|p|p]; try lia.
  apply Z.shiftl_mul_pow2. lia.
Qed.

Lemma SFsqrt_core_facts m e : bounded prec emax m e = true ->
  let '(q, e', l) := SFsqrt_core_binary prec emax (Z.pos m) e in
  exists c, 0 < q /\ (c = 0 \/ c = 1 \/ c = 3) /\ l = loc_of c 4 /\
    -1074 <= e' /\ e' <= fexp prec emax (Zdigits2 q + e') /\
    (q + 1) * 2 ^ (e' + 1074) <= 2 ^ 2097.
Proof.
  intros B. destruct (bounded_inv _ _ B) as (Be & Dm & _).
  unfold SFsqrt_core_binary. cbv zeta.
  set (d := Zdigits2 (Z.pos m)) in *.
  pose proof (digits_pos (Z.pos m) ltac:(lia)) as Dp. fold d in Dp.
  destruct (digits_bounds (Z.pos m) ltac:(lia)) as [Db1 Db2]. fold d in Db1, Db2.
  rewrite !Z.div2_div. rewrite !fexp_eq.
  set (h := (d + e + 1) / 2).
  set (e' := Z.min (Z.max (h - 53) (-1074)) (e / 2)).
  assert (H2 : 2 * (e / 2) <= e) by (pose proof (Z.mul_div_le e 2); lia).
  assert (H3 : 2 * h <= d + e + 1) by (unfold h; pose proof (Z.mul_div_le (d + e + 1) 2); lia).
  assert (H4 : e < 2 * (e / 2) + 2) by (pose proof (Z.mul_succ_div_gt e 2); lia).
  assert (E1 : -1074 <= e') by (unfold e'; lia).
  set (s := e - 2 * e').
  assert (Hs : 0 <= s) by (unfold s, e'; lia).
  set (m' := match s with Z.pos _ => Z.shiftl (Z.pos m) s | 0 => Z.pos m | Z.neg _ => 0 end).
  assert (Em : m' = Z.pos m * 2 ^ s).
  { unfold m'. apply shift_match. exact Hs. }
  clearbody m'.
  pose proof (pow2_gt0 s Hs) as Ts.
  pose proof (Z.sqrtrem_spec m' ltac:(nia)) as SP.
  destruct (Z.sqrtrem m') as [q r]. destruct SP as [Sq Sr].
  assert (Q0 : 0 < q) by nia.
  assert (Hc : exists c, (c = 0 \/ c = 1 \/ c = 3) /\
                 (if r =? 0 then loc_Exact else loc_Inexact (if r <=? q then Lt else Gt))
                 = loc_of c 4).
  { destruct (Z.eqb_spec r 0).
    - exists 0. split; [auto | reflexivity].
    - destruct (Z.leb_spec r q).
      + exists 1. split; [auto | reflexivity].
      + exists 3. split; [auto | reflexivity]. }
  destruct Hc as (c & Cv & Cl). exists c.
  split; [exact Q0|]. split; [exact Cv|]. split; [exact Cl|]. split; [exact E1|].
  split.
  - rewrite ?fexp_eq.
    destruct (Z.eq_dec e' (-1074)) as [Ee|Ne]; [lia|].
    assert (L1 : e' <= h - 53) by (unfold e' in *; lia).
    assert (S105 : 105 - d <= s) by (unfold s; lia).
    assert (M104 : 2 ^ 104 <= m').
    { rewrite Em.
      assert (2 ^ (d - 1) * 2 ^ (105 - d) <= Z.pos m * 2 ^ s).
      { pose proof (pow2_le (105 - d) s ltac:(lia)).
        pose proof (pow2_gt0 (105 - d) ltac:(lia)). nia. }
      rewrite <- pow2_add in H by lia. replace (d - 1 + (105 - d)) with 104 in H by lia.
      exact H. }
    assert (Q52 : 2 ^ 52 <= q).
    { apply sqrt_ge_pow; try lia; try (change (2 ^ (2 * 52)) with (2 ^ 104); nia). }
    pose proof (digits_ge_pow q 52 ltac:(lia) Q52). lia.
  - set (k := (54 + s) / 2).
    assert (K1 : 53 + s <= 2 * k) by (unfold k; pose proof (Z.mul_succ_div_gt (54 + s) 2); lia).
    assert (K2 : 2 * k <= 54 + s) by (unfold k; pose proof (Z.mul_div_le (54 + s) 2); lia).
    assert (Qk : q < 2 ^ k).
    { apply sqrt_lt_pow; try lia.
      assert (m' < 2 ^ 53 * 2 ^ s).
      { rewrite Em. pose proof (pow2_le d 53 ltac:(lia)). nia. }
      rewrite <- pow2_add in H by lia.
      pose proof (pow2_le (53 + s) (2 * k) ltac:(lia)). nia. }
    assert (KE : k + (e' + 1074) <= 2097) by (unfold s in *; lia).
    pose proof (pow2_gt0 (e' + 1074) ltac:(lia)) as Te.
    pose proof (pow2_le (k + (e' + 1074)) 2097 ltac:(lia)) as PL.
    rewrite pow2_add in PL by lia. nia.
Qed.

Lemma SFsqrt_pos m e : bounded prec emax m e = true ->
  let r := SFsqrt prec emax (S754_finite false m e) in
  sf_nan r = false /\ 0 < ord r < INF.
Proof.
  intros B. cbv zeta. unfold SFsqrt.
  pose proof (SFsqrt_core_facts m e B) as F.
  destruct (SFsqrt_core_binary prec emax (Z.pos m) e) as [[q e'] l].
  destruct F as (c & Q0 & Cv & -> & E1 & E2 & U).
  set (P := 4 * q + c).
  assert (P4 : P / 4 = q /\ P mod 4 = c).
  { split; [symmetry; apply (Z.div_unique P 4 q c) | symmetry; apply (Z.mod_unique P 4 q c)];
      unfold P; lia. }
  destruct P4 as [Pd Pm].
  pose proof (bra_facts false P 4 e' ltac:(unfold P; lia) ltac:(lia) E1) as BF.
  rewrite Pd, Pm in BF. specialize (BF E2). cbv zeta in BF.
  destruct BF as (_ & _ & N & O).
  split; [exact N|]. rewrite O.
  set (X := 2 ^ (e' + 1074)) in *.
  assert (TX : 0 < X) by (apply pow2_gt0; lia).
  assert (L1 : 1 <= round_units (P * X) 4).
  { replace 1 with (round_units 4 4) at 1.
    - apply round_units_mono; try lia; unfold P; nia.
    - pose proof (round_units_scale 1 1 4 ltac:(lia) ltac:(lia) ltac:(lia)) as S.
      change (1 * 4) with 4 in S. rewrite S.
      exact (round_units_fix 1 0 ltac:(lia) ltac:(lia)). }
  assert (L2 : round_units (P * X) 4 <= 2 ^ 2097).
  { rewrite <- (Z.mul_1_l (2 ^ 2097)) at 1.
    rewrite <- (round_units_fix 1 2097) by lia.
    apply round_units_mono; try lia; unfold P; nia. }
  assert (2 ^ 2097 < INF) by (unfold INF; apply Z.pow_lt_mono_r; lia).
  lia.
Qed.

Lemma sqrt_pos x : fnan x = false -> 0 < F2Z x < INF ->
  fnan (PrimFloat.sqrt x) = false /\ 0 < F2Z (PrimFloat.sqrt x) < INF.
Proof.
  intros N B. unfold fnan, F2Z in *. rewrite sqrt_spec.
  pose proof (Prim2SF_valid x) as V.
  destruct (Prim2SF x) as [s|s| |s m e]; try discriminate.
  - unfold ord in B. lia.
  - unfold ord in B. destruct s; lia.
  - cbn [valid_binary] in V. pose proof (finite_ord_bounds _ _ V).
    destruct s; [unfold ord in B; cbv zeta in B; lia|].
    apply (SFsqrt_pos m e V).
Qed.

(** ** The reorder point and the safety stock *)

Lemma SFmul_pos_r x my ey : bounded prec emax my ey = true ->
  valid_binary x = true -> sf_nan x = false -> 0 <= ord x ->
  sf_nan (SFmul prec emax x (S754_finite false my ey)) = false /\
  0 <= ord (SFmul prec emax x (S754_finite false my ey)).
Proof.
  intros By Vx Nx Ox. pose proof INF_pos as IP.
  destruct x as [sx|sx| |sx mx ex]; try discriminate.
  - split; [reflexivity|]. cbn. lia.
  - destruct sx; [unfold ord in Ox; lia|]. split; [reflexivity|]. cbn [SFmul xorb ord]. lia.
  - cbn [valid_binary] in Vx. pose proof (finite_ord_bounds _ _ Vx).
    destruct sx; [unfold ord in Ox; cbv zeta in Ox; lia|].
    destruct (SFmul_finite false mx ex false my ey Vx By) as (_ & _ & N & O).
    split; [exact N|]. rewrite O. cbn [xorb]. unfold sgn.
    assert (T : 0 < 2 ^ 1074) by (apply pow2_gt0; lia).
    pose proof (finite_ord_bounds _ _ By).
    assert (0 <= round_units (Z.pos mx * 2 ^ (ex + 1074) * (Z.pos my * 2 ^ (ey + 1074))) (2 ^ 1074))
      by (apply round_units_nonneg; nia).
    lia.
Qed.

Lemma mul_pos_r x y : fnan x = false -> 0 <= F2Z x ->
  fnan y = false -> 0 < F2Z y < INF ->
  fnan (x * y)%float = false /\ 0 <= F2Z (x * y)%float.
Proof.
  intros Nx Ox Ny By. unfold fnan, F2Z in *. rewrite mul_spec.
  pose proof (Prim2SF_valid x) as Vx. pose proof (Prim2SF_valid y) as Vy.
  destruct (Prim2SF y) as [sy|sy| |sy my ey]; try discriminate.
  - unfold ord in By. lia.
  - unfold ord in By. destruct sy; lia.
  - cbn [valid_binary] in Vy. pose proof (finite_ord_bounds _ _ Vy).
    destruct sy; [unfold ord in By; cbv zeta in By; lia|].
    apply SFmul_pos_r; assumption.
Qed.

Lemma float_of_pos z f : 1 <= z -> Py.float_of_int z = Ok f ->
  fnan f = false /\ 0 < F2Z f < INF.
Proof.
  intros Hz E. pose proof (float_of_int_bound z f E) as B.
  destruct (float_of_int_ok z B) as (f' & E' & N & O & R).
  rewrite E in E'. apply Ok_inj in E'. subst f'.
  split; [exact N|]. split; [|lia].
  replace (z <? 0) with false in O by (symmetry; apply Z.ltb_ge; lia).
  rewrite Z.abs_eq in O by lia. unfold sgn in O. rewrite O.
  assert (T : 0 < 2 ^ 1074) by (apply pow2_gt0; lia).
  assert (L : round_units (1 * 2 ^ 1074) 1 <= round_units (z * 2 ^ 1074) 1).
  { apply round_units_mono; try lia; nia. }
  rewrite (round_units_fix 1 1074) in L by lia. lia.
Qed.

Lemma truediv_number a b dd : 0 <= a -> 1 <= b -> Py.int_truediv a b = Ok dd ->
  fnan dd = false /\ 0 <= F2Z dd < INF.
Proof.
  intros Ha Hb Edd. pose proof INF_pos.
  assert (V0 : 0 <= round_units (Z.abs a * 2 ^ 1074) b).
  { apply round_units_nonneg; [|lia]. pose proof (pow2_gt0 1074 ltac:(lia)). lia. }
  destruct (Z_lt_le_dec (round_units (Z.abs a * 2 ^ 1074) b) INF) as [L|G].
  - destruct (int_truediv_signed a b ltac:(lia) L) as (f & E & N & O).
    rewrite Edd in E. apply Ok_inj in E. subst f. split; [exact N|]. rewrite O.
    replace (a <? 0) with false by (symmetry; apply Z.ltb_ge; lia).
    unfold sgn. lia.
  - exfalso. revert Edd. unfold Py.int_truediv.
    destruct (Z.eqb_spec b 0); [lia|].
    destruct (Z.eqb_spec a 0) as [E0|N0].
    { rewrite E0 in G. change (Z.abs 0 * 2 ^ 1074) with 0 in G.
      rewrite round_units_0 in G by lia. lia. }
    pose proof (div_core_correct (xorb (a <? 0) (b <? 0)) (Z.abs a) 0 (Z.abs b) 0
                  ltac:(lia) ltac:(lia) ltac:(lia)) as C.
    destruct (SFdiv_core_binary prec emax (Z.abs a) 0 (Z.abs b) 0) as [[mz ez] lz].
    rewrite C. change (0 - 0 + 1074) with 1074. rewrite (Z.abs_eq b) by lia.
    destruct (proj2 (encode_inf (xorb (a <? 0) (b <? 0)) _ V0) G) as (s' & ->). discriminate.
Qed.

(** The safety stock is a number that is not negative. *)
Lemma safety_stock_number s ss : fle 0 (demand_std s) -> safety_stock s = Ok ss ->
  fnan ss = false /\ 0 <= F2Z ss.
Proof.
  intros Hs Hss.
  destruct (round_total (service_target s) 2) as (tr & Hr).
  destruct (safety_stock_inv s ss Hss) as (l & El).
  rewrite (safety_stock_spec s tr l Hr El) in Hss. apply Ok_inj in Hss.
  destruct (leb_true_inv _ _ Hs) as (_ & Nstd & Ostd). rewrite F2Z_zero in Ostd.
  destruct (z_table_pos tr) as [Nz Bz].
  destruct (mul_pos_l _ _ Nz Bz Nstd Ostd) as [N1 O1].
  destruct (float_of_pos (Z.max (lead_time s) 1) l ltac:(lia) El) as [Nl Bl].
  destruct (sqrt_pos l Nl Bl) as [Nr Br].
  destruct (mul_pos_r _ _ N1 O1 Nr Br) as [Nss Oss]. rewrite Hss in Nss, Oss.
  split; assumption.
Qed.

(** The sum of a number that is not negative and [y] is at least [y]. *)
Lemma add_ge_r x y : fnan x = false -> 0 <= F2Z x -> fnan y = false -> 0 <= F2Z y ->
  fnan (x + y)%float = false /\ F2Z y <= F2Z (x + y)%float.
Proof.
  intros Nx Ox Ny Oy. destruct (add_ord x y Nx Ny Ox Oy) as [Na Oa].
  split; [exact Na|]. rewrite Oa. pose proof (F2Z_range y) as R.
  assert (M : round_units (F2Z y) 1 <= round_units (F2Z x + F2Z y) 1)
    by (apply round_units_mono; lia).
  rewrite (F2Z_fix y Oy) in M. lia.
Qed.

(** X18: for demand >= 0, lead_time >= 0 and demand_std >= 0 the safety
    stock and the reorder point of the response are numbers (not NaN), the
    safety stock is >= 0 and the reorder point is at least the safety
    stock. *)
Theorem X18_reorder_above_safety s gauss resp :
  run_simulation s gauss = Ok resp ->
  0 <= demand s -> 0 <= lead_time s -> fle 0 (demand_std s) ->
  exists r_ss r_rp,
    field resp "safety_stock" = Some (VFloat r_ss) /\
    field resp "reorder_point" = Some (VFloat r_rp) /\
    fle 0 r_ss /\ fle r_ss r_rp.
Proof.
  intros H Hd Hl Hs. apply run_simulation_inv in H.
  destruct H as (tc & ed & e & ss & rp & fc & start & avg & p & r_tc & r_ed & r_sl
                 & r_e & r_ss & r_rp & r_p & H).
  destruct H as (_ & _ & _ & Hss & Hrp & _ & _ & _ & _ & _ & _ & _ & _ & _ & R5 & R6 & _ & ->).
  exists r_ss, r_rp. split; [reflexivity|]. split; [reflexivity|].
  destruct (safety_stock_number s ss Hs Hss) as [Nss Oss].
  unfold reorder_point in Hrp.
  destruct (Py.int_truediv (demand s) (Z.max (lead_time s) 1)) as [dd|] eqn:Edd; [|discriminate].
  cbv beta iota delta [bind] in Hrp.
  destruct (Py.float_of_int (lead_time s)) as [lt|] eqn:Elt; [|discriminate].
  cbv beta iota in Hrp. apply Ok_inj in Hrp.
  destruct (truediv_number (demand s) (Z.max (lead_time s) 1) dd Hd ltac:(lia) Edd) as [Ndd Bdd].
  destruct (float_of_nonneg_number _ _ Hl Elt) as [Nlt Blt].
  destruct (mul_ord dd lt Ndd Nlt Bdd Blt) as [Nm Om].
  assert (T : 0 < 2 ^ 1074) by (apply pow2_gt0; lia).
  pose proof INF_pos as IP.
  assert (M0 : 0 <= F2Z (dd * lt)%float).
  { rewrite Om. assert (0 <= round_units (F2Z dd * F2Z lt) (2 ^ 1074))
      by (apply round_units_nonneg; nia). lia. }
  destruct (add_ge_r _ ss Nm M0 Nss Oss) as [Na Ge]. rewrite Hrp in Na, Ge.
  destruct (round_mono ss rp 2 r_ss r_rp Nss Na ltac:(lia) R5 R6) as (Q1 & Q2 & Q3).
  split; apply fle_of_ord; try assumption; try reflexivity; rewrite ?F2Z_zero; lia.
Qed.

Lemma X18_witness :
  exists resp r_ss r_rp,
    run_simulation (ex_scenario 100 10) (gauss_const 99.9) = Ok resp /\
    field resp "safety_stock" = Some (VFloat r_ss) /\
    field resp "reorder_point" = Some (VFloat r_rp) /\
    fle r_ss r_rp.
Proof.
  assert (E : exists resp, run_simulation (ex_scenario 100 10) (gauss_const 99.9) = Ok resp).
  { eexists. vm_compute. reflexivity. }
  destruct E as (resp & E). exists resp.
  destruct (X18_reorder_above_safety (ex_scenario 100 10) (gauss_const 99.9) resp E
              ltac:(cbn; lia) ltac:(cbn; lia) eq_refl) as (r_ss & r_rp & F1 & F2 & _ & Q).
  exists r_ss, r_rp. split; [exact E|]. split; [exact F1|]. split; [exact F2 | exact Q].
Defined.

(** ** A demand of 0 *)

Lemma is_zero_ord x : fnan x = false -> F2Z x = 0 -> is_zero x.
Proof.
  intros N O. unfold is_zero. rewrite (eqb_ord x 0 N fnan_zero), O, F2Z_zero. reflexivity.
Qed.

Lemma mul_zero_l y : fnan y = false -> 0 <= F2Z y < INF ->
  fnan (0 * y)%float = false /\ F2Z (0 * y)%float = 0.
Proof.
  intros N B. pose proof INF_pos.
  destruct (mul_ord 0 y fnan_zero N ltac:(rewrite F2Z_zero; lia) B) as [Nm Om].
  split; [exact Nm|]. rewrite Om, F2Z_zero, Z.mul_0_l, round_units_0 by (apply pow2_gt0; lia).
  lia.
Qed.

Lemma div_zero_l x y : fnan x = false -> F2Z x = 0 -> fpos y = true ->
  fnan (x / y)%float = false /\ F2Z (x / y)%float = 0.
Proof.
  unfold fnan, F2Z, fpos. rewrite div_spec. intros N O P.
  pose proof (Prim2SF_valid x) as V. pose proof INF_pos.
  destruct (Prim2SF x) as [sx|sx| |sx mx ex]; try discriminate.
  - destruct (Prim2SF y) as [sy|sy| |sy my ey]; try discriminate; split; reflexivity.
  - unfold ord in O. destruct sx; lia.
  - cbn [valid_binary] in V. pose proof (finite_ord_bounds _ _ V).
    unfold ord in O. cbv zeta in O. destruct sx; lia.
Qed.

Lemma sqrt_zero x : fnan x = false -> F2Z x = 0 ->
  Py.math_sqrt x = Ok (PrimFloat.sqrt x) /\
  fnan (PrimFloat.sqrt x) = false /\ F2Z (PrimFloat.sqrt x) = 0.
Proof.
  intros N O. split.
  - unfold Py.math_sqrt. rewrite (ltb_ord x 0 N fnan_zero), O, F2Z_zero. reflexivity.
  - unfold fnan, F2Z in *. rewrite sqrt_spec.
    pose proof (Prim2SF_valid x) as V. pose proof INF_pos.
    destruct (Prim2SF x) as [sx|sx| |sx mx ex]; try discriminate.
    + split; reflexivity.
    + unfold ord in O. destruct sx; lia.
    + cbn [valid_binary] in V. pose proof (finite_ord_bounds _ _ V).
      unfold ord in O. cbv zeta in O. destruct sx; lia.
Qed.

Lemma round_zero x nd r : fnan x = false -> F2Z x = 0 -> Py.round x nd = Ok r ->
  is_zero r.
Proof.
  intros N O H. pose proof INF_pos.
  destruct (round_whole x nd r 0 N ltac:(lia) ltac:(rewrite O; reflexivity) ltac:(lia) H)
    as [Nr Or].
  apply is_zero_ord; [exact Nr | lia].
Qed.

Lemma number_below_inf x : fle 0 x -> flt x infinity ->
  fnan x = false /\ 0 <= F2Z x < INF.
Proof.
  intros H1 H2. destruct (leb_true_inv _ _ H1) as (_ & N & L).
  destruct (ltb_true_inv _ _ H2) as (_ & _ & U).
  rewrite F2Z_zero in L. rewrite F2Z_infinity in U. split; [exact N | lia].
Qed.

(** X19: with demand = 0, the other parameters within the documented
    ranges and cost and ordering_cost finite, the total cost and the EOQ of
    the response are 0, every forecast value is 0, and the reorder point
    equals the safety stock. *)
Theorem X19_zero_demand s gauss resp :
  run_simulation s gauss = Ok resp ->
  demand s = 0 -> in_ranges s ->
  flt (cost s) infinity -> flt (ordering_cost s) infinity ->
  exists r_tc r_e fc r_ss r_rp,
    field resp "total_cost" = Some (VFloat r_tc) /\ is_zero r_tc /\
    field resp "eoq" = Some (VFloat r_e) /\ is_zero r_e /\
    field resp "forecast" = Some (VList fc) /\
    (forall t, (t < 12)%nat -> is_zero (nth t fc 0%float)) /\
    field resp "safety_stock" = Some (VFloat r_ss) /\
    field resp "reorder_point" = Some (VFloat r_rp) /\
    PrimFloat.eqb r_rp r_ss = true.
Proof.
  intros H D0 (Hd & Hl & Hc & Ho & Hh & Hs) Fc Fo.
  destruct (forecast_inv s gauss resp H) as (d & fc & Ed & Hf & Ff).
  apply run_simulation_inv in H.
  destruct H as (tc & ed & e & ss & rp & fc' & start & avg & p & r_tc & r_ed & r_sl
                 & r_e & r_ss & r_rp & r_p & H).
  destruct H as (Htc & _ & He & Hss & Hrp & Hf' & _ & _ & _ & _ & R1 & _ & _ & R4 & R5 & R6 & _ & ->).
  rewrite Hf in Hf'. apply Ok_inj in Hf'. subst fc'.
  rewrite D0 in Ed. change (Py.float_of_int 0) with (Ok 0%float) in Ed.
  apply Ok_inj in Ed. subst d.
  exists r_tc, r_e, fc, r_ss, r_rp.
  destruct (number_below_inf _ Hc Fc) as [Nc Bc].
  assert (Po : fle 0 (ordering_cost s)).
  { destruct (ltb_true_inv _ _ Ho) as (_ & N & L).
    apply fle_of_ord; [reflexivity | exact N | lia]. }
  destruct (number_below_inf _ Po Fo) as [No Bo].
  split; [reflexivity|]. split.
  { unfold total_cost in Htc. rewrite D0 in Htc.
    change (Py.float_of_int 0) with (Ok 0%float) in Htc.
    cbv beta iota delta [bind] in Htc. apply Ok_inj in Htc. subst tc.
    destruct (mul_zero_l _ Nc Bc) as [N O]. apply (round_zero _ 2 _ N O R1). }
  split; [reflexivity|]. split.
  { unfold eoq in He. rewrite D0 in He. change (2 * 0) with 0 in He.
    change (Py.float_of_int 0) with (Ok 0%float) in He.
    cbv beta iota delta [bind] in He. unfold Py.float_div in He.
    rewrite max_eps_nonzero in He.
    destruct (mul_zero_l _ No Bo) as [N1 O1].
    destruct (div_zero_l _ _ N1 O1 (max_eps_pos _ Hh)) as [N2 O2].
    destruct (sqrt_zero _ N2 O2) as (Eq & N3 & O3).
    rewrite Eq in He. apply Ok_inj in He. subst e.
    apply (round_zero _ 2 _ N3 O3 R4). }
  split; [reflexivity|]. split.
  { intros t Ht. assert (Ed0 : Py.float_of_int (demand s) = Ok 0%float)
      by (rewrite D0; reflexivity).
    pose proof (forecast_cell s 0%float fc Hf Ed0 t Ht) as R.
    destruct (factor_number _ t (growth_values s) Ht) as [Nf Bf].
    destruct (mul_zero_l _ Nf Bf) as [N O]. apply (round_zero _ 2 _ N O R). }
  split; [reflexivity|]. split; [reflexivity|].
  destruct (safety_stock_number s ss Hs Hss) as [Nss Oss].
  unfold reorder_point in Hrp. rewrite D0 in Hrp.
  assert (Edd : Py.int_truediv 0 (Z.max (lead_time s) 1) = Ok 0%float).
  { unfold Py.int_truediv. destruct (Z.eqb_spec (Z.max (lead_time s) 1) 0); [lia|].
    replace (Z.max (lead_time s) 1 <? 0) with false by (symmetry; apply Z.ltb_ge; lia).
    reflexivity. }
  rewrite Edd in Hrp. cbv beta iota delta [bind] in Hrp.
  destruct (Py.float_of_int (lead_time s)) as [lt|] eqn:Elt; [|discriminate].
  cbv beta iota in Hrp. apply Ok_inj in Hrp.
  destruct (float_of_nonneg_number _ _ Hl Elt) as [Nlt Blt].
  destruct (mul_zero_l _ Nlt Blt) as [Nm Om].
  destruct (add_ord _ ss Nm Nss ltac:(lia) Oss) as [Na Oa].
  rewrite Om, Z.add_0_l, (F2Z_fix ss Oss) in Oa.
  rewrite Z.min_r in Oa by (apply F2Z_range).
  rewrite Hrp in Na, Oa.
  apply (round_same rp ss 2 r_rp r_ss Na Nss ltac:(lia) Oa R6 R5).
Qed.

Lemma X19_witness :
  exists resp r_e,
    run_simulation (ex_scenario 0 10) (gauss_const 99.9) = Ok resp /\
    field resp "eoq" = Some (VFloat r_e) /\ is_zero r_e.
Proof.
  assert (E : exists resp, run_simulation (ex_scenario 0 10) (gauss_const 99.9) = Ok resp).
  { eexists. vm_compute. reflexivity. }
  destruct E as (resp & E). exists resp.
  assert (R : in_ranges (ex_scenario 0 10)).
  { unfold in_ranges. cbn [demand lead_time cost ordering_cost holding_cost demand_std ex_scenario].
    split; [lia|]. split; [lia|]. repeat split; reflexivity. }
  destruct (X19_zero_demand (ex_scenario 0 10) (gauss_const 99.9) resp E eq_refl R eq_refl eq_refl)
    as (r_tc & r_e & fc & r_ss & r_rp & _ & _ & F & Z & _).
  exists r_e. split; [exact E|]. split; [exact F | exact Z].
Defined.
